(** * LMS backend: enrollment ledger, attendance, aggregation and auth handlers

    A shallow embedding of the FastAPI handlers of [app/api/v1/endpoints]
    ([attendance.py], [students.py], [courses.py], [assignments.py],
    [auth.py]) over an explicit model of the MongoDB collections they read
    and write.  Handlers are state-passing functions in an exception monad:
    a Python exception aborts the handler and keeps the writes already made,
    exactly as the transaction-free source does. *)

From Stdlib Require Import ZArith List String Bool Lia.
From Stdlib Require Import Floats.PrimFloat Floats.FloatOps Floats.SpecFloat.
From Stdlib Require Import Sorting.Sorted Sorting.Permutation.
Import ListNotations.

Local Open Scope string_scope.
Local Open Scope Z_scope.

(** ** The Python fragment the handlers rely on *)

Module Py.

(** Exceptions that reach the framework.  [HTTPException] is the one the
    handlers raise on purpose; the others are raised by the interpreter
    (unbound names, failed attribute or key lookups) or by the token codec. *)
Inductive exn : Type :=
| HTTPException (status_code : Z) (detail : string)
| NameError (name : string)
| UnboundLocalError (name : string)
| AttributeError (type_name attr : string)
| KeyError (key : string)
| JWTError
| SMTPException
| ValueError
| OverflowError.

Inductive result (A : Type) : Type :=
| Ok (a : A)
| Raise (e : exn).
Arguments Ok {A} a.
Arguments Raise {A} e.

(** Sequencing of steps that may raise. *)
Definition result_bind {A B} (r : result A) (k : A -> result B) : result B :=
  match r with
  | Ok a => k a
  | Raise e => Raise e
  end.

(** The status code the framework answers with: the code of an
    [HTTPException], 500 for any exception no handler catches. *)
Definition http_status {A} (success : Z) (r : result A) : Z :=
  match r with
  | Ok _ => success
  | Raise (HTTPException c _) => c
  | Raise _ => 500
  end.

(** [fastapi.status] constants used by the handlers. *)
Definition HTTP_400_BAD_REQUEST : Z := 400.
Definition HTTP_401_UNAUTHORIZED : Z := 401.
Definition HTTP_403_FORBIDDEN : Z := 403.
Definition HTTP_404_NOT_FOUND : Z := 404.

(** Module-level name lookup: a name that no import or definition of the
    module binds raises [NameError] at the point of use. *)
Definition load_global (globals : list string) (name : string) : result unit :=
  if existsb (String.eqb name) globals then Ok tt else Raise (NameError name).

(** A function-local name that the body assigns somewhere: unbound before
    the assignment; afterwards it holds a [str], which has none of the
    attributes of [fastapi.status]. *)
Definition load_local_attr (local : option string) (name attr : string)
  : result Z :=
  match local with
  | None => Raise (UnboundLocalError name)
  | Some _ => Raise (AttributeError "str" attr)
  end.

(** Numbers: Python keeps [int] and [float] apart ([attendance_rate = 0] is
    an [int], [(p / t) * 100] a [float]). *)
Inductive num : Type :=
| PInt (z : Z)
| PFloat (f : float).

(** [float(n)] for an [int]: the nearest binary64, ties to even. *)
Definition float_of_Z (z : Z) : float :=
  SF2Prim (binary_normalize prec emax z 0 false).

(** [a / b] on two [int]s (true division) with [b] non-zero; both operands
    are counts, far below 2^53, so converting them first loses nothing. *)
Definition int_truediv (a b : Z) : float :=
  PrimFloat.div (float_of_Z a) (float_of_Z b).

(** [sum(xs)] over floats: accumulated left to right from the [int] 0
    (CPython 3.12 and later also compensate the additions' rounding
    errors; nothing below depends on how the additions round). *)
Definition float_sum (xs : list float) : float :=
  fold_left PrimFloat.add xs (float_of_Z 0).

(** Nearest integer to [n / d] for [0 < d], ties to the even neighbour. *)
Definition round_half_even_div (n d : Z) : Z :=
  let q := n / d in
  let r := n mod d in
  match 2 * r ?= d with
  | Lt => q
  | Gt => q + 1
  | Eq => if Z.even q then q else q + 1
  end.

(** Nearest integer to the exact value of [x * k]; [None] on inf and nan. *)
Definition scaled_nearest (x : float) (k : Z) : option Z :=
  match Prim2SF x with
  | S754_zero _ => Some 0
  | S754_finite s m e =>
      let n := (if s then Z.neg m else Z.pos m) * k in
      Some (if 0 <=? e then n * 2 ^ e else round_half_even_div n (2 ^ (- e)))
  | _ => None
  end.

(** [round(x, 2)] on a float: the correctly rounded two-decimal string of
    [x], read back as the nearest binary64 (exact on the range of rates and
    scores, |x| < 2^53 / 100); inf and nan are returned unchanged. *)
Definition float_round2 (x : float) : float :=
  match scaled_nearest x 100 with
  | Some n => PrimFloat.div (float_of_Z n) (float_of_Z 100)
  | None => x
  end.

(** [round(x, 2)]: an [int] is returned as it is. *)
Definition round2 (x : num) : num :=
  match x with
  | PInt z => PInt z
  | PFloat f => PFloat (float_round2 f)
  end.

(** [round(x)]: an [int]; on a float the nearest integer, ties to even.
    A nan raises [ValueError] ("cannot convert float NaN to integer") and
    an infinity [OverflowError]. *)
Definition round0 (x : num) : result Z :=
  match x with
  | PInt z => Ok z
  | PFloat f =>
      match scaled_nearest f 1 with
      | Some n => Ok n
      | None =>
          match Prim2SF f with
          | S754_nan => Raise ValueError
          | _ => Raise OverflowError
          end
      end
  end.

End Py.

Import Py.

(** ** The document store *)

Module Mongo.

(** [bson.ObjectId], [datetime.datetime] (a timestamp) and [datetime.date]
    (a day number): only equality and order on them are used. *)
Definition ObjectId := nat.
Definition datetime := Z.
Definition date := Z.

Section Collection.
Context {A : Type}.

(** [find(query)]: the matching documents, in natural order. *)
Definition find (q : A -> bool) (c : list A) : list A := filter q c.

(** [find_one(query)]: the first matching document, [None] when absent. *)
Definition find_one (q : A -> bool) (c : list A) : option A := List.find q c.

(** [update_one(query, {"$set"/"$inc": ...})]: the first match is changed. *)
Fixpoint update_one (q : A -> bool) (f : A -> A) (c : list A) : list A :=
  match c with
  | [] => []
  | d :: c' => if q d then f d :: c' else d :: update_one q f c'
  end.

(** [delete_one(query)]: the first match is removed. *)
Fixpoint delete_one (q : A -> bool) (c : list A) : list A :=
  match c with
  | [] => []
  | d :: c' => if q d then c' else d :: delete_one q c'
  end.

Fixpoint max_by (key : A -> Z) (best : A) (c : list A) : A :=
  match c with
  | [] => best
  | d :: c' => max_by key (if key best <? key d then d else best) c'
  end.

(** [find_one(query, sort=[(key, -1)])]: a match whose key is greatest. *)
Definition find_one_sort_desc (key : A -> Z) (q : A -> bool) (c : list A)
  : option A :=
  match filter q c with
  | [] => None
  | d :: ds => Some (max_by key d ds)
  end.
End Collection.

(** Document shapes, field for field as the handlers insert them (fields no
    modelled handler reads are left out of [course_doc], [user_doc],
    [assignment_doc] and [student_profile_doc]). *)
Record course_doc := {
  c_id : ObjectId;
  c_courseName : string;
  c_instructorName : string;
  c_teacher_id : ObjectId;
  c_maxStudents : Z;
  c_studentsEnrolled : Z;
  c_hasModules : bool }.

Record enrollment_doc := {
  e_id : ObjectId;
  e_course_id : ObjectId;
  e_student_id : ObjectId;
  e_enrollment_date : datetime;
  e_progress : Z;
  e_status : string }.

Record attendance_doc := {
  a_id : ObjectId;
  a_course_id : ObjectId;
  a_student_id : ObjectId;
  a_date : date;
  a_status : string;
  a_time : option string;
  a_note : option string;
  a_recorded_by : ObjectId;
  a_created_at : datetime }.

Record module_doc := {
  m_id : ObjectId;
  m_course_id : ObjectId;
  m_title : string;
  m_description : option string;
  m_order : Z;
  m_created_at : datetime }.

Record lesson_doc := {
  l_id : ObjectId;
  l_module_id : ObjectId;
  l_title : string;
  l_description : option string;
  l_duration : string;
  l_materialType : option string;
  l_materialUrl : option string;
  l_materialFile : option string;
  l_order : Z;
  l_created_at : datetime }.

Record assignment_doc := {
  as_id : ObjectId;
  as_title : string;
  as_deadline : datetime;
  as_course : ObjectId;
  as_teacher_id : ObjectId }.

Record submission_doc := {
  s_id : ObjectId;
  s_assignment_id : ObjectId;
  s_student_id : ObjectId;
  s_submission_file : option string;
  s_submission_text : option string;
  s_submitted_at : datetime;
  s_status : string;
  s_score : option float }.

Record notification_doc := {
  n_id : ObjectId;
  n_title : string;
  n_message : string;
  n_type : string;
  n_recipient_id : ObjectId;
  n_sender_id : ObjectId;
  n_course_id : ObjectId;
  n_read : bool;
  n_created_at : datetime }.

Record user_doc := {
  u_id : ObjectId;
  u_email : string;
  u_username : string }.

Record student_profile_doc := {
  p_id : ObjectId;
  p_user_id : ObjectId;
  p_full_name : option string }.

Record password_reset_doc := {
  pr_id : ObjectId;
  pr_email : string;
  pr_otp : string;
  pr_created_at : datetime;
  pr_expires_at : datetime }.

(** The database: one list per collection, in insertion order, and the
    next [_id] the driver hands out. *)
Record Db := {
  courses : list course_doc;
  enrollments : list enrollment_doc;
  attendance : list attendance_doc;
  modules : list module_doc;
  lessons : list lesson_doc;
  assignments : list assignment_doc;
  assignment_submissions : list submission_doc;
  notifications : list notification_doc;
  users : list user_doc;
  student_profiles : list student_profile_doc;
  password_reset : list password_reset_doc;
  next_id : ObjectId }.

Definition empty_db : Db :=
  {| courses := []; enrollments := []; attendance := []; modules := [];
     lessons := []; assignments := []; assignment_submissions := [];
     notifications := []; users := []; student_profiles := [];
     password_reset := []; next_id := 0%nat |}.

Definition with_courses (f : list course_doc -> list course_doc) (db : Db) :=
  {| courses := f (courses db); enrollments := enrollments db;
     attendance := attendance db; modules := modules db; lessons := lessons db;
     assignments := assignments db;
     assignment_submissions := assignment_submissions db;
     notifications := notifications db; users := users db;
     student_profiles := student_profiles db;
     password_reset := password_reset db; next_id := next_id db |}.

Definition with_enrollments (f : list enrollment_doc -> list enrollment_doc)
  (db : Db) :=
  {| courses := courses db; enrollments := f (enrollments db);
     attendance := attendance db; modules := modules db; lessons := lessons db;
     assignments := assignments db;
     assignment_submissions := assignment_submissions db;
     notifications := notifications db; users := users db;
     student_profiles := student_profiles db;
     password_reset := password_reset db; next_id := next_id db |}.

Definition with_attendance (f : list attendance_doc -> list attendance_doc)
  (db : Db) :=
  {| courses := courses db; enrollments := enrollments db;
     attendance := f (attendance db); modules := modules db;
     lessons := lessons db; assignments := assignments db;
     assignment_submissions := assignment_submissions db;
     notifications := notifications db; users := users db;
     student_profiles := student_profiles db;
     password_reset := password_reset db; next_id := next_id db |}.

Definition with_modules (f : list module_doc -> list module_doc) (db : Db) :=
  {| courses := courses db; enrollments := enrollments db;
     attendance := attendance db; modules := f (modules db);
     lessons := lessons db; assignments := assignments db;
     assignment_submissions := assignment_submissions db;
     notifications := notifications db; users := users db;
     student_profiles := student_profiles db;
     password_reset := password_reset db; next_id := next_id db |}.

Definition with_lessons (f : list lesson_doc -> list lesson_doc) (db : Db) :=
  {| courses := courses db; enrollments := enrollments db;
     attendance := attendance db; modules := modules db;
     lessons := f (lessons db); assignments := assignments db;
     assignment_submissions := assignment_submissions db;
     notifications := notifications db; users := users db;
     student_profiles := student_profiles db;
     password_reset := password_reset db; next_id := next_id db |}.

Definition with_submissions (f : list submission_doc -> list submission_doc)
  (db : Db) :=
  {| courses := courses db; enrollments := enrollments db;
     attendance := attendance db; modules := modules db;
     lessons := lessons db; assignments := assignments db;
     assignment_submissions := f (assignment_submissions db);
     notifications := notifications db; users := users db;
     student_profiles := student_profiles db;
     password_reset := password_reset db; next_id := next_id db |}.

Definition with_notifications
  (f : list notification_doc -> list notification_doc) (db : Db) :=
  {| courses := courses db; enrollments := enrollments db;
     attendance := attendance db; modules := modules db;
     lessons := lessons db; assignments := assignments db;
     assignment_submissions := assignment_submissions db;
     notifications := f (notifications db); users := users db;
     student_profiles := student_profiles db;
     password_reset := password_reset db; next_id := next_id db |}.

Definition with_password_reset
  (f : list password_reset_doc -> list password_reset_doc) (db : Db) :=
  {| courses := courses db; enrollments := enrollments db;
     attendance := attendance db; modules := modules db;
     lessons := lessons db; assignments := assignments db;
     assignment_submissions := assignment_submissions db;
     notifications := notifications db; users := users db;
     student_profiles := student_profiles db;
     password_reset := f (password_reset db); next_id := next_id db |}.

(** [insert_one] draws the document's [_id] from the driver's counter. *)
Definition fresh_id (db : Db) : ObjectId * Db :=
  (next_id db,
   {| courses := courses db; enrollments := enrollments db;
      attendance := attendance db; modules := modules db;
      lessons := lessons db; assignments := assignments db;
      assignment_submissions := assignment_submissions db;
      notifications := notifications db; users := users db;
     student_profiles := student_profiles db;
      password_reset := password_reset db; next_id := S (next_id db) |}).

End Mongo.

Import Mongo.

(** ** The handler monad: database state with Python exceptions *)

Definition M (A : Type) : Type := Db -> result A * Db.

Definition ret {A} (a : A) : M A := fun db => (Ok a, db).

Definition raise {A} (e : exn) : M A := fun db => (Raise e, db).

Definition bind {A B} (m : M A) (k : A -> M B) : M B :=
  fun db =>
    match m db with
    | (Ok a, db') => k a db'
    | (Raise e, db') => (Raise e, db')
    end.

(** An interpreter-level step (name or key lookup) inside a handler. *)
Definition lift {A} (r : result A) : M A := fun db => (r, db).

(** A read of one collection. *)
Definition query {A B} (coll : Db -> list A) (f : list A -> B) : M B :=
  fun db => (Ok (f (coll db)), db).

(** A write to one collection. *)
Definition write (upd : Db -> Db) : M unit := fun db => (Ok tt, upd db).

(** [insert_one]: returns the inserted [_id]. *)
Definition insert_one {A} (set : (list A -> list A) -> Db -> Db)
  (doc : ObjectId -> A) : M ObjectId :=
  fun db =>
    let (i, db') := fresh_id db in
    (Ok i, set (fun c => (c ++ [doc i])%list) db').

Declare Scope handler_scope.
Delimit Scope handler_scope with handler.
Notation "x <- m ;; k" := (bind m (fun x => k))
  (at level 61, m at next level, right associativity) : handler_scope.
Notation "m ;; k" := (bind m (fun _ => k))
  (at level 61, right associativity) : handler_scope.
Local Open Scope handler_scope.

(** A read-only handler body: it sees the database and leaves it as it is. *)
Definition reads {A} (f : Db -> A) : M A := fun db => (Ok (f db), db).

(** A read-only handler body that may raise. *)
Definition reads_result {A} (f : Db -> result A) : M A := fun db => (f db, db).

(** [d[key]] on a request dictionary: [KeyError] when the key is absent. *)
Definition getitem {A} (key : string) (v : option A) : result A :=
  match v with
  | Some a => Ok a
  | None => Raise (KeyError key)
  end.

(** [sum(1 for x in xs if p(x))]. *)
Definition sum_ones {A} (p : A -> bool) (xs : list A) : Z :=
  fold_left Z.add (map (fun _ => 1) (filter p xs)) 0.

(** Queries shared by the handlers. *)
Definition by_id_and_teacher (course_id teacher : ObjectId) (c : course_doc)
  : bool :=
  (c_id c =? course_id)%nat && (c_teacher_id c =? teacher)%nat.

Definition by_course_and_student (course_id student_id : ObjectId)
  (e : enrollment_doc) : bool :=
  (e_course_id e =? course_id)%nat && (e_student_id e =? student_id)%nat.

(** ** [endpoints/attendance.py] *)

Module Attendance.

Record AttendanceCreate := {
  ac_course_id : ObjectId;
  ac_student_id : ObjectId;
  ac_date : date;
  ac_status : string;
  ac_time : option string;
  ac_note : option string }.

(** One entry of [AttendanceBulkCreate.records], a plain [dict]: any of its
    keys may be missing. *)
Record BulkRecord := {
  br_student_id : option ObjectId;
  br_status : option string;
  br_time : option string;
  br_note : option string }.

Record AttendanceBulkCreate := {
  bc_course_id : ObjectId;
  bc_date : date;
  bc_records : list BulkRecord }.

(** The query [{course_id, student_id, date}]. *)
Definition by_key (course_id student_id : ObjectId) (d : date)
  (a : attendance_doc) : bool :=
  (a_course_id a =? course_id)%nat && (a_student_id a =? student_id)%nat
  && (a_date a =? d).

(** [{"$set": {"status": ..., "time": ..., "note": ...}}]. *)
Definition set_status_time_note (st : string) (tm nt : option string)
  (a : attendance_doc) : attendance_doc :=
  {| a_id := a_id a; a_course_id := a_course_id a;
     a_student_id := a_student_id a; a_date := a_date a;
     a_status := st; a_time := tm; a_note := nt;
     a_recorded_by := a_recorded_by a; a_created_at := a_created_at a |}.

Definition by_attendance_id (i : ObjectId) (a : attendance_doc) : bool :=
  (a_id a =? i)%nat.

Definition record_attendance (now : datetime) (attendance : AttendanceCreate)
  (current_user : ObjectId) : M string :=
  course <- query courses
    (find_one (by_id_and_teacher (ac_course_id attendance) current_user)) ;;
  match course with
  | None =>
      raise (HTTPException HTTP_404_NOT_FOUND
               "Course not found or you don't have permission")
  | Some _ =>
      enrollment <- query enrollments
        (find_one (by_course_and_student (ac_course_id attendance)
                     (ac_student_id attendance))) ;;
      match enrollment with
      | None =>
          raise (HTTPException HTTP_404_NOT_FOUND
                   "Student not enrolled in this course")
      | Some _ =>
          existing_record <- query Mongo.attendance
            (find_one (by_key (ac_course_id attendance)
                         (ac_student_id attendance) (ac_date attendance))) ;;
          match existing_record with
          | Some existing =>
              write (with_attendance
                       (update_one (by_attendance_id (a_id existing))
                          (set_status_time_note (ac_status attendance)
                             (ac_time attendance) (ac_note attendance)))) ;;
              ret "Attendance record updated successfully"
          | None =>
              insert_one with_attendance (fun i =>
                {| a_id := i;
                   a_course_id := ac_course_id attendance;
                   a_student_id := ac_student_id attendance;
                   a_date := ac_date attendance;
                   a_status := ac_status attendance;
                   a_time := ac_time attendance;
                   a_note := ac_note attendance;
                   a_recorded_by := current_user;
                   a_created_at := now |}) ;;
              ret "Attendance recorded successfully"
          end
      end
  end.

(** The body of the [for record in attendance_data.records] loop. *)
Definition bulk_record_one (now : datetime) (course_id : ObjectId) (d : date)
  (current_user : ObjectId) (record : BulkRecord) : M unit :=
  student_id <- lift (getitem "student_id" (br_student_id record)) ;;
  enrollment <- query enrollments
    (find_one (by_course_and_student course_id student_id)) ;;
  match enrollment with
  | None => ret tt
  | Some _ =>
      existing_record <- query Mongo.attendance
        (find_one (by_key course_id student_id d)) ;;
      match existing_record with
      | Some existing =>
          st <- lift (getitem "status" (br_status record)) ;;
          write (with_attendance
                   (update_one (by_attendance_id (a_id existing))
                      (set_status_time_note st (br_time record)
                         (br_note record))))
      | None =>
          st <- lift (getitem "status" (br_status record)) ;;
          insert_one with_attendance (fun i =>
            {| a_id := i;
               a_course_id := course_id;
               a_student_id := student_id;
               a_date := d;
               a_status := st;
               a_time := br_time record;
               a_note := br_note record;
               a_recorded_by := current_user;
               a_created_at := now |}) ;;
          ret tt
      end
  end.

Fixpoint bulk_loop (now : datetime) (course_id : ObjectId) (d : date)
  (current_user : ObjectId) (records : list BulkRecord) : M unit :=
  match records with
  | [] => ret tt
  | record :: rest =>
      bulk_record_one now course_id d current_user record ;;
      bulk_loop now course_id d current_user rest
  end.

Definition bulk_record_attendance (now : datetime)
  (attendance_data : AttendanceBulkCreate) (current_user : ObjectId)
  : M string :=
  course <- query courses
    (find_one (by_id_and_teacher (bc_course_id attendance_data)
                 current_user)) ;;
  match course with
  | None =>
      raise (HTTPException HTTP_404_NOT_FOUND
               "Course not found or you don't have permission")
  | Some _ =>
      bulk_loop now (bc_course_id attendance_data) (bc_date attendance_data)
        current_user (bc_records attendance_data) ;;
      ret "Attendance recorded successfully for all students"
  end.

(** [GET /attendance/student] *)

Record Statistics := {
  total : Z;
  present : Z;
  absent : Z;
  late : Z;
  excused : Z;
  attendance_rate : num }.

Record StudentAttendance := {
  attendance_records : list (attendance_doc * string);
  statistics : Statistics }.

(** [query = {"student_id": ...}], narrowed by [course_id] when one is
    given ([None] stands for an absent or empty parameter). *)
Definition student_query (course_id : option ObjectId)
  (current_user : ObjectId) (a : attendance_doc) : bool :=
  (a_student_id a =? current_user)%nat
  && match course_id with
     | Some c => (a_course_id a =? c)%nat
     | None => true
     end.

(** The [async for record in cursor] loop: a record is kept, with its
    course's name, when its course still exists. *)
Fixpoint collect_records (cs : list course_doc) (cursor : list attendance_doc)
  : list (attendance_doc * string) :=
  match cursor with
  | [] => []
  | record :: rest =>
      match find_one (fun c => (c_id c =? a_course_id record)%nat) cs with
      | Some course =>
          (record, c_courseName course) :: collect_records cs rest
      | None => collect_records cs rest
      end
  end.

Definition has_status (s : string) (r : attendance_doc * string) : bool :=
  (a_status (fst r) =? s)%string.

Definition get_student_attendance (course_id : option ObjectId)
  (current_user : ObjectId) : M StudentAttendance :=
  reads (fun db =>
    let records :=
      collect_records (courses db)
        (find (student_query course_id current_user) (Mongo.attendance db)) in
    let total_records := Z.of_nat (List.length records) in
    let present_count := sum_ones (has_status "Present") records in
    let absent_count := sum_ones (has_status "Absent") records in
    let late_count := sum_ones (has_status "Late") records in
    let excused_count := sum_ones (has_status "Excused") records in
    let attendance_rate :=
      if 0 <? total_records
      then PFloat (PrimFloat.mul (int_truediv present_count total_records)
                     (float_of_Z 100))
      else PInt 0 in
    {| attendance_records := records;
       statistics :=
         {| total := total_records;
            present := present_count;
            absent := absent_count;
            late := late_count;
            excused := excused_count;
            attendance_rate := round2 attendance_rate |} |}).

End Attendance.

(** ** Aggregation blocks shared by [students.py] and [courses.py] *)

(** [[s["score"] for s in submissions if s.get("score") is not None]]. *)
Fixpoint graded_scores (submissions : list submission_doc) : list float :=
  match submissions with
  | [] => []
  | s :: rest =>
      match s_score s with
      | Some x => x :: graded_scores rest
      | None => graded_scores rest
      end
  end.

(** The "Calculate score" / "Calculate performance" block
    ([students.py] 146-152, [courses.py] 587-593). *)
Definition performance_score (submissions : list submission_doc) : num :=
  match submissions with
  | [] => PInt 0
  | _ :: _ =>
      match graded_scores submissions with
      | [] => PInt 0
      | (_ :: _) as graded =>
          let total_score := float_sum graded in
          PFloat
            (PrimFloat.mul
               (PrimFloat.div total_score
                  (float_of_Z (Z.of_nat (List.length graded) * 100)))
               (float_of_Z 100))
      end
  end.

Definition is_present (r : attendance_doc) : bool :=
  (a_status r =? "Present")%string.

(** The "Calculate attendance percentage" block
    ([students.py] 164-168, [courses.py] 568-572). *)
Definition attendance_percentage (attendance_records : list attendance_doc)
  : num :=
  match attendance_records with
  | [] => PInt 0
  | _ :: _ =>
      let present_count := sum_ones is_present attendance_records in
      PFloat
        (PrimFloat.mul
           (int_truediv present_count
              (Z.of_nat (List.length attendance_records)))
           (float_of_Z 100))
  end.

(** [{"student_id": s, "assignment_id": {"$in": [ids of the course's
    assignments]}}] over [assignment_submissions]. *)
Definition course_submissions (db : Db) (course_id student_id : ObjectId)
  : list submission_doc :=
  let ids :=
    map as_id (find (fun a => (as_course a =? course_id)%nat) (assignments db))
  in
  find (fun s => (s_student_id s =? student_id)%nat
                 && existsb (Nat.eqb (s_assignment_id s)) ids)
       (assignment_submissions db).

Definition course_attendance (db : Db) (course_id student_id : ObjectId)
  : list attendance_doc :=
  find (fun a => (a_course_id a =? course_id)%nat
                 && (a_student_id a =? student_id)%nat)
       (Mongo.attendance db).

(** ** [endpoints/students.py] *)

Module Students.

Record CourseProgress := {
  cp_course_id : ObjectId;
  cp_course_name : string;
  cp_instructor : string;
  cp_progress : Z;
  cp_score : Z;
  cp_attendance : Z;
  cp_completed : bool;
  cp_completed_lessons : Z;
  cp_total_lessons : Z }.

Record StudentProgress := {
  overall_progress : Z;
  progress_courses : list CourseProgress }.

(** The body of [if course:] for one enrollment ([total_assignments] is
    computed there and never used).  The entry is built field by field, so
    [round(score)] is evaluated before [round(attendance)]; either raises on
    a value that is not finite. *)
Definition course_entry (db : Db) (current_user : ObjectId)
  (enrollment : enrollment_doc) (course : course_doc) : result CourseProgress :=
  let submissions :=
    course_submissions db (e_course_id enrollment) current_user in
  let score := performance_score submissions in
  let attendance_records :=
    course_attendance db (e_course_id enrollment) current_user in
  let attendance := attendance_percentage attendance_records in
  result_bind (round0 score) (fun rounded_score =>
  result_bind (round0 attendance) (fun rounded_attendance =>
  Ok {| cp_course_id := e_course_id enrollment;
        cp_course_name := c_courseName course;
        cp_instructor := c_instructorName course;
        cp_progress := e_progress enrollment;
        cp_score := rounded_score;
        cp_attendance := rounded_attendance;
        cp_completed := 100 <=? e_progress enrollment;
        cp_completed_lessons := 0;
        cp_total_lessons := 0 |})).

(** The [async for enrollment in enrollments_cursor] loop: an exception in
    an entry ends the request. *)
Fixpoint progress_loop (db : Db) (current_user : ObjectId)
  (cursor : list enrollment_doc) : result (list CourseProgress) :=
  match cursor with
  | [] => Ok []
  | enrollment :: rest =>
      match find_one (fun c => (c_id c =? e_course_id enrollment)%nat)
              (courses db) with
      | Some course =>
          result_bind (course_entry db current_user enrollment course)
            (fun entry =>
               result_bind (progress_loop db current_user rest)
                 (fun entries => Ok (entry :: entries)))
      | None => progress_loop db current_user rest
      end
  end.

Definition get_student_progress (current_user : ObjectId) : M StudentProgress :=
  reads_result (fun db =>
    result_bind
      (progress_loop db current_user
         (find (fun e => (e_student_id e =? current_user)%nat)
            (enrollments db)))
      (fun entries =>
         let overall :=
           match entries with
           | [] => PInt 0
           | _ :: _ =>
               PFloat (int_truediv (fold_left Z.add (map cp_progress entries) 0)
                         (Z.of_nat (List.length entries)))
           end in
         result_bind (round0 overall) (fun rounded_overall =>
         Ok {| overall_progress := rounded_overall;
               progress_courses := entries |}))).

End Students.

(** ** [endpoints/courses.py] *)

Module Courses.

Definition by_course_id (course_id : ObjectId) (c : course_doc) : bool :=
  (c_id c =? course_id)%nat.

(** [{"$inc": {"studentsEnrolled": 1}}]. *)
Definition inc_studentsEnrolled (c : course_doc) : course_doc :=
  {| c_id := c_id c; c_courseName := c_courseName c;
     c_instructorName := c_instructorName c; c_teacher_id := c_teacher_id c;
     c_maxStudents := c_maxStudents c;
     c_studentsEnrolled := c_studentsEnrolled c + 1;
     c_hasModules := c_hasModules c |}.

(** [{"$set": {"hasModules": True}}]. *)
Definition set_hasModules (c : course_doc) : course_doc :=
  {| c_id := c_id c; c_courseName := c_courseName c;
     c_instructorName := c_instructorName c; c_teacher_id := c_teacher_id c;
     c_maxStudents := c_maxStudents c;
     c_studentsEnrolled := c_studentsEnrolled c;
     c_hasModules := true |}.

Definition enroll_in_course (now : datetime) (courseId : ObjectId)
  (current_user : ObjectId) : M string :=
  course <- query courses (find_one (by_course_id courseId)) ;;
  match course with
  | None => raise (HTTPException HTTP_404_NOT_FOUND "Course not found")
  | Some course =>
      existing_enrollment <- query enrollments
        (find_one (by_course_and_student courseId current_user)) ;;
      match existing_enrollment with
      | Some _ =>
          raise (HTTPException HTTP_400_BAD_REQUEST
                   "Already enrolled in this course")
      | None =>
          if c_maxStudents course <=? c_studentsEnrolled course
          then raise (HTTPException HTTP_400_BAD_REQUEST "Course is full")
          else
            insert_one with_enrollments (fun i =>
              {| e_id := i;
                 e_course_id := courseId;
                 e_student_id := current_user;
                 e_enrollment_date := now;
                 e_progress := 0;
                 e_status := "Active" |}) ;;
            write (with_courses
                     (update_one (by_course_id courseId)
                        inc_studentsEnrolled)) ;;
            ret "Successfully enrolled in course"
      end
  end.

Definition create_module (now : datetime) (course_id : ObjectId)
  (title : string) (description : option string) (current_user : ObjectId)
  : M module_doc :=
  course <- query courses
    (find_one (by_id_and_teacher course_id current_user)) ;;
  match course with
  | None =>
      raise (HTTPException HTTP_404_NOT_FOUND
               "Course not found or you don't have permission")
  | Some _ =>
      last_module <- query modules
        (find_one_sort_desc m_order
           (fun m => (m_course_id m =? course_id)%nat)) ;;
      let order :=
        match last_module with
        | Some last => m_order last + 1
        | None => 1
        end in
      let module_data := fun i =>
        {| m_id := i; m_course_id := course_id; m_title := title;
           m_description := description; m_order := order;
           m_created_at := now |} in
      inserted_id <- insert_one with_modules module_data ;;
      write (with_courses
               (update_one (by_course_id course_id) set_hasModules)) ;;
      ret (module_data inserted_id)
  end.

Definition by_id_and_course (module_id course_id : ObjectId) (m : module_doc)
  : bool :=
  (m_id m =? module_id)%nat && (m_course_id m =? course_id)%nat.

Definition by_module_id (module_id : ObjectId) (l : lesson_doc) : bool :=
  (l_module_id l =? module_id)%nat.

Definition by_lesson_id (lesson_id : ObjectId) (l : lesson_doc) : bool :=
  (l_id l =? lesson_id)%nat.

Definition one_of (s : option string) (choices : list string) : bool :=
  match s with
  | Some x => existsb (String.eqb x) choices
  | None => false
  end.

(** [material] is the upload, already reduced to the path [save_upload]
    would store it under. *)
Definition create_lesson (now : datetime) (course_id module_id : ObjectId)
  (title duration : string) (description materialType materialUrl : option string)
  (material : option string) (current_user : ObjectId) : M lesson_doc :=
  course <- query courses
    (find_one (by_id_and_teacher course_id current_user)) ;;
  match course with
  | None =>
      raise (HTTPException HTTP_404_NOT_FOUND
               "Course not found or you don't have permission")
  | Some _ =>
      module <- query modules (find_one (by_id_and_course module_id course_id)) ;;
      match module with
      | None =>
          raise (HTTPException HTTP_404_NOT_FOUND
                   "Module not found or doesn't belong to this course")
      | Some _ =>
          last_lesson <- query lessons
            (find_one_sort_desc l_order (by_module_id module_id)) ;;
          let order :=
            match last_lesson with
            | Some last => l_order last + 1
            | None => 1
            end in
          let material_file :=
            match material with
            | Some path =>
                if one_of materialType ["pdf"; "video"; "file"]
                then Some path else None
            | None => None
            end in
          let lesson_data := fun i =>
            {| l_id := i; l_module_id := module_id; l_title := title;
               l_description := description; l_duration := duration;
               l_materialType := materialType;
               l_materialUrl :=
                 if one_of materialType ["link"] then materialUrl else None;
               l_materialFile := material_file;
               l_order := order; l_created_at := now |} in
          inserted_id <- insert_one with_lessons lesson_data ;;
          ret (lesson_data inserted_id)
      end
  end.

Definition delete_lesson (course_id module_id lesson_id : ObjectId)
  (current_user : ObjectId) : M string :=
  course <- query courses
    (find_one (by_id_and_teacher course_id current_user)) ;;
  match course with
  | None =>
      raise (HTTPException HTTP_404_NOT_FOUND
               "Course not found or you don't have permission")
  | Some _ =>
      module <- query modules (find_one (by_id_and_course module_id course_id)) ;;
      match module with
      | None =>
          raise (HTTPException HTTP_404_NOT_FOUND
                   "Module not found or doesn't belong to this course")
      | Some _ =>
          lesson <- query lessons
            (find_one (fun l => by_lesson_id lesson_id l
                                && by_module_id module_id l)) ;;
          match lesson with
          | None =>
              raise (HTTPException HTTP_404_NOT_FOUND
                       "Lesson not found or doesn't belong to this module")
          | Some _ =>
              write (with_lessons (delete_one (by_lesson_id lesson_id))) ;;
              ret "Lesson deleted successfully"
          end
      end
  end.

(** [GET /courses/{course_id}/students] *)

Record CourseStudent := {
  cs_id : ObjectId;
  cs_username : string;
  cs_email : string;
  cs_progress : Z;
  cs_status : string;
  cs_enrollment_date : datetime;
  cs_attendance : Z;
  cs_performance : Z;
  cs_full_name : option string }.

(** The body of [if student:] for one enrollment; [round(attendance)] is
    evaluated before [round(performance)], and either raises on a value
    that is not finite. *)
Definition student_entry (db : Db) (course_id : ObjectId)
  (enrollment : enrollment_doc) (student : user_doc) : result CourseStudent :=
  let profile :=
    find_one (fun p => (p_user_id p =? u_id student)%nat)
      (student_profiles db) in
  let attendance_records := course_attendance db course_id (u_id student) in
  let attendance_percentage := attendance_percentage attendance_records in
  let submissions := course_submissions db course_id (u_id student) in
  let performance := performance_score submissions in
  result_bind (round0 attendance_percentage) (fun rounded_attendance =>
  result_bind (round0 performance) (fun rounded_performance =>
  Ok {| cs_id := u_id student;
        cs_username := u_username student;
        cs_email := u_email student;
        cs_progress := e_progress enrollment;
        cs_status := e_status enrollment;
        cs_enrollment_date := e_enrollment_date enrollment;
        cs_attendance := rounded_attendance;
        cs_performance := rounded_performance;
        cs_full_name :=
          match profile with
          | Some p => p_full_name p
          | None => Some (u_username student)
          end |})).

Fixpoint students_loop (db : Db) (course_id : ObjectId)
  (cursor : list enrollment_doc) : result (list CourseStudent) :=
  match cursor with
  | [] => Ok []
  | enrollment :: rest =>
      match find_one (fun u => (u_id u =? e_student_id enrollment)%nat)
              (users db) with
      | Some student =>
          result_bind (student_entry db course_id enrollment student)
            (fun entry =>
               result_bind (students_loop db course_id rest)
                 (fun entries => Ok (entry :: entries)))
      | None => students_loop db course_id rest
      end
  end.

Definition get_course_students (course_id : ObjectId)
  (current_user : ObjectId) : M (list CourseStudent) :=
  course <- query courses
    (find_one (by_id_and_teacher course_id current_user)) ;;
  match course with
  | None =>
      raise (HTTPException HTTP_404_NOT_FOUND
               "Course not found or you don't have permission")
  | Some _ =>
      reads_result (fun db =>
        students_loop db course_id
          (find (fun e => (e_course_id e =? course_id)%nat) (enrollments db)))
  end.

End Courses.

(** ** [endpoints/assignments.py] *)

Module Assignments.

Definition by_assignment_and_student (assignment_id student_id : ObjectId)
  (s : submission_doc) : bool :=
  (s_assignment_id s =? assignment_id)%nat
  && (s_student_id s =? student_id)%nat.

(** [submit_assignment] assigns [status = "Late"] / [status = "Submitted"]
    in its body, so inside this function [status] is a local variable and
    not the imported [fastapi.status]: every [status.HTTP_...] of the body
    reads that local.  [local_status] is its value at the point of use.
    [submission_file] is the upload, reduced to the path [save_upload]
    stores it under. *)
Definition submit_assignment (now : datetime) (assignment_id : ObjectId)
  (submission_text submission_file : option string) (current_user : user_doc)
  : M string :=
  let local_status : option string := None in
  assignment <- query assignments
    (find_one (fun a => (as_id a =? assignment_id)%nat)) ;;
  match assignment with
  | None =>
      code <- lift (load_local_attr local_status "status"
                      "HTTP_404_NOT_FOUND") ;;
      raise (HTTPException code "Assignment not found")
  | Some assignment =>
      enrollment <- query enrollments
        (find_one (by_course_and_student (as_course assignment)
                     (u_id current_user))) ;;
      match enrollment with
      | None =>
          code <- lift (load_local_attr local_status "status"
                          "HTTP_403_FORBIDDEN") ;;
          raise (HTTPException code "You are not enrolled in this course")
      | Some _ =>
          let status :=
            if as_deadline assignment <? now then "Late" else "Submitted" in
          let local_status := Some status in
          existing_submission <- query assignment_submissions
            (find_one (by_assignment_and_student assignment_id
                         (u_id current_user))) ;;
          match existing_submission with
          | Some _ =>
              code <- lift (load_local_attr local_status "status"
                              "HTTP_400_BAD_REQUEST") ;;
              raise (HTTPException code
                       "You have already submitted this assignment")
          | None =>
              insert_one with_submissions (fun i =>
                {| s_id := i;
                   s_assignment_id := assignment_id;
                   s_student_id := u_id current_user;
                   s_submission_file := submission_file;
                   s_submission_text := submission_text;
                   s_submitted_at := now;
                   s_status := status;
                   s_score := None |}) ;;
              insert_one with_notifications (fun i =>
                {| n_id := i;
                   n_title := "Assignment Submission";
                   n_message :=
                     "Student " ++ u_username current_user
                     ++ " has submitted assignment '"
                     ++ as_title assignment ++ "'";
                   n_type := "assignment";
                   n_recipient_id := as_teacher_id assignment;
                   n_sender_id := u_id current_user;
                   n_course_id := as_course assignment;
                   n_read := false;
                   n_created_at := now |}) ;;
              ret "Assignment submitted successfully"
          end
      end
  end.

End Assignments.

(** ** [endpoints/auth.py]

    Name lookups are explicit in this module: the handlers use names that
    the module's imports have to bind. *)

Module Auth.

(** The names bound at module level by [auth.py]: its imports, [router],
    [logger] and the handlers, in source order. *)
Definition module_globals : list string :=
  [ "timedelta"; "Any"; "APIRouter"; "Depends"; "HTTPException"; "status";
    "Body"; "Response"; "Cookie"; "OAuth2PasswordRequestForm"; "settings";
    "create_access_token"; "create_refresh_token"; "verify_password";
    "get_password_hash"; "db"; "User"; "UserCreate";
    "send_reset_password_email"; "send_verification_email";
    "get_current_user"; "ObjectId"; "random"; "string"; "logging";
    "router"; "logger"; "signup"; "login"; "refresh_token"; "logout";
    "forgot_password"; "verify_otp"; "reset_password" ].

(** The claims a decoded token carries ([payload.get] may find none). *)
Record TokenPayload := {
  tp_type : option string;
  tp_sub : option string }.

Record TokenResponse := {
  access_token : string;
  token_type : string;
  refresh_cookie : string }.

Definition rbind {A B} (r : result A) (k : A -> result B) : result B :=
  match r with
  | Ok a => k a
  | Raise e => Raise e
  end.

(** Loads the free names of an expression, in evaluation order. *)
Fixpoint uses (globals : list string) (names : list string) : result unit :=
  match names with
  | [] => Ok tt
  | n :: rest => rbind (load_global globals n) (fun _ => uses globals rest)
  end.

(** [try: body  except classes: handler].  The [except] clause's expression
    is evaluated only once the body has raised, and may itself raise. *)
Definition try_except {A} (body : result A) (classes : result (exn -> bool))
  (handler : exn -> result A) : result A :=
  match body with
  | Ok a => Ok a
  | Raise e =>
      match classes with
      | Ok is_instance => if is_instance e then handler e else Raise e
      | Raise e' => Raise e'
      end
  end.

Definition is_JWTError_or_ValidationError (e : exn) : bool :=
  match e with
  | JWTError => true
  | _ => false
  end.

(** [raise HTTPException(status_code=status.CODE, detail=...)]. *)
Definition raise_http {A} (globals : list string) (code : Z) (detail : string)
  : result A :=
  rbind (uses globals ["HTTPException"; "status"])
    (fun _ => Raise (HTTPException code detail)).

Definition truthy (s : option string) : bool :=
  match s with
  | None => false
  | Some s => negb (s =? "")%string
  end.

Section Handlers.
(** The module's global names. *)
Variable globals : list string.
(** [jose.jwt.decode(token, SECRET_KEY, algorithms=[JWT_ALGORITHM])] at the
    time of the request: the payload, or [JWTError] for a token that is
    malformed, wrongly signed or expired. *)
Variable jwt_decode : string -> result TokenPayload.
(** [app.core.security]: token issuers, by subject. *)
Variable create_access_token : string -> string.
Variable create_refresh_token : string -> string.

(** The [try] block of [refresh_token]: yields [user_id]. *)
Definition refresh_token_body (refresh_token : string) : result string :=
  rbind (uses globals ["jwt"; "settings"; "settings"]) (fun _ =>
  rbind (jwt_decode refresh_token) (fun payload =>
    let token_type := tp_type payload in
    if match token_type with
       | Some t => negb (t =? "refresh")%string
       | None => true
       end
    then raise_http globals HTTP_401_UNAUTHORIZED "Invalid token type"
    else
      let user_id := tp_sub payload in
      match user_id with
      | Some u =>
          if (u =? "")%string
          then raise_http globals HTTP_401_UNAUTHORIZED
                 "Could not validate credentials"
          else Ok u
      | None =>
          raise_http globals HTTP_401_UNAUTHORIZED
            "Could not validate credentials"
      end)).

Definition refresh_token_in (refresh_token : option string)
  : result TokenResponse :=
  match refresh_token with
  | Some tok =>
      if truthy refresh_token
      then
        rbind
          (try_except (refresh_token_body tok)
             (rbind (uses globals ["JWTError"; "ValidationError"])
                (fun _ => Ok is_JWTError_or_ValidationError))
             (fun _ =>
                rbind (uses globals ["logger"]) (fun _ =>
                raise_http globals HTTP_401_UNAUTHORIZED
                  "Could not validate credentials")))
          (fun user_id =>
             rbind (uses globals ["timedelta"; "settings";
                                  "create_access_token";
                                  "create_refresh_token"])
               (fun _ =>
                  Ok {| access_token := create_access_token user_id;
                        token_type := "bearer";
                        refresh_cookie := create_refresh_token user_id |}))
      else raise_http globals HTTP_401_UNAUTHORIZED "Refresh token required"
  | None => raise_http globals HTTP_401_UNAUTHORIZED "Refresh token required"
  end.

Definition reset_message : string :=
  "If your email is registered, you will receive a password reset link".

(** [otp] is the draw of [random.choices(string.digits, k=6)] and [smtp]
    the outcome of [send_reset_password_email] for this request. *)
Definition forgot_password_in (now : datetime) (otp : string)
  (smtp : result unit) (email : string) : M string :=
  lift (uses globals ["db"]) ;;
  user <- query users (find_one (fun u => (u_email u =? email)%string)) ;;
  match user with
  | None => ret reset_message
  | Some _ =>
      lift (uses globals ["random"; "string"]) ;;
      lift (uses globals ["db"; "datetime"; "datetime"; "timedelta"]) ;;
      insert_one with_password_reset (fun i =>
        {| pr_id := i; pr_email := email; pr_otp := otp;
           pr_created_at := now; pr_expires_at := now + 15 * 60 |}) ;;
      lift (uses globals ["send_reset_password_email"]) ;;
      lift smtp ;;
      ret reset_message
  end.
End Handlers.

(** The module's names together with the four the handlers use and no
    import binds: the environment the handlers are written for. *)
Definition globals_with_missing_imports : list string :=
  "jwt" :: "JWTError" :: "ValidationError" :: "datetime" :: module_globals.

(** The handlers as [auth.py] defines them, under its own imports. *)
Definition refresh_token := refresh_token_in module_globals.
Definition forgot_password := forgot_password_in module_globals.

End Auth.

(** ** The quantities the specification speaks of

    Stated over the collections directly, independently of how the handlers
    walk them; the theorems below relate the two. *)

Module Spec.

(** Attendance records in scope for a student and an optional course: the
    student's records, of that course when one is named, whose course
    exists (no handler deletes a course). *)
Definition scope_records (db : Db) (course_id : option ObjectId)
  (student : ObjectId) : list attendance_doc :=
  filter (fun a =>
            (a_student_id a =? student)%nat
            && match course_id with
               | Some c => (a_course_id a =? c)%nat
               | None => true
               end
            && existsb (fun c => (c_id c =? a_course_id a)%nat) (courses db))
         (Mongo.attendance db).

Definition count_status (s : string) (records : list attendance_doc) : Z :=
  Z.of_nat (List.length
              (filter (fun a => (a_status a =? s)%string) records)).

Definition count_all (records : list attendance_doc) : Z :=
  Z.of_nat (List.length records).

(** [present / total * 100], in binary64 as Python computes it. *)
Definition percentage (present_count total_records : Z) : float :=
  PrimFloat.mul (int_truediv present_count total_records) (float_of_Z 100).

(** ... rounded to 2 decimal places, 0 when there is no record. *)
Definition rate_2dp (present_count total_records : Z) : num :=
  if total_records =? 0 then PInt 0
  else PFloat (float_round2 (percentage present_count total_records)).

(** ... rounded to 0 decimal places, 0 when there is no record. *)
Definition rate_0dp (present_count total_records : Z) : result Z :=
  if total_records =? 0 then Ok 0
  else round0 (PFloat (percentage present_count total_records)).

(** A student's submissions in a course: those whose assignment belongs to
    the course. *)
Definition submissions_in_course (db : Db) (course_id student : ObjectId)
  : list submission_doc :=
  filter (fun s =>
            (s_student_id s =? student)%nat
            && existsb (fun a => (as_id a =? s_assignment_id s)%nat
                                 && (as_course a =? course_id)%nat)
                 (assignments db))
         (assignment_submissions db).

Definition has_score (s : submission_doc) : bool :=
  match s_score s with
  | Some _ => true
  | None => false
  end.

Definition score_or_zero (s : submission_doc) : float :=
  match s_score s with
  | Some x => x
  | None => float_of_Z 0
  end.

(** [sum(scores) / (graded_count * 100) * 100] over the submissions with a
    non-null score, 0 when there is none. *)
Definition performance (submissions : list submission_doc) : num :=
  let graded := filter has_score submissions in
  if (List.length graded =? 0)%nat then PInt 0
  else
    PFloat
      (PrimFloat.mul
         (PrimFloat.div (float_sum (map score_or_zero graded))
            (float_of_Z (Z.of_nat (List.length graded) * 100)))
         (float_of_Z 100)).

(** The uniqueness key of an attendance record. *)
Definition attendance_key : Type := ObjectId * ObjectId * date.

Definition has_key (k : attendance_key) (a : attendance_doc) : bool :=
  let '(c, s, d) := k in Attendance.by_key c s d a.

Definition records_for (k : attendance_key) (db : Db) : list attendance_doc :=
  filter (has_key k) (Mongo.attendance db).


(** [_id] is unique within the attendance and the lessons collection. *)
Definition attendance_ids_unique (db : Db) : Prop :=
  NoDup (map a_id (Mongo.attendance db)).

Definition lesson_ids_unique (db : Db) : Prop :=
  NoDup (map l_id (lessons db)).

(** [m] is the maximum of [orders]. *)
Definition is_max (m : Z) (orders : list Z) : Prop :=
  In m orders /\ Forall (fun o => o <= m) orders.

(** [o] is the maximum of the siblings' orders plus 1, or 1 without
    siblings. *)
Definition next_order (orders : list Z) (o : Z) : Prop :=
  match orders with
  | [] => o = 1
  | _ :: _ => exists m, is_max m orders /\ o = m + 1
  end.

Definition module_orders (db : Db) (course_id : ObjectId) : list Z :=
  map m_order (filter (fun m => (m_course_id m =? course_id)%nat) (modules db)).

Definition lesson_orders (db : Db) (module_id : ObjectId) : list Z :=
  map l_order (filter (Courses.by_module_id module_id) (lessons db)).

(** The enrolled counter of a course, as [enroll_in_course] reads it. *)
Definition studentsEnrolled (db : Db) (courseId : ObjectId) : option Z :=
  option_map c_studentsEnrolled
    (find_one (Courses.by_course_id courseId) (courses db)).

(** "Order values freed by deletion are never reused": a lesson created
    after a deletion in the same module never gets the deleted lesson's
    order. *)
Definition freed_orders_never_reused : Prop :=
  forall (now : datetime) (course_id module_id lesson_id u : ObjectId)
         (title duration : string) (db db1 db2 : Db) (msg : string)
         (deleted created : lesson_doc),
    lesson_ids_unique db ->
    find_one (fun l => Courses.by_lesson_id lesson_id l
                       && Courses.by_module_id module_id l) (lessons db)
    = Some deleted ->
    Courses.delete_lesson course_id module_id lesson_id u db = (Ok msg, db1) ->
    Courses.create_lesson now course_id module_id title duration None None None
      None u db1 = (Ok created, db2) ->
    l_order created <> l_order deleted.




(** Upsert by (course, student, date): the record holding the key gets the
    new status, time and note where it stands; without one, a new record is
    appended. *)
Definition upsert_attendance (now : datetime) (course_id student_id : ObjectId)
  (d : date) (st : string) (tm nt : option string) (recorded_by : ObjectId)
  (db : Db) : Db :=
  match find_one (Attendance.by_key course_id student_id d)
          (Mongo.attendance db) with
  | Some existing =>
      with_attendance
        (map (fun a => if (a_id a =? a_id existing)%nat
                       then Attendance.set_status_time_note st tm nt a
                       else a))
        db
  | None =>
      with_attendance
        (fun c => (c ++ [{| a_id := next_id db; a_course_id := course_id;
                            a_student_id := student_id; a_date := d;
                            a_status := st; a_time := tm; a_note := nt;
                            a_recorded_by := recorded_by;
                            a_created_at := now |}])%list)
        (snd (fresh_id db))
  end.

(** A bulk record that names a student without an enrollment in the
    course. *)
Definition not_enrolled (es : list enrollment_doc) (course_id : ObjectId)
  (r : Attendance.BulkRecord) : bool :=
  match Attendance.br_student_id r with
  | Some s => negb (existsb (by_course_and_student course_id s) es)
  | None => false
  end.

End Spec.

(** ** Sample data *)

Module Examples.

Definition algebra : course_doc :=
  {| c_id := 1%nat; c_courseName := "Algebra"; c_instructorName := "E. Noether";
     c_teacher_id := 10%nat; c_maxStudents := 2; c_studentsEnrolled := 0;
     c_hasModules := false |}.

(** An attendance record of student 20 in course 1. *)
Definition att (i : ObjectId) (d : date) (st : string) : attendance_doc :=
  {| a_id := i; a_course_id := 1%nat; a_student_id := 20%nat; a_date := d;
     a_status := st; a_time := None; a_note := None;
     a_recorded_by := 10%nat; a_created_at := 0 |}.

Definition enrolled (i course student : ObjectId) : enrollment_doc :=
  {| e_id := i; e_course_id := course; e_student_id := student;
     e_enrollment_date := 0; e_progress := 0; e_status := "Active" |}.

(** Course 1 with the records {Present, Present, Absent, Late} of
    student 20, who is enrolled. *)
Definition db_scenario : Db :=
  {| courses := [algebra];
     enrollments := [enrolled 2%nat 1%nat 20%nat];
     attendance := [att 3%nat 1 "Present"; att 4%nat 2 "Present";
                    att 5%nat 3 "Absent"; att 6%nat 4 "Late"];
     modules := []; lessons := []; assignments := [];
     assignment_submissions := []; notifications := []; users := [];
     student_profiles := []; password_reset := []; next_id := 7%nat |}.

Definition essay : assignment_doc :=
  {| as_id := 30%nat; as_title := "Essay"; as_deadline := 100;
     as_course := 1%nat; as_teacher_id := 10%nat |}.

Definition quiz : assignment_doc :=
  {| as_id := 31%nat; as_title := "Quiz"; as_deadline := 100;
     as_course := 1%nat; as_teacher_id := 10%nat |}.

Definition project : assignment_doc :=
  {| as_id := 32%nat; as_title := "Project"; as_deadline := 100;
     as_course := 1%nat; as_teacher_id := 10%nat |}.

Definition submitted (i assignment : ObjectId) (score : option float)
  : submission_doc :=
  {| s_id := i; s_assignment_id := assignment; s_student_id := 20%nat;
     s_submission_file := None; s_submission_text := Some "text";
     s_submitted_at := 50;
     s_status := match score with Some _ => "Graded" | None => "Submitted" end;
     s_score := score |}.

Definition ada : user_doc :=
  {| u_id := 20%nat; u_email := "ada@example.com"; u_username := "ada" |}.

(** Student 20 has scores 80 and 90 and one ungraded submission in
    course 1. *)
Definition db_grades : Db :=
  {| courses := [algebra];
     enrollments := [enrolled 2%nat 1%nat 20%nat];
     attendance := [];
     modules := []; lessons := [];
     assignments := [essay; quiz; project];
     assignment_submissions :=
       [submitted 40%nat 30%nat (Some 80%float);
        submitted 41%nat 31%nat None;
        submitted 42%nat 32%nat (Some 90%float)];
     notifications := []; users := [ada];
     student_profiles := []; password_reset := []; next_id := 43%nat |}.

(** A course whose two places are taken. *)
Definition logic_full : course_doc :=
  {| c_id := 50%nat; c_courseName := "Logic"; c_instructorName := "K. Goedel";
     c_teacher_id := 10%nat; c_maxStudents := 2; c_studentsEnrolled := 2;
     c_hasModules := false |}.

Definition db_full : Db :=
  {| courses := [logic_full];
     enrollments := [enrolled 51%nat 50%nat 20%nat;
                     enrolled 52%nat 50%nat 21%nat];
     attendance := []; modules := []; lessons := []; assignments := [];
     assignment_submissions := []; notifications := []; users := [];
     student_profiles := []; password_reset := []; next_id := 53%nat |}.

Definition unit1 : module_doc :=
  {| m_id := 60%nat; m_course_id := 1%nat; m_title := "Groups";
     m_description := None; m_order := 1; m_created_at := 0 |}.

Definition lesson (i : ObjectId) (order : Z) : lesson_doc :=
  {| l_id := i; l_module_id := 60%nat; l_title := "Lesson";
     l_description := None; l_duration := "45 min"; l_materialType := None;
     l_materialUrl := None; l_materialFile := None; l_order := order;
     l_created_at := 0 |}.

(** Module 60 of course 1 with lessons of order 1, 2 and 3. *)
Definition db_lessons : Db :=
  {| courses := [algebra]; enrollments := []; attendance := [];
     modules := [unit1];
     lessons := [lesson 61%nat 1; lesson 62%nat 2; lesson 63%nat 3];
     assignments := []; assignment_submissions := []; notifications := [];
     users := []; student_profiles := []; password_reset := [];
     next_id := 64%nat |}.




(** [db_lessons] once lesson 63, of order 3, is deleted. *)
Definition db_after_delete : Db :=
  snd (Courses.delete_lesson 1%nat 60%nat 63%nat 10%nat db_lessons).

(** The lesson created next in module 60. *)
Definition lesson_again : lesson_doc :=
  {| l_id := 64%nat; l_module_id := 60%nat; l_title := "Rings";
     l_description := None; l_duration := "45 min"; l_materialType := None;
     l_materialUrl := None; l_materialFile := None; l_order := 3;
     l_created_at := 9 |}.

End Examples.

(** ** Further handlers of the same files *)

(** [cursor.sort(key, 1)]: ascending by [key]; documents with equal keys
    keep their natural order. *)
Fixpoint insert_by {A} (key : A -> Z) (x : A) (l : list A) : list A :=
  match l with
  | [] => [x]
  | y :: l' => if key x <=? key y then x :: l else y :: insert_by key x l'
  end.

Definition sort_asc {A} (key : A -> Z) (l : list A) : list A :=
  fold_right (insert_by key) [] l.

Definition with_assignments (f : list assignment_doc -> list assignment_doc)
  (db : Db) :=
  {| courses := courses db; enrollments := enrollments db;
     attendance := attendance db; modules := modules db;
     lessons := lessons db; assignments := f (assignments db);
     assignment_submissions := assignment_submissions db;
     notifications := notifications db; users := users db;
     student_profiles := student_profiles db;
     password_reset := password_reset db; next_id := next_id db |}.

(** [delete_many(query)]: every match is removed. *)
Definition delete_many {A} (q : A -> bool) (c : list A) : list A :=
  filter (fun d => negb (q d)) c.

(** [endpoints/attendance.py], [GET /attendance/course/{course_id}] *)

Module AttendanceViews.

Section Dates.
(** [datetime.fromisoformat(s).date()]; [None] stands for [ValueError]. *)
Variable fromisoformat : string -> option date.



End Dates.

End AttendanceViews.

(** [endpoints/courses.py], the read handlers over the ledger and the
    module tree *)

Module CourseViews.

(** [GET /courses/enrolled]: the stored course document of each of the
    student's enrollments, with the enrollment's progress. *)
Fixpoint enrolled_loop (cs : list course_doc) (cursor : list enrollment_doc)
  : list (course_doc * Z) :=
  match cursor with
  | [] => []
  | enrollment :: rest =>
      match find_one (fun c => (c_id c =? e_course_id enrollment)%nat) cs with
      | Some course => (course, e_progress enrollment) :: enrolled_loop cs rest
      | None => enrolled_loop cs rest
      end
  end.

Definition get_enrolled_courses (current_user : ObjectId)
  : M (list (course_doc * Z)) :=
  reads (fun db =>
    enrolled_loop (courses db)
      (find (fun e => (e_student_id e =? current_user)%nat) (enrollments db))).

(** The "Get modules and lessons" loop of [get_course_modules] (and of
    [get_course_details]). *)
Definition modules_with_lessons (db : Db) (course_id : ObjectId)
  : list (module_doc * list lesson_doc) :=
  map (fun module =>
         (module,
          sort_asc l_order
            (find (Courses.by_module_id (m_id module)) (lessons db))))
      (sort_asc m_order
         (find (fun m => (m_course_id m =? course_id)%nat) (modules db))).

(** [GET /courses/{course_id}/modules]; [role] and [current_user] are
    [current_user.role] and [current_user.id]. *)
Definition get_course_modules (course_id : ObjectId) (role : string)
  (current_user : ObjectId) : M (list (module_doc * list lesson_doc)) :=
  course <- query courses (find_one (Courses.by_course_id course_id)) ;;
  match course with
  | None => raise (HTTPException HTTP_404_NOT_FOUND "Course not found")
  | Some _ =>
      (if (role =? "student")%string
       then
         enrollment <- query enrollments
           (find_one (by_course_and_student course_id current_user)) ;;
         match enrollment with
         | None =>
             raise (HTTPException HTTP_403_FORBIDDEN
                      "You are not enrolled in this course")
         | Some _ => ret tt
         end
       else ret tt) ;;
      reads (fun db => modules_with_lessons db course_id)
  end.

End CourseViews.

(** [endpoints/assignments.py], creation and deletion *)

Module AssignmentsAdmin.

Definition by_id_and_owner (assignment_id teacher : ObjectId)
  (a : assignment_doc) : bool :=
  (as_id a =? assignment_id)%nat && (as_teacher_id a =? teacher)%nat.

(** The [async for enrollment in enrollments_cursor] loop of
    [create_assignment]: one notification per enrollment. *)
Fixpoint notify_enrolled (now : datetime) (title courseName : string)
  (courseId current_user : ObjectId) (cursor : list enrollment_doc) : M unit :=
  match cursor with
  | [] => ret tt
  | enrollment :: rest =>
      insert_one with_notifications (fun i =>
        {| n_id := i;
           n_title := "New Assignment";
           n_message :=
             "New assignment '" ++ title ++ "' has been posted for "
             ++ courseName;
           n_type := "assignment";
           n_recipient_id := e_student_id enrollment;
           n_sender_id := current_user;
           n_course_id := courseId;
           n_read := false;
           n_created_at := now |}) ;;
      notify_enrolled now title courseName courseId current_user rest
  end.

Section Deadlines.
(** [datetime.fromisoformat(deadline)]; [None] stands for [ValueError]. *)
Variable fromisoformat : string -> option datetime.

(** [POST /assignments/create].  The stored assignment also carries
    [description], [courseName], [attachmentFile] and its two timestamps,
    which no modelled handler reads back; the upload, when there is one, is
    saved before the deadline is parsed. *)
Definition create_assignment (now : datetime) (title : string)
  (courseId : ObjectId) (courseName deadline : string)
  (current_user : ObjectId) : M assignment_doc :=
  course <- query courses
    (find_one (by_id_and_teacher courseId current_user)) ;;
  match course with
  | None =>
      raise (HTTPException HTTP_404_NOT_FOUND
               "Course not found or you don't have permission")
  | Some _ =>
      match fromisoformat deadline with
      | None =>
          raise (HTTPException HTTP_400_BAD_REQUEST
                   "Invalid deadline format. Use ISO format (YYYY-MM-DD)")
      | Some deadline_date =>
          let assignment_data := fun i =>
            {| as_id := i; as_title := title; as_deadline := deadline_date;
               as_course := courseId; as_teacher_id := current_user |} in
          inserted_id <- insert_one with_assignments assignment_data ;;
          cursor <- query enrollments
            (find (fun e => (e_course_id e =? courseId)%nat)) ;;
          notify_enrolled now title courseName courseId current_user cursor ;;
          ret (assignment_data inserted_id)
      end
  end.
End Deadlines.

(** [DELETE /assignments/{assignment_id}] *)
Definition delete_assignment (assignment_id : ObjectId)
  (current_user : ObjectId) : M string :=
  assignment <- query assignments
    (find_one (by_id_and_owner assignment_id current_user)) ;;
  match assignment with
  | None =>
      raise (HTTPException HTTP_404_NOT_FOUND
               "Assignment not found or you don't have permission")
  | Some _ =>
      write (with_assignments
               (delete_one (fun a => (as_id a =? assignment_id)%nat))) ;;
      write (with_submissions
               (delete_many
                  (fun s => (s_assignment_id s =? assignment_id)%nat))) ;;
      ret "Assignment deleted successfully"
  end.

End AssignmentsAdmin.

(** ** Invariants and request sequences *)

Module Ledger.

(** An enroll request. *)
Record enroll_call := {
  en_now : datetime;
  en_course : ObjectId;
  en_student : ObjectId }.

Definition after_enroll (c : enroll_call) (db : Db) : Db :=
  snd (Courses.enroll_in_course (en_now c) (en_course c) (en_student c) db).

Definition after_enrolls (cs : list enroll_call) (db : Db) : Db :=
  fold_left (fun db c => after_enroll c db) cs db.

(** No course holds more students than it has places. *)
Definition capacity_respected (db : Db) : Prop :=
  Forall (fun c => c_studentsEnrolled c <= c_maxStudents c) (courses db).

(** At most one enrollment per (course, student). *)
Definition enrollment_unique (db : Db) : Prop :=
  forall course student,
    (List.length
       (filter (by_course_and_student course student) (enrollments db))
     <= 1)%nat.

Definition enrolled_count (db : Db) (course : ObjectId) : Z :=
  Z.of_nat
    (List.length
       (filter (fun e => (e_course_id e =? course)%nat) (enrollments db))).

(** Every course's counter is the number of its enrollments; course
    [_id]s are unique. *)
Definition counters_consistent (db : Db) : Prop :=
  NoDup (map c_id (courses db))
  /\ Forall (fun c => c_studentsEnrolled c = enrolled_count db (c_id c))
       (courses db).

End Ledger.

Module Tree.

(** A request on the module tree of a course. *)
Inductive tree_call : Type :=
| CreateModule (now : datetime) (course_id : ObjectId) (title : string)
    (description : option string) (current_user : ObjectId)
| CreateLesson (now : datetime) (course_id module_id : ObjectId)
    (title duration : string)
    (description materialType materialUrl material : option string)
    (current_user : ObjectId)
| DeleteLesson (course_id module_id lesson_id current_user : ObjectId).

Definition after_tree_call (c : tree_call) (db : Db) : Db :=
  match c with
  | CreateModule now course_id title description u =>
      snd (Courses.create_module now course_id title description u db)
  | CreateLesson now course_id module_id title duration description
      materialType materialUrl material u =>
      snd (Courses.create_lesson now course_id module_id title duration
             description materialType materialUrl material u db)
  | DeleteLesson course_id module_id lesson_id u =>
      snd (Courses.delete_lesson course_id module_id lesson_id u db)
  end.

Definition after_tree_calls (cs : list tree_call) (db : Db) : Db :=
  fold_left (fun db c => after_tree_call c db) cs db.

(** Sibling orders are pairwise distinct: the modules of every course and
    the lessons of every module. *)
Definition orders_distinct (db : Db) : Prop :=
  (forall course_id, NoDup (Spec.module_orders db course_id))
  /\ (forall module_id, NoDup (Spec.lesson_orders db module_id)).

(** Every module's course carries the [hasModules] flag. *)
Definition modules_flagged (db : Db) : Prop :=
  forall m, In m (modules db) ->
    exists c, In c (courses db) /\ c_id c = m_course_id m
              /\ c_hasModules c = true.

End Tree.




Module Submissions.

(** A submit request. *)
Record submit_call := {
  sb_now : datetime;
  sb_assignment : ObjectId;
  sb_text : option string;
  sb_file : option string;
  sb_user : user_doc }.

Definition after_submit (c : submit_call) (db : Db) : Db :=
  snd (Assignments.submit_assignment (sb_now c) (sb_assignment c) (sb_text c)
         (sb_file c) (sb_user c) db).

Definition after_submits (cs : list submit_call) (db : Db) : Db :=
  fold_left (fun db c => after_submit c db) cs db.

(** At most one submission per (assignment, student). *)
Definition submission_unique (db : Db) : Prop :=
  forall assignment student,
    (List.length
       (filter (Assignments.by_assignment_and_student assignment student)
          (assignment_submissions db))
     <= 1)%nat.

End Submissions.

(** ** Further sample data *)

Module Samples.

(** Course 1, with two places and nobody enrolled. *)
Definition db_open : Db :=
  {| courses := [Examples.algebra]; enrollments := []; attendance := [];
     modules := []; lessons := []; assignments := [];
     assignment_submissions := []; notifications := [];
     users := [Examples.ada]; student_profiles := []; password_reset := [];
     next_id := 100%nat |}.

Definition enroll (student : ObjectId) : Ledger.enroll_call :=
  {| Ledger.en_now := 5; Ledger.en_course := 1%nat;
     Ledger.en_student := student |}.

(** Students 20, 21 and 22 enroll in turn, then 20 once more. *)
Definition four_enrolls : list Ledger.enroll_call :=
  [enroll 20%nat; enroll 21%nat; enroll 22%nat; enroll 20%nat].



Definition entry (student : ObjectId) (st : option string)
  : Attendance.BulkRecord :=
  {| Attendance.br_student_id := Some student; Attendance.br_status := st;
     Attendance.br_time := None; Attendance.br_note := None |}.



Definition tree_calls : list Tree.tree_call :=
  [Tree.DeleteLesson 1%nat 60%nat 63%nat 10%nat;
   Tree.CreateLesson 9 1%nat 60%nat "Rings" "45 min" None None None None
     10%nat;
   Tree.CreateModule 9 1%nat "Fields" None 10%nat].

(** Course 1 with its student enrolled and one assignment, not yet
    submitted. *)
Definition db_assigned : Db :=
  {| courses := [Examples.algebra];
     enrollments := [Examples.enrolled 2%nat 1%nat 20%nat];
     attendance := []; modules := []; lessons := [];
     assignments := [Examples.essay];
     assignment_submissions := []; notifications := [];
     users := [Examples.ada]; student_profiles := []; password_reset := [];
     next_id := 100%nat |}.

Definition submit (now : datetime) (assignment : ObjectId)
  : Submissions.submit_call :=
  {| Submissions.sb_now := now; Submissions.sb_assignment := assignment;
     Submissions.sb_text := Some "answer"; Submissions.sb_file := None;
     Submissions.sb_user := Examples.ada |}.

(** The lesson a request with type "link", a URL and an upload creates in
    module 60: the upload is not kept. *)
Definition link_lesson : lesson_doc :=
  {| l_id := 64%nat; l_module_id := 60%nat; l_title := "Rings";
     l_description := None; l_duration := "45 min";
     l_materialType := Some "link";
     l_materialUrl := Some "https://example.com/rings";
     l_materialFile := None; l_order := 4; l_created_at := 9 |}.

(** A student who is not enrolled anywhere. *)
Definition eve : user_doc :=
  {| u_id := 25%nat; u_email := "eve@example.com"; u_username := "eve" |}.

Definition geometry : course_doc :=
  {| c_id := 5%nat; c_courseName := "Geometry";
     c_instructorName := "E. Noether"; c_teacher_id := 10%nat;
     c_maxStudents := 2; c_studentsEnrolled := 1; c_hasModules := false |}.

(** Student 20 is half way through one course and three quarters through
    another. *)
Definition db_two_courses : Db :=
  {| courses := [Examples.algebra; geometry];
     enrollments :=
       [{| e_id := 2%nat; e_course_id := 1%nat; e_student_id := 20%nat;
           e_enrollment_date := 0; e_progress := 50; e_status := "Active" |};
        {| e_id := 3%nat; e_course_id := 5%nat; e_student_id := 20%nat;
           e_enrollment_date := 0; e_progress := 75; e_status := "Active" |}];
     attendance := []; modules := []; lessons := []; assignments := [];
     assignment_submissions := []; notifications := [];
     users := [Examples.ada]; student_profiles := []; password_reset := [];
     next_id := 6%nat |}.

(** [db_grades] where the essay's stored score is not a number, and where
    two stored scores add up beyond the largest float. *)
Definition db_nan_grade : Db :=
  with_submissions
    (fun _ => [Examples.submitted 40%nat 30%nat (Some nan);
               Examples.submitted 42%nat 32%nat (Some 90%float)])
    Examples.db_grades.

Definition db_huge_grades : Db :=
  with_submissions
    (fun _ => [Examples.submitted 40%nat 30%nat (Some 0x1p1023%float);
               Examples.submitted 42%nat 32%nat (Some 0x1p1023%float)])
    Examples.db_grades.

End Samples.

(** * Properties *)

(** ** Collections *)

Lemma fold_add_ones {A} (xs : list A) (acc : Z) :
  fold_left Z.add (map (fun _ => 1) xs) acc = acc + Z.of_nat (List.length xs).
Proof.
  revert acc; induction xs as [|x xs IH]; intros acc; simpl.
  - lia.
  - rewrite IH. lia.
Qed.

Lemma sum_ones_length {A} (p : A -> bool) (xs : list A) :
  sum_ones p xs = Z.of_nat (List.length (filter p xs)).
Proof. unfold sum_ones. rewrite fold_add_ones. lia. Qed.

Lemma find_one_none_existsb {A} (q : A -> bool) (c : list A) :
  find_one q c = None -> existsb q c = false.
Proof.
  unfold find_one. induction c as [|d c IH]; simpl; [reflexivity|].
  destruct (q d); [discriminate | auto].
Qed.

Lemma find_one_some_existsb {A} (q : A -> bool) (c : list A) (d : A) :
  find_one q c = Some d -> existsb q c = true.
Proof.
  unfold find_one. induction c as [|x c IH]; simpl; [discriminate|].
  destruct (q x); auto.
Qed.

Lemma find_one_some {A} (q : A -> bool) (c : list A) (d : A) :
  find_one q c = Some d -> In d c /\ q d = true.
Proof. apply find_some. Qed.

Lemma find_one_none {A} (q : A -> bool) (c : list A) :
  find_one q c = None -> forall d, In d c -> q d = false.
Proof. apply find_none. Qed.

Lemma find_one_none_filter {A} (q : A -> bool) (c : list A) :
  find_one q c = None -> filter q c = [].
Proof.
  unfold find_one. induction c as [|d c IH]; simpl; [reflexivity|].
  destruct (q d); [discriminate | auto].
Qed.


(** ** Attendance statistics (C1) *)

Section AttendanceRate.
Import Attendance Spec.

Lemma collect_records_fst (cs : list course_doc) (cursor : list attendance_doc) :
  map fst (collect_records cs cursor)
  = filter (fun a => existsb (fun c => (c_id c =? a_course_id a)%nat) cs)
      cursor.
Proof.
  induction cursor as [|r rest IH]; simpl; [reflexivity|].
  destruct (find_one _ cs) as [c|] eqn:E.
  - rewrite (find_one_some_existsb _ _ _ E). simpl. now rewrite IH.
  - rewrite (find_one_none_existsb _ _ E). exact IH.
Qed.

Lemma filter_filter {A} (p q : A -> bool) (l : list A) :
  filter q (filter p l) = filter (fun x => p x && q x) l.
Proof.
  induction l as [|x l IH]; simpl; [reflexivity|].
  destruct (p x); simpl; [destruct (q x)|]; now rewrite IH.
Qed.

Lemma records_in_scope (db : Db) (course_id : option ObjectId)
  (student : ObjectId) :
  map fst
    (collect_records (courses db)
       (find (student_query course_id student) (Mongo.attendance db)))
  = scope_records db course_id student.
Proof.
  rewrite collect_records_fst. unfold find, scope_records, student_query.
  apply filter_filter.
Qed.

Lemma has_status_count (s : string) (records : list (attendance_doc * string)) :
  sum_ones (has_status s) records = count_status s (map fst records).
Proof.
  rewrite sum_ones_length. unfold count_status. f_equal. f_equal.
  induction records as [|r rs IH]; simpl; [reflexivity|].
  unfold has_status at 1. destruct (a_status (fst r) =? s)%string; simpl;
    now rewrite IH.
Qed.

Lemma is_present_count (records : list attendance_doc) :
  sum_ones is_present records = count_status "Present" records.
Proof. now rewrite sum_ones_length. Qed.
End AttendanceRate.

Section AttendanceRateTheorems.
Import Attendance Students Spec.

Lemma count_status_statuses (s : string) (records : list attendance_doc) :
  count_status s records
  = Z.of_nat (List.length
                (filter (fun x => (x =? s)%string) (map a_status records))).
Proof.
  unfold count_status. f_equal.
  induction records as [|r rs IH]; simpl; [reflexivity|].
  destruct (a_status r =? s)%string; simpl; now rewrite IH.
Qed.

Lemma count_all_statuses (records : list attendance_doc) :
  count_all records = Z.of_nat (List.length (map a_status records)).
Proof. unfold count_all. now rewrite length_map. Qed.

Lemma round2_rate (p t : Z) :
  0 <= t ->
  round2 (if 0 <? t then PFloat (PrimFloat.mul (int_truediv p t) (float_of_Z 100))
          else PInt 0)
  = rate_2dp p t.
Proof.
  intros Ht. unfold rate_2dp, percentage.
  destruct (Z.ltb_spec 0 t), (Z.eqb_spec t 0); try lia; reflexivity.
Qed.

(** The statistics block of [get_student_attendance], over the records in
    scope. *)
Lemma student_statistics (db : Db) (course_id : option ObjectId)
  (student : ObjectId) :
  exists resp,
    get_student_attendance course_id student db = (Ok resp, db)
    /\ map fst (attendance_records resp) = scope_records db course_id student
    /\ statistics resp
       = let recs := scope_records db course_id student in
         {| total := count_all recs;
            present := count_status "Present" recs;
            absent := count_status "Absent" recs;
            late := count_status "Late" recs;
            excused := count_status "Excused" recs;
            attendance_rate :=
              rate_2dp (count_status "Present" recs) (count_all recs) |}.
Proof.
  eexists. split; [reflexivity|]. simpl.
  split; [apply records_in_scope|].
  rewrite !has_status_count, records_in_scope.
  replace (Z.of_nat (List.length (collect_records _ _)))
    with (count_all (scope_records db course_id student)).
  - rewrite round2_rate by (unfold count_all; lia). reflexivity.
  - unfold count_all. rewrite <- records_in_scope. now rewrite length_map.
Qed.

Lemma attendance_percentage_rate (records : list attendance_doc) :
  round0 (attendance_percentage records)
  = rate_0dp (count_status "Present" records) (count_all records).
Proof.
  unfold attendance_percentage, rate_0dp, percentage, count_all.
  destruct records as [|r rs]; [reflexivity|].
  rewrite is_present_count.
  destruct (Z.eqb_spec (Z.of_nat (List.length (r :: rs))) 0) as [E|E];
    [simpl in E; lia | reflexivity].
Qed.

Lemma course_attendance_scope (db : Db) (course_id student : ObjectId) :
  existsb (fun c => (c_id c =? course_id)%nat) (courses db) = true ->
  course_attendance db course_id student
  = scope_records db (Some course_id) student.
Proof.
  intros Hc. unfold course_attendance, scope_records, find.
  apply filter_ext. intros a.
  destruct (Nat.eqb_spec (a_course_id a) course_id) as [->|];
    [rewrite Hc|]; simpl;
    destruct (a_student_id a =? student)%nat; reflexivity.
Qed.

(** [round] fails in two ways only. *)
Lemma round0_raise (x : num) (e : exn) :
  round0 x = Raise e -> e = ValueError \/ e = OverflowError.
Proof.
  destruct x as [z|f]; simpl; [discriminate|].
  destruct (scaled_nearest f 1); [discriminate|].
  destruct (Prim2SF f); intros [= <-]; auto.
Qed.

Lemma course_entry_ok (db : Db) (student : ObjectId) (e : enrollment_doc)
  (c : course_doc) (entry : CourseProgress) :
  course_entry db student e c = Ok entry ->
  cp_course_id entry = e_course_id e
  /\ cp_progress entry = e_progress e
  /\ round0 (performance_score (course_submissions db (e_course_id e) student))
     = Ok (cp_score entry)
  /\ round0 (attendance_percentage
               (course_attendance db (e_course_id e) student))
     = Ok (cp_attendance entry).
Proof.
  unfold course_entry, result_bind.
  destruct (round0 (performance_score _)) as [sc|]; [|discriminate].
  destruct (round0 (attendance_percentage _)) as [at_|]; [|discriminate].
  intros [= <-]. simpl. auto.
Qed.

Lemma course_entry_raise (db : Db) (student : ObjectId) (e : enrollment_doc)
  (c : course_doc) (ex : exn) :
  course_entry db student e c = Raise ex ->
  ex = ValueError \/ ex = OverflowError.
Proof.
  unfold course_entry, result_bind.
  destruct (round0 (performance_score _)) as [sc|ex1] eqn:E1;
    [|intros [= <-]; exact (round0_raise _ _ E1)].
  destruct (round0 (attendance_percentage _)) as [at_|ex2] eqn:E2;
    [discriminate | intros [= <-]; exact (round0_raise _ _ E2)].
Qed.

Lemma progress_loop_entries (db : Db) (student : ObjectId)
  (cursor : list enrollment_doc) (entries : list CourseProgress)
  (entry : CourseProgress) :
  progress_loop db student cursor = Ok entries ->
  In entry entries ->
  exists enrollment course,
    In enrollment cursor
    /\ find_one (fun c => (c_id c =? e_course_id enrollment)%nat) (courses db)
       = Some course
    /\ course_entry db student enrollment course = Ok entry.
Proof.
  revert entries. induction cursor as [|e rest IH]; simpl; intros entries.
  - intros [= <-] [].
  - destruct (find_one _ (courses db)) as [c|] eqn:E.
    + unfold result_bind.
      destruct (course_entry db student e c) as [x|] eqn:Hx; [|discriminate].
      destruct (progress_loop db student rest) as [xs|]; [|discriminate].
      intros [= <-] [<-|Hin].
      * exists e, c. auto.
      * destruct (IH xs eq_refl Hin) as (e' & c' & ? & ? & ?).
        exists e', c'. auto.
    + intros Hrun Hin. destruct (IH entries Hrun Hin) as (e' & c' & ? & ? & ?).
      exists e', c'. auto.
Qed.

Lemma progress_loop_raise (db : Db) (student : ObjectId)
  (cursor : list enrollment_doc) (ex : exn) :
  progress_loop db student cursor = Raise ex ->
  ex = ValueError \/ ex = OverflowError.
Proof.
  induction cursor as [|e rest IH]; simpl; [discriminate|].
  destruct (find_one _ (courses db)) as [c|]; [|exact IH].
  unfold result_bind.
  destruct (course_entry db student e c) as [x|ex1] eqn:Hx;
    [|intros [= <-]; exact (course_entry_raise _ _ _ _ _ Hx)].
  destruct (progress_loop db student rest) as [xs|ex2];
    [discriminate | intros [= <-]; now apply IH].
Qed.

Lemma progress_loop_fields (db : Db) (student : ObjectId)
  (cursor : list enrollment_doc) (entries : list CourseProgress) :
  progress_loop db student cursor = Ok entries ->
  let kept :=
    filter (fun e => existsb (fun c => (c_id c =? e_course_id e)%nat)
                       (courses db)) cursor in
  map cp_course_id entries = map e_course_id kept
  /\ map cp_progress entries = map e_progress kept.
Proof.
  revert entries. induction cursor as [|e rest IH]; simpl; intros entries.
  - intros [= <-]. auto.
  - destruct (find_one _ (courses db)) as [c|] eqn:E.
    + rewrite (find_one_some_existsb _ _ _ E). unfold result_bind.
      destruct (course_entry db student e c) as [x|] eqn:Hx; [|discriminate].
      destruct (progress_loop db student rest) as [xs|]; [|discriminate].
      intros [= <-].
      destruct (course_entry_ok _ _ _ _ _ Hx) as (Hid & Hpr & _).
      destruct (IH xs eq_refl) as [H1 H2]. simpl. rewrite Hid, Hpr, H1, H2. auto.
    + rewrite (find_one_none_existsb _ _ E). apply IH.
Qed.

(** What [get_student_progress] does: it never writes; it fails only in
    [round]; and when it answers, the entries are those of the loop. *)
Lemma get_student_progress_cases (student : ObjectId) (db db' : Db)
  (r : result StudentProgress) :
  get_student_progress student db = (r, db') ->
  db' = db
  /\ (forall ex, r = Raise ex -> ex = ValueError \/ ex = OverflowError)
  /\ (forall resp, r = Ok resp ->
        progress_loop db student
          (find (fun e => (e_student_id e =? student)%nat) (enrollments db))
        = Ok (progress_courses resp)).
Proof.
  unfold get_student_progress, reads_result, result_bind.
  destruct (progress_loop db student _) as [entries|ex1] eqn:Hloop.
  - match goal with
    | |- context [round0 ?o] => destruct (round0 o) as [ov|ex2] eqn:Hov
    end; intros [= <- <-]; split; auto; split.
    + discriminate.
    + intros resp [= <-]. reflexivity.
    + intros ex [= <-]. exact (round0_raise _ _ Hov).
    + discriminate.
  - intros [= <- <-]. split; auto. split.
    + intros ex [= <-]. exact (progress_loop_raise _ _ _ _ Hloop).
    + discriminate.
Qed.

(** The per-course attendance value of [get_student_progress]. *)
Lemma progress_attendance (db : Db) (student : ObjectId)
  (resp : StudentProgress) :
  progress_loop db student
    (find (fun e => (e_student_id e =? student)%nat) (enrollments db))
  = Ok (progress_courses resp) ->
  forall entry, In entry (progress_courses resp) ->
    let recs := scope_records db (Some (cp_course_id entry)) student in
    rate_0dp (count_status "Present" recs) (count_all recs)
    = Ok (cp_attendance entry).
Proof.
  intros Hloop entry Hin.
  destruct (progress_loop_entries _ _ _ _ _ Hloop Hin) as (e & c & _ & Hc & He).
  destruct (course_entry_ok _ _ _ _ _ He) as (Hid & _ & _ & Hat).
  cbv zeta. rewrite Hid, <- Hat, attendance_percentage_rate.
  now rewrite (course_attendance_scope _ _ _ (find_one_some_existsb _ _ _ Hc)).
Qed.
End AttendanceRateTheorems.

(** C1.  The student attendance-statistics endpoint reports, over the
    student's records in scope (optionally of one course), the counts per
    status and [present_count / total_records * 100] rounded to 2 decimal
    places; with no record in scope the rate is the integer 0; and records
    {Present, Present, Absent, Late} give total=4, present=2, absent=1,
    late=1, excused=0, attendance_rate=50.0.  In the progress endpoint the
    attendance value computed for a course is the same ratio rounded to 0
    decimal places, 0 with no record in scope, and that is the value of
    every entry the endpoint answers with; the endpoint writes nothing and
    fails only where [round] raises on a value that is not finite. *)
Theorem attendance_rate_both_endpoints (db : Db) (course_id : option ObjectId)
  (student : ObjectId) :
  (exists resp,
      Attendance.get_student_attendance course_id student db = (Ok resp, db)
      /\ let recs := Spec.scope_records db course_id student in
         Attendance.attendance_rate (Attendance.statistics resp)
         = Spec.rate_2dp (Spec.count_status "Present" recs)
             (Spec.count_all recs)
         /\ (recs = [] ->
             Attendance.attendance_rate (Attendance.statistics resp) = PInt 0)
         /\ (map a_status recs = ["Present"; "Present"; "Absent"; "Late"] ->
             Attendance.statistics resp
             = {| Attendance.total := 4; Attendance.present := 2;
                  Attendance.absent := 1; Attendance.late := 1;
                  Attendance.excused := 0;
                  Attendance.attendance_rate := PFloat 50%float |}))
  /\ (forall course,
        existsb (fun c => (c_id c =? course)%nat) (courses db) = true ->
        let recs := Spec.scope_records db (Some course) student in
        round0 (attendance_percentage (course_attendance db course student))
        = Spec.rate_0dp (Spec.count_status "Present" recs)
            (Spec.count_all recs)
        /\ (recs = [] ->
            round0 (attendance_percentage (course_attendance db course student))
            = Ok 0))
  /\ (forall r db',
        Students.get_student_progress student db = (r, db') ->
        db' = db
        /\ (forall ex, r = Raise ex -> ex = ValueError \/ ex = OverflowError)
        /\ (forall resp, r = Ok resp ->
              forall entry, In entry (Students.progress_courses resp) ->
                let recs :=
                  Spec.scope_records db (Some (Students.cp_course_id entry))
                    student in
                Spec.rate_0dp (Spec.count_status "Present" recs)
                  (Spec.count_all recs)
                = Ok (Students.cp_attendance entry)
                /\ (recs = [] -> Students.cp_attendance entry = 0))).
Proof.
  split; [|split].
  - destruct (student_statistics db course_id student) as (resp & Hrun & _ & Hst).
    exists resp. split; [exact Hrun|]. cbv zeta in *. rewrite Hst. simpl.
    split; [reflexivity|]. split.
    + intros ->. reflexivity.
    + intros Hs.
      rewrite !count_status_statuses, count_all_statuses, Hs.
      vm_compute. reflexivity.
  - intros course Hc. cbv zeta.
    assert (E : round0 (attendance_percentage
                          (course_attendance db course student))
                = Spec.rate_0dp
                    (Spec.count_status "Present"
                       (Spec.scope_records db (Some course) student))
                    (Spec.count_all
                       (Spec.scope_records db (Some course) student)))
      by (now rewrite attendance_percentage_rate,
                (course_attendance_scope _ _ _ Hc)).
    split; [exact E|]. intros Hnil. rewrite E, Hnil. reflexivity.
  - intros r db' Hrun.
    destruct (get_student_progress_cases _ _ _ _ Hrun) as (Hdb & Hfail & Hok).
    split; [exact Hdb|]. split; [exact Hfail|].
    intros resp Hr entry Hin.
    pose proof (progress_attendance db student resp (Hok resp Hr) entry Hin)
      as Hrate.
    cbv zeta in *. split; [exact Hrate|].
    intros Hnil. rewrite Hnil in Hrate.
    change (Ok 0 = Ok (Students.cp_attendance entry)) in Hrate. congruence.
Qed.

Lemma attendance_rate_both_endpoints_witness :
  (exists resp,
      Attendance.get_student_attendance (Some 1%nat) 20%nat Examples.db_scenario
      = (Ok resp, Examples.db_scenario)
      /\ Attendance.statistics resp
         = {| Attendance.total := 4; Attendance.present := 2;
              Attendance.absent := 1; Attendance.late := 1;
              Attendance.excused := 0;
              Attendance.attendance_rate := PFloat 50%float |})
  /\ (exists resp,
        Students.get_student_progress 20%nat Examples.db_scenario
        = (Ok resp, Examples.db_scenario)
        /\ map Students.cp_attendance (Students.progress_courses resp) = [50]).
Proof.
  destruct (attendance_rate_both_endpoints Examples.db_scenario (Some 1%nat)
              20%nat) as [(resp & Hrun & _ & _ & Hscenario) _].
  split.
  - exists resp. split; [exact Hrun|]. apply Hscenario. reflexivity.
  - eexists. split; [vm_compute; reflexivity | reflexivity].
Defined.

(** ** Assignment performance (C2) *)

Section Performance.
Import Students Courses Spec.

Lemma graded_scores_filter (submissions : list submission_doc) :
  graded_scores submissions = map score_or_zero (filter has_score submissions).
Proof.
  induction submissions as [|s rest IH]; simpl; [reflexivity|].
  assert (Hs : has_score s = match s_score s with Some _ => true | None => false end)
    by reflexivity.
  assert (Hz : score_or_zero s
               = match s_score s with Some x => x | None => float_of_Z 0 end)
    by reflexivity.
  destruct (s_score s) as [x|]; rewrite Hs; simpl; rewrite IH;
    [rewrite Hz|]; reflexivity.
Qed.

Lemma performance_score_spec (submissions : list submission_doc) :
  performance_score submissions = performance submissions.
Proof.
  unfold performance_score, performance.
  destruct submissions as [|s rest]; [reflexivity|].
  rewrite graded_scores_filter.
  destruct (filter has_score (s :: rest)) as [|g gs]; [reflexivity|].
  cbn [map List.length Nat.eqb]. rewrite length_map. reflexivity.
Qed.

Lemma in_course_ids (course_id i : ObjectId) (l : list assignment_doc) :
  existsb (Nat.eqb i)
    (map as_id (find (fun a => (as_course a =? course_id)%nat) l))
  = existsb (fun a => (as_id a =? i)%nat && (as_course a =? course_id)%nat) l.
Proof.
  unfold find. induction l as [|a l IH]; simpl; [reflexivity|].
  destruct (as_course a =? course_id)%nat; simpl.
  - rewrite IH, andb_true_r, (Nat.eqb_sym i). reflexivity.
  - now rewrite IH, andb_false_r.
Qed.

Lemma course_submissions_spec (db : Db) (course_id student : ObjectId) :
  course_submissions db course_id student
  = submissions_in_course db course_id student.
Proof.
  unfold course_submissions, submissions_in_course, find.
  apply filter_ext. intros s. rewrite <- in_course_ids. reflexivity.
Qed.

Lemma filter_idem {A} (p : A -> bool) (l : list A) :
  filter p (filter p l) = filter p l.
Proof.
  induction l as [|x l IH]; simpl; [reflexivity|].
  destruct (p x) eqn:E; simpl; [rewrite E, IH|]; auto.
Qed.

Lemma performance_ignores_ungraded (submissions : list submission_doc) :
  performance submissions = performance (filter has_score submissions).
Proof. unfold performance. now rewrite filter_idem. Qed.

Lemma student_entry_ok (db : Db) (course_id : ObjectId) (e : enrollment_doc)
  (u : user_doc) (entry : CourseStudent) :
  student_entry db course_id e u = Ok entry ->
  cs_id entry = u_id u
  /\ round0 (performance_score (course_submissions db course_id (u_id u)))
     = Ok (cs_performance entry).
Proof.
  unfold student_entry, result_bind.
  destruct (round0 (attendance_percentage _)) as [at_|]; [|discriminate].
  destruct (round0 (performance_score _)) as [pf|]; [|discriminate].
  intros [= <-]. simpl. auto.
Qed.

Lemma student_entry_raise (db : Db) (course_id : ObjectId) (e : enrollment_doc)
  (u : user_doc) (ex : exn) :
  student_entry db course_id e u = Raise ex ->
  ex = ValueError \/ ex = OverflowError.
Proof.
  unfold student_entry, result_bind.
  destruct (round0 (attendance_percentage _)) as [at_|ex1] eqn:E1;
    [|intros [= <-]; exact (round0_raise _ _ E1)].
  destruct (round0 (performance_score _)) as [pf|ex2] eqn:E2;
    [discriminate | intros [= <-]; exact (round0_raise _ _ E2)].
Qed.

Lemma students_loop_entries (db : Db) (course_id : ObjectId)
  (cursor : list enrollment_doc) (entries : list CourseStudent)
  (entry : CourseStudent) :
  students_loop db course_id cursor = Ok entries ->
  In entry entries ->
  exists enrollment student,
    In enrollment cursor
    /\ student_entry db course_id enrollment student = Ok entry.
Proof.
  revert entries. induction cursor as [|e rest IH]; simpl; intros entries.
  - intros [= <-] [].
  - destruct (find_one _ (users db)) as [u|].
    + unfold result_bind.
      destruct (student_entry db course_id e u) as [x|] eqn:Hx; [|discriminate].
      destruct (students_loop db course_id rest) as [xs|]; [|discriminate].
      intros [= <-] [<-|Hin]; [exists e, u; auto|].
      destruct (IH xs eq_refl Hin) as (e' & u' & ? & ?). exists e', u'. auto.
    + intros Hrun Hin. destruct (IH entries Hrun Hin) as (e' & u' & ? & ?).
      exists e', u'. auto.
Qed.

Lemma students_loop_raise (db : Db) (course_id : ObjectId)
  (cursor : list enrollment_doc) (ex : exn) :
  students_loop db course_id cursor = Raise ex ->
  ex = ValueError \/ ex = OverflowError.
Proof.
  induction cursor as [|e rest IH]; simpl; [discriminate|].
  destruct (find_one _ (users db)) as [u|]; [|exact IH].
  unfold result_bind.
  destruct (student_entry db course_id e u) as [x|ex1] eqn:Hx;
    [|intros [= <-]; exact (student_entry_raise _ _ _ _ _ Hx)].
  destruct (students_loop db course_id rest) as [xs|ex2];
    [discriminate | intros [= <-]; now apply IH].
Qed.
End Performance.

(** C2.  For a student and a course, the score computed by
    [get_student_progress] and by [get_course_students] is
    [sum(scores) / (graded_count * 100) * 100] over the student's
    submissions in the course whose score is non-null; submissions with a
    null score change neither numerator nor denominator; with no graded
    submission the score is 0.  Every entry either endpoint answers with
    carries [round] of that score; [get_course_students] writes nothing and
    fails only with its 404 or where [round] raises on a value that is not
    finite. *)
Theorem performance_score_formula (db : Db) (course_id student teacher : ObjectId) :
  let subs := Spec.submissions_in_course db course_id student in
  performance_score (course_submissions db course_id student)
  = Spec.performance subs
  /\ Spec.performance subs = Spec.performance (filter Spec.has_score subs)
  /\ (filter Spec.has_score subs = [] -> Spec.performance subs = PInt 0)
  /\ (forall resp db',
        Students.get_student_progress student db = (Ok resp, db') ->
        forall entry, In entry (Students.progress_courses resp) ->
          round0 (Spec.performance
                    (Spec.submissions_in_course db
                       (Students.cp_course_id entry) student))
          = Ok (Students.cp_score entry))
  /\ (forall r db',
        Courses.get_course_students course_id teacher db = (r, db') ->
        db' = db
        /\ (forall ex, r = Raise ex ->
              ex = HTTPException 404
                     "Course not found or you don't have permission"
              \/ ex = ValueError \/ ex = OverflowError)
        /\ (forall resp, r = Ok resp ->
              forall entry, In entry resp ->
                round0 (Spec.performance
                          (Spec.submissions_in_course db course_id
                             (Courses.cs_id entry)))
                = Ok (Courses.cs_performance entry))).
Proof.
  intros subs. subst subs.
  split; [now rewrite performance_score_spec, course_submissions_spec|].
  split; [apply performance_ignores_ungraded|].
  split; [intros E; unfold Spec.performance; now rewrite E|].
  split.
  - intros resp db' Hrun entry Hin.
    destruct (get_student_progress_cases _ _ _ _ Hrun) as (_ & _ & Hok).
    destruct (progress_loop_entries _ _ _ _ _ (Hok resp eq_refl) Hin)
      as (e & c & _ & _ & He).
    destruct (course_entry_ok _ _ _ _ _ He) as (Hid & _ & Hsc & _).
    now rewrite Hid, <- Hsc, performance_score_spec, course_submissions_spec.
  - intros r db'. unfold Courses.get_course_students, bind, query, raise,
      reads_result.
    destruct (find_one _ (courses db)).
    + destruct (Courses.students_loop db course_id _) as [entries|ex1] eqn:Hloop;
        intros [= <- <-]; split; auto; split.
      * discriminate.
      * intros resp [= <-] entry Hin.
        destruct (students_loop_entries _ _ _ _ _ Hloop Hin) as (e & u & _ & He).
        destruct (student_entry_ok _ _ _ _ _ He) as (Hid & Hpf).
        now rewrite Hid, <- Hpf, performance_score_spec, course_submissions_spec.
      * intros ex [= <-]. right. exact (students_loop_raise _ _ _ _ Hloop).
      * discriminate.
    + intros [= <- <-]. split; auto. split; [|discriminate].
      intros ex [= <-]. now left.
Qed.

Lemma performance_score_formula_witness :
  performance_score (course_submissions Examples.db_grades 1%nat 20%nat)
  = PFloat 85%float
  /\ (exists resp,
        Students.get_student_progress 20%nat Examples.db_grades
        = (Ok resp, Examples.db_grades)
        /\ map Students.cp_score (Students.progress_courses resp) = [85])
  /\ (exists resp,
        Courses.get_course_students 1%nat 10%nat Examples.db_grades
        = (Ok resp, Examples.db_grades)
        /\ map Courses.cs_performance resp = [85]).
Proof.
  destruct (performance_score_formula Examples.db_grades 1%nat 20%nat 10%nat)
    as (H & _).
  split; [rewrite H; reflexivity|].
  split; eexists; (split; [vm_compute; reflexivity | reflexivity]).
Defined.

(** A stored score that is not finite ends both endpoints in the exception
    [round] raises, which no handler catches. *)
Example non_finite_scores_fail :
  Students.get_student_progress 20%nat Samples.db_nan_grade
  = (Raise ValueError, Samples.db_nan_grade)
  /\ Courses.get_course_students 1%nat 10%nat Samples.db_nan_grade
     = (Raise ValueError, Samples.db_nan_grade)
  /\ Students.get_student_progress 20%nat Samples.db_huge_grades
     = (Raise OverflowError, Samples.db_huge_grades)
  /\ Courses.get_course_students 1%nat 10%nat Samples.db_huge_grades
     = (Raise OverflowError, Samples.db_huge_grades)
  /\ http_status 200 (@Raise Students.StudentProgress ValueError) = 500.
Proof. repeat split; vm_compute; reflexivity. Qed.

(** ** Enrollment (C3, C4) *)

Section Enrollment.
Import Courses.

Lemma find_one_update_one {A} (q : A -> bool) (f : A -> A) (c : list A) :
  (forall d, q (f d) = q d) ->
  find_one q (update_one q f c) = option_map f (find_one q c).
Proof.
  intros Hq. unfold find_one.
  induction c as [|d c IH]; simpl; [reflexivity|].
  destruct (q d) eqn:E; simpl.
  - now rewrite Hq, E.
  - now rewrite E.
Qed.

Lemma find_one_app_new {A} (q : A -> bool) (c : list A) (d : A) :
  q d = true -> find_one q (c ++ [d]) <> None.
Proof.
  intros Hd. unfold find_one.
  induction c as [|x c IH]; simpl.
  - now rewrite Hd.
  - destruct (q x); [discriminate | exact IH].
Qed.

(** What a successful [enroll_in_course] did. *)
Lemma enroll_success (now : datetime) (db db' : Db) (courseId student : ObjectId)
  (msg : string) :
  enroll_in_course now courseId student db = (Ok msg, db') ->
  exists course,
    find_one (by_course_id courseId) (courses db) = Some course
    /\ find_one (by_course_and_student courseId student) (enrollments db)
       = None
    /\ c_studentsEnrolled course < c_maxStudents course
    /\ enrollments db'
       = (enrollments db
          ++ [{| e_id := next_id db; e_course_id := courseId;
                 e_student_id := student; e_enrollment_date := now;
                 e_progress := 0; e_status := "Active" |}])%list
    /\ courses db'
       = update_one (by_course_id courseId) inc_studentsEnrolled (courses db).
Proof.
  unfold enroll_in_course, bind, query, raise.
  destruct (find_one _ (courses db)) as [course|] eqn:Hc; [|discriminate].
  destruct (find_one _ (enrollments db)) eqn:He; [discriminate|].
  destruct (Z.leb_spec (c_maxStudents course) (c_studentsEnrolled course));
    [discriminate|].
  unfold insert_one, write, ret. simpl. intros [= _ <-].
  exists course. simpl. auto.
Qed.

Lemma enroll_already_enrolled (now : datetime) (db : Db)
  (courseId student : ObjectId) :
  find_one (by_course_id courseId) (courses db) <> None ->
  find_one (by_course_and_student courseId student) (enrollments db) <> None ->
  enroll_in_course now courseId student db
  = (Raise (HTTPException 400 "Already enrolled in this course"), db).
Proof.
  intros Hc He. unfold enroll_in_course, bind, query, raise.
  destruct (find_one _ (courses db)); [|congruence].
  destruct (find_one _ (enrollments db)); [reflexivity | congruence].
Qed.
End Enrollment.

(** C3.  When an enrollment for the (course, student) pair exists, enrolling
    fails with Conflict (HTTP 400, "Already enrolled in this course") and
    writes nothing.  Hence after a successful first call -- which appends
    the enrollment with progress=0 and status=Active and adds 1 to the
    course's [studentsEnrolled] -- a second call for the same pair fails
    with Conflict and leaves the database of the first call as it is: the
    counter has been incremented exactly once. *)
Theorem enroll_twice_conflict (now1 now2 : datetime) (db db1 : Db)
  (courseId student : ObjectId) (msg : string) :
  Courses.enroll_in_course now1 courseId student db = (Ok msg, db1) ->
  enrollments db1
  = (enrollments db
     ++ [{| e_id := next_id db; e_course_id := courseId;
            e_student_id := student; e_enrollment_date := now1;
            e_progress := 0; e_status := "Active" |}])%list
  /\ (exists n, Spec.studentsEnrolled db courseId = Some n
                /\ Spec.studentsEnrolled db1 courseId = Some (n + 1))
  /\ Courses.enroll_in_course now2 courseId student db1
     = (Raise (HTTPException 400 "Already enrolled in this course"), db1)
  /\ (forall db0 : Db,
        find_one (Courses.by_course_id courseId) (courses db0) <> None ->
        find_one (by_course_and_student courseId student) (enrollments db0)
        <> None ->
        Courses.enroll_in_course now2 courseId student db0
        = (Raise (HTTPException 400 "Already enrolled in this course"), db0)).
Proof.
  intros Hrun.
  destruct (enroll_success _ _ _ _ _ _ Hrun)
    as (course & Hc & He & Hcap & Henr & Hcourses).
  assert (Hc1 : find_one (Courses.by_course_id courseId) (courses db1)
                = Some (Courses.inc_studentsEnrolled course)).
  { rewrite Hcourses, find_one_update_one by reflexivity. now rewrite Hc. }
  split; [exact Henr|]. split; [|split].
  - exists (c_studentsEnrolled course). unfold Spec.studentsEnrolled.
    now rewrite Hc, Hc1.
  - apply enroll_already_enrolled; [congruence|].
    rewrite Henr. apply find_one_app_new.
    unfold by_course_and_student. simpl. now rewrite !Nat.eqb_refl.
  - intros db0. apply enroll_already_enrolled.
Qed.

Lemma enroll_twice_conflict_witness :
  exists db1,
    Courses.enroll_in_course 7 1%nat 21%nat Examples.db_scenario
    = (Ok "Successfully enrolled in course", db1)
    /\ Spec.studentsEnrolled Examples.db_scenario 1%nat = Some 0
    /\ Spec.studentsEnrolled db1 1%nat = Some 1
    /\ Courses.enroll_in_course 8 1%nat 21%nat db1
       = (Raise (HTTPException 400 "Already enrolled in this course"), db1).
Proof.
  exists (snd (Courses.enroll_in_course 7 1%nat 21%nat Examples.db_scenario)).
  assert (Hrun : Courses.enroll_in_course 7 1%nat 21%nat Examples.db_scenario
                 = (Ok "Successfully enrolled in course",
                    snd (Courses.enroll_in_course 7 1%nat 21%nat
                           Examples.db_scenario)))
    by reflexivity.
  destruct (enroll_twice_conflict 7 8 _ _ _ _ _ Hrun) as (_ & _ & Hsecond & _).
  split; [exact Hrun|]. split; [reflexivity|]. split; [reflexivity|].
  exact Hsecond.
Defined.

(** C4.  When the course's [studentsEnrolled] has reached [maxStudents] and
    the student is not enrolled, enrolling fails with Capacity (HTTP 400,
    "Course is full") and writes nothing: the database, with its
    enrollments and the course document, is returned unchanged. *)
Theorem enroll_full_course (now : datetime) (db : Db) (courseId student : ObjectId)
  (course : course_doc) :
  find_one (Courses.by_course_id courseId) (courses db) = Some course ->
  c_maxStudents course <= c_studentsEnrolled course ->
  find_one (by_course_and_student courseId student) (enrollments db) = None ->
  Courses.enroll_in_course now courseId student db
  = (Raise (HTTPException 400 "Course is full"), db).
Proof.
  intros Hc Hfull He. unfold Courses.enroll_in_course, bind, query, raise.
  rewrite Hc, He.
  destruct (Z.leb_spec (c_maxStudents course) (c_studentsEnrolled course));
    [reflexivity | lia].
Qed.

Lemma enroll_full_course_witness :
  Courses.enroll_in_course 7 50%nat 22%nat Examples.db_full
  = (Raise (HTTPException 400 "Course is full"), Examples.db_full).
Proof.
  apply (enroll_full_course 7 Examples.db_full 50%nat 22%nat Examples.logic_full);
    [reflexivity | simpl; lia | reflexivity].
Defined.

(** ** Attendance recording (C5, C10) *)

Section AttendanceUpsert.
Import Attendance Spec.

Lemma set_preserves_key (k : attendance_key) (st : string)
  (tm nt : option string) (a : attendance_doc) :
  has_key k (set_status_time_note st tm nt a) = has_key k a.
Proof. destruct k as [[c s] d]. reflexivity. Qed.










(** With unique [_id]s, updating by the [_id] of a stored record touches
    that record only. *)
Lemma update_one_by_id (c : list attendance_doc) (x : attendance_doc)
  (f : attendance_doc -> attendance_doc) :
  NoDup (map a_id c) -> In x c ->
  update_one (by_attendance_id (a_id x)) f c
  = map (fun a => if (a_id a =? a_id x)%nat then f a else a) c.
Proof.
  induction c as [|a c IH]; simpl; [tauto|].
  intros Hnd Hin. inversion Hnd as [|? ? Hnotin Hnd']; subst.
  unfold by_attendance_id at 1.
  destruct (Nat.eqb_spec (a_id a) (a_id x)) as [E|E].
  - f_equal. symmetry. rewrite <- (map_id c) at 2. apply map_ext_in.
    intros b Hb. destruct (Nat.eqb_spec (a_id b) (a_id x)) as [E'|]; auto.
    exfalso. apply Hnotin. rewrite E, <- E'. now apply in_map.
  - f_equal. apply IH; [assumption|].
    destruct Hin as [->|]; [congruence | assumption].
Qed.

Lemma record_attendance_upsert (now : datetime) (att : AttendanceCreate)
  (u : ObjectId) (db : Db) :
  attendance_ids_unique db ->
  find_one (by_id_and_teacher (ac_course_id att) u) (courses db) <> None ->
  find_one (by_course_and_student (ac_course_id att) (ac_student_id att))
    (enrollments db) <> None ->
  exists msg,
    record_attendance now att u db
    = (Ok msg,
       upsert_attendance now (ac_course_id att) (ac_student_id att)
         (ac_date att) (ac_status att) (ac_time att) (ac_note att) u db).
Proof.
  intros Hids Hc He.
  unfold record_attendance, upsert_attendance, bind, query, raise.
  destruct (find_one _ (courses db)); [|congruence].
  destruct (find_one _ (enrollments db)); [|congruence].
  destruct (find_one _ (Mongo.attendance db)) as [existing|] eqn:E.
  - eexists. unfold write, ret, with_attendance. simpl.
    rewrite update_one_by_id;
      [reflexivity | exact Hids | apply (find_one_some _ _ _ E)].
  - eexists. reflexivity.
Qed.


Lemma filter_map_preserved {A} (p : A -> bool) (g : A -> A) (l : list A) :
  (forall a, p (g a) = p a) -> filter p (map g l) = map g (filter p l).
Proof.
  intros Hg. induction l as [|a l IH]; simpl; [reflexivity|].
  rewrite Hg. destruct (p a); simpl; now rewrite IH.
Qed.

End AttendanceUpsert.



Section BulkSkips.
Import Attendance Spec.

Lemma bulk_record_one_enrollments (now : datetime) (course_id : ObjectId)
  (d : date) (u : ObjectId) (record : BulkRecord) (db : Db) :
  enrollments (snd (bulk_record_one now course_id d u record db))
  = enrollments db.
Proof.
  unfold bulk_record_one, bind, query, lift.
  destruct (br_student_id record); [|reflexivity]. simpl.
  destruct (find_one _ (enrollments db)); [|reflexivity].
  destruct (find_one _ (Mongo.attendance db));
    destruct (br_status record); reflexivity.
Qed.

Lemma bulk_record_one_skip (now : datetime) (course_id : ObjectId)
  (d : date) (u : ObjectId) (record : BulkRecord) (db : Db) :
  not_enrolled (enrollments db) course_id record = true ->
  bulk_record_one now course_id d u record db = (Ok tt, db).
Proof.
  unfold not_enrolled, bulk_record_one, bind, query, lift.
  destruct (br_student_id record) as [s|]; [|discriminate]. simpl.
  destruct (find_one _ (enrollments db)) eqn:E; [|reflexivity].
  now rewrite (find_one_some_existsb _ _ _ E).
Qed.

Lemma bulk_loop_skips (now : datetime) (course_id : ObjectId) (d : date)
  (u : ObjectId) (records : list BulkRecord) (db : Db) :
  bulk_loop now course_id d u records db
  = bulk_loop now course_id d u
      (filter (fun r => negb (not_enrolled (enrollments db) course_id r))
         records)
      db.
Proof.
  revert db. induction records as [|r rest IH]; intros db; [reflexivity|].
  simpl. destruct (not_enrolled (enrollments db) course_id r) eqn:E; simpl.
  - unfold bind at 1. rewrite (bulk_record_one_skip _ _ _ _ _ _ E). apply IH.
  - unfold bind.
    pose proof (bulk_record_one_enrollments now course_id d u r db) as He.
    destruct (bulk_record_one now course_id d u r db) as [[[]|e] db1];
      [|reflexivity].
    simpl in He. rewrite IH, He. reflexivity.
Qed.

Lemma bulk_all_skipped (now : datetime) (data : AttendanceBulkCreate)
  (u : ObjectId) (db : Db) :
  find_one (by_id_and_teacher (bc_course_id data) u) (courses db) <> None ->
  forallb (not_enrolled (enrollments db) (bc_course_id data))
    (bc_records data) = true ->
  bulk_record_attendance now data u db
  = (Ok "Attendance recorded successfully for all students", db).
Proof.
  intros Hc Hall. unfold bulk_record_attendance, bind at 1, query.
  destruct (find_one _ (courses db)); [|congruence].
  unfold bind. rewrite bulk_loop_skips.
  replace (filter _ (bc_records data)) with (@nil BulkRecord); [reflexivity|].
  symmetry. induction (bc_records data) as [|r rest IH]; [reflexivity|].
  simpl in *. apply andb_true_iff in Hall as [Hr Hrest].
  rewrite Hr. simpl. auto.
Qed.

Lemma record_not_enrolled (now : datetime) (att : AttendanceCreate)
  (u : ObjectId) (db : Db) :
  find_one (by_id_and_teacher (ac_course_id att) u) (courses db) <> None ->
  find_one (by_course_and_student (ac_course_id att) (ac_student_id att))
    (enrollments db) = None ->
  record_attendance now att u db
  = (Raise (HTTPException 404 "Student not enrolled in this course"), db).
Proof.
  intros Hc He. unfold record_attendance, bind, query, raise.
  destruct (find_one _ (courses db)); [|congruence].
  now rewrite He.
Qed.
End BulkSkips.

(** C10.  In bulk attendance recording a record whose student has no
    enrollment in the course is skipped: it raises nothing and writes
    nothing, and the loop behaves as if the record were not in the list.
    When every record is skipped the endpoint still answers with its
    success message and the database is unchanged.  The single-record
    endpoint instead fails with NotFound (HTTP 404, "Student not enrolled
    in this course") for such a student. *)
Theorem bulk_skips_not_enrolled (now : datetime) (u : ObjectId) (db : Db) :
  (forall course_id d (record : Attendance.BulkRecord),
      Spec.not_enrolled (enrollments db) course_id record = true ->
      Attendance.bulk_record_one now course_id d u record db = (Ok tt, db))
  /\ (forall course_id d (records : list Attendance.BulkRecord),
        Attendance.bulk_loop now course_id d u records db
        = Attendance.bulk_loop now course_id d u
            (filter (fun r =>
                       negb (Spec.not_enrolled (enrollments db) course_id r))
               records)
            db)
  /\ (forall data : Attendance.AttendanceBulkCreate,
        find_one (by_id_and_teacher (Attendance.bc_course_id data) u)
          (courses db) <> None ->
        forallb (Spec.not_enrolled (enrollments db)
                   (Attendance.bc_course_id data))
          (Attendance.bc_records data) = true ->
        Attendance.bulk_record_attendance now data u db
        = (Ok "Attendance recorded successfully for all students", db))
  /\ (forall att : Attendance.AttendanceCreate,
        find_one (by_id_and_teacher (Attendance.ac_course_id att) u)
          (courses db) <> None ->
        find_one (by_course_and_student (Attendance.ac_course_id att)
                    (Attendance.ac_student_id att)) (enrollments db) = None ->
        Attendance.record_attendance now att u db
        = (Raise (HTTPException 404 "Student not enrolled in this course"),
           db)).
Proof.
  split; [intros; now apply bulk_record_one_skip|].
  split; [intros; apply bulk_loop_skips|].
  split; [intros; now apply bulk_all_skipped|].
  intros; now apply record_not_enrolled.
Qed.

Lemma bulk_skips_not_enrolled_witness :
  Attendance.bulk_record_attendance 9
    {| Attendance.bc_course_id := 1%nat; Attendance.bc_date := 5;
       Attendance.bc_records :=
         [{| Attendance.br_student_id := Some 98%nat;
             Attendance.br_status := Some "Present";
             Attendance.br_time := None; Attendance.br_note := None |};
          {| Attendance.br_student_id := Some 99%nat;
             Attendance.br_status := None;
             Attendance.br_time := None; Attendance.br_note := None |}] |}
    10%nat Examples.db_scenario
  = (Ok "Attendance recorded successfully for all students",
     Examples.db_scenario)
  /\ Attendance.record_attendance 9
       {| Attendance.ac_course_id := 1%nat; Attendance.ac_student_id := 98%nat;
          Attendance.ac_date := 5; Attendance.ac_status := "Present";
          Attendance.ac_time := None; Attendance.ac_note := None |}
       10%nat Examples.db_scenario
     = (Raise (HTTPException 404 "Student not enrolled in this course"),
        Examples.db_scenario).
Proof.
  destruct (bulk_skips_not_enrolled 9 10%nat Examples.db_scenario)
    as (_ & _ & Hbulk & Hsingle).
  split.
  - apply Hbulk; [discriminate | reflexivity].
  - apply Hsingle; [discriminate | reflexivity].
Defined.

(** ** Module and lesson order (C6) *)

Section Ordering.
Import Courses Spec.

Lemma max_by_in {A} (key : A -> Z) (best : A) (c : list A) :
  In (max_by key best c) (best :: c).
Proof.
  revert best. induction c as [|d c IH]; intros best; simpl; [auto|].
  destruct (IH (if key best <? key d then d else best)) as [E|Hin].
  - rewrite <- E. destruct (key best <? key d); auto.
  - auto.
Qed.

Lemma max_by_ge {A} (key : A -> Z) (c : list A) :
  forall best x, In x (best :: c) -> key x <= key (max_by key best c).
Proof.
  induction c as [|d c IH]; intros best x; simpl.
  - intros [->|[]]. lia.
  - intros Hin.
    set (b := if key best <? key d then d else best).
    assert (Hb : key best <= key b /\ key d <= key b)
      by (unfold b; destruct (Z.ltb_spec (key best) (key d)); lia).
    destruct Hb as [Hb Hd].
    pose proof (IH b b (or_introl eq_refl)) as Hmax.
    destruct Hin as [->|[->|Hin]]; [lia | lia |].
    apply IH. simpl. auto.
Qed.

Lemma find_one_sort_desc_next {A} (key : A -> Z) (q : A -> bool)
  (c : list A) :
  next_order (map key (filter q c))
    (match find_one_sort_desc key q c with
     | Some last => key last + 1
     | None => 1
     end).
Proof.
  unfold find_one_sort_desc, next_order.
  destruct (filter q c) as [|d ds]; [reflexivity|]. simpl map.
  exists (key (max_by key d ds)). split; [split|reflexivity].
  - change (key d :: map key ds) with (map key (d :: ds)).
    apply in_map, max_by_in.
  - change (key d :: map key ds) with (map key (d :: ds)).
    apply Forall_forall. intros o Ho. apply in_map_iff in Ho as (x & <- & Hx).
    now apply max_by_ge.
Qed.

Lemma next_order_greater (orders : list Z) (o r : Z) :
  next_order orders o -> In r orders -> r < o.
Proof.
  unfold next_order. destruct orders as [|x xs]; [intros _ []|].
  intros (m & [_ Hall] & ->) Hin.
  rewrite Forall_forall in Hall. specialize (Hall r Hin). lia.
Qed.

Lemma create_module_order (now : datetime) (course_id : ObjectId)
  (title : string) (description : option string) (u : ObjectId) (db : Db) :
  find_one (by_id_and_teacher course_id u) (courses db) <> None ->
  exists m db',
    create_module now course_id title description u db = (Ok m, db')
    /\ next_order (module_orders db course_id) (m_order m)
    /\ modules db' = (modules db ++ [m])%list.
Proof.
  intros Hc. unfold create_module, bind, query.
  destruct (find_one _ (courses db)); [|congruence].
  eexists. eexists. split; [reflexivity|]. simpl. split; [|reflexivity].
  apply find_one_sort_desc_next.
Qed.

Lemma create_lesson_order (now : datetime) (course_id module_id : ObjectId)
  (title duration : string) (description materialType materialUrl : option string)
  (material : option string) (u : ObjectId) (db : Db) :
  find_one (by_id_and_teacher course_id u) (courses db) <> None ->
  find_one (by_id_and_course module_id course_id) (modules db) <> None ->
  exists l db',
    create_lesson now course_id module_id title duration description
      materialType materialUrl material u db = (Ok l, db')
    /\ next_order (lesson_orders db module_id) (l_order l)
    /\ lessons db' = (lessons db ++ [l])%list.
Proof.
  intros Hc Hm. unfold create_lesson, bind, query.
  destruct (find_one _ (courses db)); [|congruence].
  destruct (find_one _ (modules db)); [|congruence].
  eexists. eexists. split; [reflexivity|]. simpl. split; [|reflexivity].
  apply find_one_sort_desc_next.
Qed.

Lemma create_lesson_inv (now : datetime) (course_id module_id : ObjectId)
  (title duration : string) (description materialType materialUrl : option string)
  (material : option string) (u : ObjectId) (db db' : Db) (l : lesson_doc) :
  create_lesson now course_id module_id title duration description
    materialType materialUrl material u db = (Ok l, db') ->
  next_order (lesson_orders db module_id) (l_order l).
Proof.
  unfold create_lesson, bind, query, raise.
  destruct (find_one _ (courses db)); [|discriminate].
  destruct (find_one _ (modules db)); [|discriminate].
  unfold insert_one, ret. simpl. intros [= <- _]. simpl.
  apply find_one_sort_desc_next.
Qed.

(** With unique [_id]s, deleting by [_id] removes the lesson holding it
    and nothing else. *)
Lemma delete_one_by_id (c : list lesson_doc) (i : ObjectId) :
  NoDup (map l_id c) ->
  delete_one (by_lesson_id i) c
  = filter (fun l => negb (by_lesson_id i l)) c.
Proof.
  induction c as [|l c IH]; simpl; [reflexivity|].
  intros Hnd. inversion Hnd as [|? ? Hnotin Hnd']; subst.
  destruct (by_lesson_id i l) eqn:E; simpl.
  - symmetry. apply forallb_filter_id, forallb_forall.
    intros x Hx. unfold by_lesson_id in *.
    apply Nat.eqb_eq in E. subst i.
    destruct (Nat.eqb_spec (l_id x) (l_id l)) as [E'|]; [|reflexivity].
    exfalso. apply Hnotin. rewrite <- E'. now apply in_map.
  - f_equal. now apply IH.
Qed.

Lemma delete_lesson_only (course_id module_id lesson_id u : ObjectId)
  (db : Db) :
  lesson_ids_unique db ->
  find_one (by_id_and_teacher course_id u) (courses db) <> None ->
  find_one (by_id_and_course module_id course_id) (modules db) <> None ->
  find_one (fun l => by_lesson_id lesson_id l && by_module_id module_id l)
    (lessons db) <> None ->
  delete_lesson course_id module_id lesson_id u db
  = (Ok "Lesson deleted successfully",
     with_lessons (filter (fun l => negb (by_lesson_id lesson_id l))) db).
Proof.
  intros Hids Hc Hm Hl. unfold delete_lesson, bind, query.
  destruct (find_one _ (courses db)); [|congruence].
  destruct (find_one _ (modules db)); [|congruence].
  destruct (find_one _ (lessons db)); [|congruence].
  unfold write, ret, with_lessons. simpl. now rewrite delete_one_by_id.
Qed.

Lemma delete_lesson_inv (course_id module_id lesson_id u : ObjectId)
  (db db1 : Db) (msg : string) :
  delete_lesson course_id module_id lesson_id u db = (Ok msg, db1) ->
  lessons db1 = delete_one (by_lesson_id lesson_id) (lessons db).
Proof.
  unfold delete_lesson, bind, query, raise.
  destruct (find_one _ (courses db)); [|discriminate].
  destruct (find_one _ (modules db)); [|discriminate].
  destruct (find_one _ (lessons db)); [|discriminate].
  unfold write, ret. simpl. now intros [= _ <-].
Qed.
End Ordering.

(** C6, as the code has it.  A module created under a course and a lesson
    created under a module get as [order] the maximum order among the
    existing siblings plus 1, or 1 when there is no sibling; deleting a
    lesson removes only that lesson and leaves every remaining lesson, with
    its order, as it was; and a lesson created after a deletion gets an
    order above that of every remaining sibling, so an order value freed
    by deletion is not reused as long as some remaining sibling has an
    order greater than or equal to it. *)
Theorem order_is_max_plus_one (now : datetime) (course_id module_id u : ObjectId)
  (db : Db) :
  find_one (by_id_and_teacher course_id u) (courses db) <> None ->
  (forall title description,
      exists m db',
        Courses.create_module now course_id title description u db = (Ok m, db')
        /\ Spec.next_order (Spec.module_orders db course_id) (m_order m)
        /\ modules db' = (modules db ++ [m])%list)
  /\ (find_one (Courses.by_id_and_course module_id course_id) (modules db)
      <> None ->
      (forall title duration description materialType materialUrl material,
          exists l db',
            Courses.create_lesson now course_id module_id title duration
              description materialType materialUrl material u db = (Ok l, db')
            /\ Spec.next_order (Spec.lesson_orders db module_id) (l_order l)
            /\ lessons db' = (lessons db ++ [l])%list)
      /\ (forall lesson_id,
            Spec.lesson_ids_unique db ->
            find_one (fun l => Courses.by_lesson_id lesson_id l
                               && Courses.by_module_id module_id l)
              (lessons db) <> None ->
            Courses.delete_lesson course_id module_id lesson_id u db
            = (Ok "Lesson deleted successfully",
               with_lessons
                 (filter (fun l => negb (Courses.by_lesson_id lesson_id l)))
                 db))
      /\ (forall lesson_id title duration msg db1 db2 deleted created,
            find_one (fun l => Courses.by_lesson_id lesson_id l
                               && Courses.by_module_id module_id l)
              (lessons db) = Some deleted ->
            Courses.delete_lesson course_id module_id lesson_id u db
            = (Ok msg, db1) ->
            Courses.create_lesson now course_id module_id title duration None
              None None None u db1 = (Ok created, db2) ->
            (forall r, In r (Spec.lesson_orders db1 module_id) ->
                       r < l_order created)
            /\ ((exists r, In r (Spec.lesson_orders db1 module_id)
                           /\ l_order deleted <= r) ->
                l_order created <> l_order deleted))).
Proof.
  intros Hc. split; [intros; now apply create_module_order|].
  intros Hm. split; [intros; now apply create_lesson_order|].
  split; [intros; now apply delete_lesson_only|].
  intros lesson_id title duration msg db1 db2 deleted created Hfound Hdel Hnew.
  pose proof (create_lesson_inv _ _ _ _ _ _ _ _ _ _ _ _ _ Hnew) as Hnext.
  assert (Hgt : forall r, In r (Spec.lesson_orders db1 module_id) ->
                          r < l_order created)
    by (intros r Hr; now apply (next_order_greater _ _ _ Hnext)).
  split; [exact Hgt|].
  intros (r & Hr & Hle). specialize (Hgt r Hr). lia.
Qed.

Lemma order_is_max_plus_one_witness :
  exists l db',
    Courses.create_lesson 9 1%nat 60%nat "Rings" "45 min" None None None None
      10%nat Examples.db_lessons = (Ok l, db')
    /\ Spec.next_order [1; 2; 3] (l_order l).
Proof.
  destruct (order_is_max_plus_one 9 1%nat 60%nat 10%nat Examples.db_lessons)
    as [_ Hlessons]; [discriminate|].
  destruct Hlessons as [Hcreate _]; [discriminate|].
  destruct (Hcreate "Rings" "45 min" None None None None)
    as (l & db' & Hrun & Hnext & _).
  exists l, db'. split; assumption.
Defined.

(** C6 as stated fails on its last clause: after deleting the lesson with
    the highest order (3) of a module whose lessons have orders 1, 2, 3, the
    next lesson created in the module gets order 3 again. *)
Lemma freed_order_is_reused :
  (Courses.delete_lesson 1%nat 60%nat 63%nat 10%nat Examples.db_lessons
   = (Ok "Lesson deleted successfully", Examples.db_after_delete)
   /\ fst (Courses.create_lesson 9 1%nat 60%nat "Rings" "45 min" None None
             None None 10%nat Examples.db_after_delete)
      = Ok Examples.lesson_again
   /\ l_order Examples.lesson_again = l_order (Examples.lesson 63%nat 3))
  /\ ~ Spec.freed_orders_never_reused.
Proof.
  split; [repeat split|].
  intros Hclaim.
  apply (Hclaim 9 1%nat 60%nat 63%nat 10%nat "Rings" "45 min"
           Examples.db_lessons Examples.db_after_delete
           (snd (Courses.create_lesson 9 1%nat 60%nat "Rings" "45 min" None
                   None None None 10%nat Examples.db_after_delete))
           "Lesson deleted successfully"
           (Examples.lesson 63%nat 3) Examples.lesson_again).
  - unfold Spec.lesson_ids_unique. simpl.
    repeat constructor; simpl; intuition discriminate.
  - reflexivity.
  - reflexivity.
  - reflexivity.
  - reflexivity.
Qed.

(** ** Token refresh and password recovery (C7, C9) *)

Section AuthHandlers.
Import Auth.
Variable jwt_decode : string -> result TokenPayload.
Variables create_access_token create_refresh_token : string -> string.

(** Under the environment the handler is written for, a token whose type
    tag is not "refresh" is answered with 401, and so is a token the codec
    rejects (expired or malformed): no token is issued either way. *)
Lemma refresh_token_in_rejects (tok : string) :
  tok <> "" ->
  (forall payload,
      jwt_decode tok = Ok payload ->
      tp_type payload <> Some "refresh" ->
      refresh_token_in globals_with_missing_imports jwt_decode
        create_access_token create_refresh_token (Some tok)
      = Raise (HTTPException 401 "Invalid token type"))
  /\ (jwt_decode tok = Raise JWTError ->
      refresh_token_in globals_with_missing_imports jwt_decode
        create_access_token create_refresh_token (Some tok)
      = Raise (HTTPException 401 "Could not validate credentials")).
Proof.
  intros Htok.
  assert (Ht : truthy (Some tok) = true)
    by (simpl; destruct (String.eqb_spec tok ""); [contradiction | reflexivity]).
  split.
  - intros payload Hdec Htype. unfold refresh_token_in. rewrite Ht.
    unfold refresh_token_body. simpl uses. cbn [rbind]. rewrite Hdec.
    cbn [rbind].
    destruct (tp_type payload) as [t|]; [|reflexivity].
    destruct (String.eqb_spec t "refresh") as [->|]; [congruence|reflexivity].
  - intros Hdec. unfold refresh_token_in. rewrite Ht.
    unfold refresh_token_body. simpl uses. cbn [rbind]. rewrite Hdec.
    reflexivity.
Qed.

Lemma refresh_token_unbound (tok : string) :
  tok <> "" ->
  refresh_token jwt_decode create_access_token create_refresh_token (Some tok)
  = Raise (NameError "JWTError").
Proof.
  intros Htok. unfold refresh_token, refresh_token_in.
  assert (Ht : truthy (Some tok) = true)
    by (simpl; destruct (String.eqb_spec tok ""); [contradiction | reflexivity]).
  rewrite Ht. reflexivity.
Qed.
End AuthHandlers.

(** C7.  The specification has a token whose type tag is not "refresh"
    answered with 401 and no token issued.  The handler is written to do so
    ([refresh_token_in_rejects]), but [auth.py] imports neither [jwt] nor
    [JWTError] nor [ValidationError]: for every non-empty cookie, whatever
    it decodes to and whether expired or not, the [try] block stops at the
    unbound [jwt] and the [except] clause at the unbound [JWTError], so the
    request ends in an uncaught [NameError] (HTTP 500, not 401).  No token
    is issued. *)
Theorem refresh_token_raises_name_error
  (jwt_decode : string -> result Auth.TokenPayload)
  (create_access_token create_refresh_token : string -> string)
  (tok : string) :
  tok <> "" ->
  Auth.refresh_token jwt_decode create_access_token create_refresh_token
    (Some tok)
  = Raise (NameError "JWTError")
  /\ http_status 200
       (Auth.refresh_token jwt_decode create_access_token create_refresh_token
          (Some tok))
     = 500.
Proof.
  intros Htok.
  rewrite (refresh_token_unbound jwt_decode create_access_token
             create_refresh_token tok Htok).
  split; reflexivity.
Qed.

Lemma refresh_token_raises_name_error_witness :
  http_status 200
    (Auth.refresh_token
       (fun _ => Ok {| Auth.tp_type := Some "access";
                       Auth.tp_sub := Some "20" |})
       (fun sub => "access." ++ sub) (fun sub => "refresh." ++ sub)
       (Some "header.payload.signature"))
  = 500.
Proof.
  apply (refresh_token_raises_name_error
           (fun _ => Ok {| Auth.tp_type := Some "access";
                           Auth.tp_sub := Some "20" |})
           (fun sub => "access." ++ sub) (fun sub => "refresh." ++ sub)
           "header.payload.signature").
  discriminate.
Defined.

(** C9.  The specification has a forgot-password request answered the same
    for a registered and for an unregistered email.  For an unregistered email
    the handler returns the generic message; for a registered one it goes
    on to build the reset record with [datetime.utcnow()], and [auth.py]
    does not import [datetime]: the request ends in an uncaught
    [NameError] (HTTP 500) before anything is stored or sent.  The two
    answers differ, so the response discloses whether the email exists. *)
Theorem forgot_password_discloses_registration (now : datetime) (otp : string)
  (smtp : result unit) (email : string) (db : Db) :
  (find_one (fun u => (u_email u =? email)%string) (users db) = None ->
   Auth.forgot_password now otp smtp email db = (Ok Auth.reset_message, db))
  /\ (find_one (fun u => (u_email u =? email)%string) (users db) <> None ->
      Auth.forgot_password now otp smtp email db
      = (Raise (NameError "datetime"), db)).
Proof.
  unfold Auth.forgot_password, Auth.forgot_password_in, bind, lift, query.
  simpl Auth.uses.
  destruct (find_one _ (users db)); split; intros H;
    try congruence; reflexivity.
Qed.

Lemma forgot_password_discloses_registration_witness :
  Auth.forgot_password 9 "123456" (Ok tt) "nobody@example.com"
    Examples.db_grades
  = (Ok Auth.reset_message, Examples.db_grades)
  /\ Auth.forgot_password 9 "123456" (Ok tt) "ada@example.com"
       Examples.db_grades
     = (Raise (NameError "datetime"), Examples.db_grades).
Proof.
  split.
  - apply (forgot_password_discloses_registration 9 "123456" (Ok tt)
             "nobody@example.com" Examples.db_grades).
    reflexivity.
  - apply (forgot_password_discloses_registration 9 "123456" (Ok tt)
             "ada@example.com" Examples.db_grades).
    discriminate.
Defined.

(** ** Submission (C8) *)

(** C8.  The specification has a second submission for an (assignment,
    student) pair fail with Conflict and insert nothing.  The handler finds the
    existing submission and inserts nothing, but it raises its
    [HTTPException] with [status.HTTP_400_BAD_REQUEST] after having
    assigned the string "Late" or "Submitted" to its own variable
    [status]: the attribute lookup fails and the request ends in an
    uncaught [AttributeError] (HTTP 500) instead of the Conflict answer
    (HTTP 400). *)
Theorem submit_twice_attribute_error (now : datetime) (assignment_id : ObjectId)
  (submission_text submission_file : option string) (current_user : user_doc)
  (db : Db) (assignment : assignment_doc) :
  find_one (fun a => (as_id a =? assignment_id)%nat) (assignments db)
  = Some assignment ->
  find_one (by_course_and_student (as_course assignment) (u_id current_user))
    (enrollments db) <> None ->
  find_one (Assignments.by_assignment_and_student assignment_id
              (u_id current_user)) (assignment_submissions db) <> None ->
  Assignments.submit_assignment now assignment_id submission_text
    submission_file current_user db
  = (Raise (AttributeError "str" "HTTP_400_BAD_REQUEST"), db)
  /\ http_status 200
       (fst (Assignments.submit_assignment now assignment_id submission_text
               submission_file current_user db))
     = 500.
Proof.
  intros Ha He Hs.
  unfold Assignments.submit_assignment, bind, query, lift.
  rewrite Ha.
  destruct (find_one _ (enrollments db)); [|congruence].
  destruct (find_one _ (assignment_submissions db)); [|congruence].
  split; reflexivity.
Qed.

Lemma submit_twice_attribute_error_witness :
  Assignments.submit_assignment 60 30%nat (Some "second try") None Examples.ada
    Examples.db_grades
  = (Raise (AttributeError "str" "HTTP_400_BAD_REQUEST"), Examples.db_grades).
Proof.
  apply (submit_twice_attribute_error 60 30%nat (Some "second try") None
           Examples.ada Examples.db_grades Examples.essay);
    [reflexivity | discriminate | discriminate].
Defined.

(** ** Rounding *)

(** [round_half_even_div n d] is an integer nearest to [n / d]: it is off by
    at most one half, and a tie goes to the even neighbour. *)
Lemma round_half_even_div_nearest (n d : Z) :
  0 < d ->
  2 * Z.abs (n - d * round_half_even_div n d) <= d
  /\ (2 * Z.abs (n - d * round_half_even_div n d) = d ->
      Z.even (round_half_even_div n d) = true).
Proof.
  intros Hd. unfold round_half_even_div.
  pose proof (Z.div_mod n d ltac:(lia)) as Hdm.
  pose proof (Z.mod_pos_bound n d Hd) as Hr.
  set (q := n / d) in *. set (r := n mod d) in *.
  destruct (Z.compare_spec (2 * r) d) as [E|E|E].
  - destruct (Z.even q) eqn:Hq.
    + split; [lia | auto].
    + split; [lia|]. intros _. rewrite Z.even_add, Hq. reflexivity.
  - split; lia.
  - split; lia.
Qed.

(** * Further properties *)

(** ** The enrollment ledger under sequences of enroll requests *)

Section LedgerInvariants.
Import Courses Ledger.

Lemma update_one_Forall {A} (P : A -> Prop) (q : A -> bool) (f : A -> A)
  (l : list A) (d : A) :
  Forall P l -> find_one q l = Some d -> P (f d) -> Forall P (update_one q f l).
Proof.
  unfold find_one. induction l as [|a l IH]; simpl; [discriminate|].
  intros Hall Hfind Hfd. inversion Hall as [|? ? Ha Hl]; subst.
  destruct (q a).
  - injection Hfind as ->. now constructor.
  - constructor; auto.
Qed.

Lemma map_update_one_preserved {A B} (g : A -> B) (q : A -> bool)
  (f : A -> A) (l : list A) :
  (forall a, g (f a) = g a) -> map g (update_one q f l) = map g l.
Proof.
  intros Hg. induction l as [|a l IH]; simpl; [reflexivity|].
  destruct (q a); simpl; [now rewrite Hg | now rewrite IH].
Qed.

Lemma update_one_unique {A} (key : A -> nat) (k : nat) (f : A -> A)
  (l : list A) :
  NoDup (map key l) ->
  update_one (fun a => (key a =? k)%nat) f l
  = map (fun a => if (key a =? k)%nat then f a else a) l.
Proof.
  induction l as [|a l IH]; simpl; [reflexivity|].
  intros Hnd. inversion Hnd as [|? ? Hnotin Hnd']; subst.
  destruct (Nat.eqb_spec (key a) k) as [E|E].
  - f_equal. rewrite <- (map_id l) at 1. apply map_ext_in.
    intros b Hb. destruct (Nat.eqb_spec (key b) k) as [E'|]; [|reflexivity].
    exfalso. apply Hnotin. rewrite E, <- E'. now apply in_map.
  - f_equal. now apply IH.
Qed.

Lemma enroll_failure (now : datetime) (db db' : Db) (courseId student : ObjectId)
  (e : exn) :
  enroll_in_course now courseId student db = (Raise e, db') ->
  db' = db
  /\ (e = HTTPException 404 "Course not found"
      \/ e = HTTPException 400 "Already enrolled in this course"
      \/ e = HTTPException 400 "Course is full").
Proof.
  unfold enroll_in_course, bind, query, raise.
  destruct (find_one _ (courses db)) as [course|];
    [|intros [= <- <-]; auto].
  destruct (find_one _ (enrollments db)); [intros [= <- <-]; auto|].
  destruct (c_maxStudents course <=? c_studentsEnrolled course);
    [intros [= <- <-]; auto|].
  unfold insert_one, write, ret. simpl. discriminate.
Qed.

Lemma after_enroll_cases (c : enroll_call) (db : Db) :
  after_enroll c db = db
  \/ exists msg,
       enroll_in_course (en_now c) (en_course c) (en_student c) db
       = (Ok msg, after_enroll c db).
Proof.
  unfold after_enroll.
  destruct (enroll_in_course (en_now c) (en_course c) (en_student c) db)
    as [[msg|e] db'] eqn:E.
  - right. exists msg. reflexivity.
  - left. simpl. now destruct (enroll_failure _ _ _ _ _ _ E).
Qed.

Lemma after_enroll_capacity (c : enroll_call) (db : Db) :
  capacity_respected db -> capacity_respected (after_enroll c db).
Proof.
  intros H. destruct (after_enroll_cases c db) as [->|[msg Hrun]]; [exact H|].
  destruct (enroll_success _ _ _ _ _ _ Hrun)
    as (course & Hc & _ & Hcap & _ & Hcourses).
  unfold capacity_respected. rewrite Hcourses.
  apply (update_one_Forall _ _ _ _ course); [exact H | exact Hc|].
  simpl. lia.
Qed.

Lemma after_enroll_unique (c : enroll_call) (db : Db) :
  enrollment_unique db -> enrollment_unique (after_enroll c db).
Proof.
  intros H. destruct (after_enroll_cases c db) as [->|[msg Hrun]]; [exact H|].
  destruct (enroll_success _ _ _ _ _ _ Hrun)
    as (course & _ & He & _ & Henr & _).
  intros course_id student. rewrite Henr, filter_app. simpl.
  destruct (by_course_and_student course_id student _) eqn:Hk.
  - unfold by_course_and_student in Hk. simpl in Hk.
    apply andb_true_iff in Hk as [Hc Hs].
    apply Nat.eqb_eq in Hc, Hs. subst.
    rewrite (find_one_none_filter _ _ He). simpl. lia.
  - rewrite app_nil_r. apply H.
Qed.

Lemma after_enroll_consistent (c : enroll_call) (db : Db) :
  counters_consistent db -> counters_consistent (after_enroll c db).
Proof.
  intros [Hnd Hall].
  destruct (after_enroll_cases c db) as [->|[msg Hrun]]; [now split|].
  destruct (enroll_success _ _ _ _ _ _ Hrun)
    as (course & _ & _ & _ & Henr & Hcourses).
  assert (Hcount : forall x,
             enrolled_count (after_enroll c db) x
             = enrolled_count db x
               + (if (en_course c =? x)%nat then 1 else 0)).
  { intros x. unfold enrolled_count. rewrite Henr, filter_app, length_app.
    simpl. destruct (en_course c =? x)%nat; simpl; lia. }
  split.
  - rewrite Hcourses, map_update_one_preserved by reflexivity. exact Hnd.
  - rewrite Hcourses. unfold by_course_id.
    rewrite (update_one_unique c_id) by exact Hnd.
    apply Forall_map. rewrite Forall_forall in *. intros x Hx.
    specialize (Hall x Hx). rewrite Hcount.
    destruct (Nat.eqb_spec (c_id x) (en_course c)) as [E|E]; simpl.
    + rewrite <- E, Nat.eqb_refl. lia.
    + destruct (Nat.eqb_spec (en_course c) (c_id x)); [congruence|lia].
Qed.
End LedgerInvariants.

(** X1.  Enrolling never fills a course beyond its capacity: a database in
    which every course has [studentsEnrolled <= maxStudents] stays so under
    any sequence of enroll requests. *)
Theorem enroll_respects_capacity (calls : list Ledger.enroll_call) (db : Db) :
  Ledger.capacity_respected db ->
  Ledger.capacity_respected (Ledger.after_enrolls calls db).
Proof.
  revert db. induction calls as [|c calls IH]; intros db H; [exact H|].
  simpl. apply IH, after_enroll_capacity, H.
Qed.

(** X2.  The ledger never holds two enrollments of one student in one
    course: uniqueness per (course, student) is kept by any sequence of
    enroll requests. *)
Theorem enroll_keeps_ledger_unique (calls : list Ledger.enroll_call) (db : Db) :
  Ledger.enrollment_unique db ->
  Ledger.enrollment_unique (Ledger.after_enrolls calls db).
Proof.
  revert db. induction calls as [|c calls IH]; intros db H; [exact H|].
  simpl. apply IH, after_enroll_unique, H.
Qed.

(** X3.  Under enroll requests alone the cached counter does not drift:
    when course ids are unique and every course's [studentsEnrolled] equals
    the number of its enrollments, both still hold after any sequence of
    enroll requests. *)
Theorem enroll_keeps_counters_consistent (calls : list Ledger.enroll_call)
  (db : Db) :
  Ledger.counters_consistent db ->
  Ledger.counters_consistent (Ledger.after_enrolls calls db).
Proof.
  revert db. induction calls as [|c calls IH]; intros db H; [exact H|].
  simpl. apply IH, after_enroll_consistent, H.
Qed.

(** X4.  A failed enroll request has written nothing, and it failed in one
    of three ways: the course does not exist (404), the student is already
    enrolled (400) or the course is full (400). *)
Theorem enroll_failure_writes_nothing (now : datetime) (db db' : Db)
  (courseId student : ObjectId) (e : exn) :
  Courses.enroll_in_course now courseId student db = (Raise e, db') ->
  db' = db
  /\ (e = HTTPException 404 "Course not found"
      \/ e = HTTPException 400 "Already enrolled in this course"
      \/ e = HTTPException 400 "Course is full").
Proof. apply enroll_failure. Qed.

(** ** Attendance: the course view, frames and bulk requests *)

Section AttendanceMore.
Import Attendance AttendanceViews Spec.


Lemma record_attendance_frame (now : datetime) (att : AttendanceCreate)
  (u : ObjectId) (db : Db) :
  let db' := snd (record_attendance now att u db) in
  courses db' = courses db /\ enrollments db' = enrollments db
  /\ users db' = users db /\ assignments db' = assignments db
  /\ assignment_submissions db' = assignment_submissions db
  /\ modules db' = modules db /\ lessons db' = lessons db
  /\ notifications db' = notifications db.
Proof.
  unfold record_attendance, bind, query, raise.
  destruct (find_one _ (courses db)); [|simpl; tauto].
  destruct (find_one _ (enrollments db)); [|simpl; tauto].
  destruct (find_one _ (Mongo.attendance db)); simpl; tauto.
Qed.

Lemma record_attendance_cases (now : datetime) (att : AttendanceCreate)
  (u : ObjectId) (db : Db) :
  attendance_ids_unique db ->
  snd (record_attendance now att u db) = db
  \/ snd (record_attendance now att u db)
     = upsert_attendance now (ac_course_id att) (ac_student_id att)
         (ac_date att) (ac_status att) (ac_time att) (ac_note att) u db.
Proof.
  intros Hids.
  destruct (find_one (by_id_and_teacher (ac_course_id att) u) (courses db))
    eqn:Hc.
  - destruct (find_one (by_course_and_student (ac_course_id att)
                          (ac_student_id att)) (enrollments db)) eqn:He.
    + right.
      destruct (record_attendance_upsert now att u db Hids) as [msg ->];
        [congruence | congruence | reflexivity].
    + left. unfold record_attendance, bind, query, raise. now rewrite Hc, He.
  - left. unfold record_attendance, bind, query, raise. now rewrite Hc.
Qed.

Lemma unique_ids_injective (l : list attendance_doc) (a b : attendance_doc) :
  NoDup (map a_id l) -> In a l -> In b l -> a_id a = a_id b -> a = b.
Proof.
  induction l as [|x l IH]; simpl; [tauto|].
  intros Hnd Ha Hb E. inversion Hnd as [|? ? Hnotin Hnd']; subst.
  destruct Ha as [->|Ha], Hb as [->|Hb]; auto.
  - exfalso. apply Hnotin. rewrite E. now apply in_map.
  - exfalso. apply Hnotin. rewrite <- E. now apply in_map.
Qed.

Lemma upsert_other_keys (now : datetime) (c s : ObjectId) (d : date)
  (st : string) (tm nt : option string) (u : ObjectId) (db : Db)
  (k : attendance_key) :
  attendance_ids_unique db ->
  k <> (c, s, d) ->
  records_for k (upsert_attendance now c s d st tm nt u db) = records_for k db.
Proof.
  intros Hids Hk. unfold upsert_attendance, records_for.
  destruct (find_one _ (Mongo.attendance db)) as [existing|] eqn:E; simpl.
  - destruct (find_one_some _ _ _ E) as [Hin Hkey].
    rewrite filter_map_preserved.
    + rewrite <- (map_id (filter (has_key k) (Mongo.attendance db))) at 2.
      apply map_ext_in. intros a Ha. apply filter_In in Ha as [Ha Hka].
      destruct (Nat.eqb_spec (a_id a) (a_id existing)) as [Eid|]; [|reflexivity].
      exfalso. apply Hk.
      rewrite (unique_ids_injective _ _ _ Hids Ha Hin Eid) in Hka.
      destruct k as [[c' s'] d']. unfold has_key, by_key in Hka, Hkey.
      rewrite !andb_true_iff, !Nat.eqb_eq, Z.eqb_eq in Hka, Hkey.
      destruct Hka as [[<- <-] <-], Hkey as [[<- <-] <-]. reflexivity.
    + intros a. destruct (a_id a =? a_id existing)%nat; [|reflexivity].
      apply set_preserves_key.
  - rewrite filter_app. simpl.
    destruct (has_key k _) eqn:Hka; [|apply app_nil_r].
    exfalso. apply Hk. destruct k as [[c' s'] d'].
    unfold has_key, by_key in Hka. simpl in Hka.
    rewrite !andb_true_iff, !Nat.eqb_eq, Z.eqb_eq in Hka.
    destruct Hka as [[<- <-] <-]. reflexivity.
Qed.




End AttendanceMore.


(** X6.  A single-record request touches attendance only, and there only
    the records of its own (course, student, date): the records of every
    other key, and the courses, enrollments, users, assignments,
    submissions, modules, lessons and notifications, are as before. *)
Theorem record_attendance_frame_other_keys (now : datetime)
  (att : Attendance.AttendanceCreate) (u : ObjectId) (db : Db)
  (k : Spec.attendance_key) :
  Spec.attendance_ids_unique db ->
  k <> (Attendance.ac_course_id att, Attendance.ac_student_id att,
        Attendance.ac_date att) ->
  let db' := snd (Attendance.record_attendance now att u db) in
  Spec.records_for k db' = Spec.records_for k db
  /\ courses db' = courses db /\ enrollments db' = enrollments db
  /\ users db' = users db /\ assignments db' = assignments db
  /\ assignment_submissions db' = assignment_submissions db
  /\ modules db' = modules db /\ lessons db' = lessons db
  /\ notifications db' = notifications db.
Proof.
  intros Hids Hk db'. split; [|apply record_attendance_frame].
  subst db'. destruct (record_attendance_cases now att u db Hids) as [->| ->];
    [reflexivity|].
  now apply upsert_other_keys.
Qed.



(** ** The module tree under sequences of requests *)

Section TreeInvariants.
Import Courses Spec Tree.

Lemma NoDup_snoc {A} (l : list A) (x : A) :
  NoDup l -> ~ In x l -> NoDup (l ++ [x]).
Proof.
  intros Hnd Hx. induction Hnd as [|a l Ha Hnd IH]; simpl.
  - constructor; [tauto | constructor].
  - constructor.
    + rewrite in_app_iff. simpl. intros [H|[H|[]]]; [tauto|].
      subst. apply Hx. now left.
    + apply IH. intros H. apply Hx. now right.
Qed.

Lemma next_order_fresh (orders : list Z) (o : Z) :
  next_order orders o -> ~ In o orders.
Proof.
  intros Hnext Hin. pose proof (next_order_greater _ _ _ Hnext Hin). lia.
Qed.

Lemma delete_one_In {A} (q : A -> bool) (l : list A) (x : A) :
  In x (delete_one q l) -> In x l.
Proof.
  induction l as [|a l IH]; simpl; [tauto|].
  destruct (q a); simpl; [auto | intros [->|H]; auto].
Qed.

Lemma delete_one_NoDup {A B} (f : A -> B) (p q : A -> bool) (l : list A) :
  NoDup (map f (filter p l)) -> NoDup (map f (filter p (delete_one q l))).
Proof.
  induction l as [|a l IH]; simpl; [auto|].
  destruct (q a).
  - destruct (p a); simpl; [|auto]. intros H. now inversion H.
  - simpl. destruct (p a); simpl; [|auto].
    intros H. inversion H as [|? ? Hnotin Hnd]; subst. constructor; [|auto].
    intros Hin. apply Hnotin. apply in_map_iff in Hin as (x & Hx & Hin).
    apply in_map_iff. exists x. split; [exact Hx|].
    apply filter_In in Hin as [Hin Hp]. apply filter_In. split; [|exact Hp].
    now apply delete_one_In in Hin.
Qed.

Lemma create_module_effect (now : datetime) (course_id : ObjectId)
  (title : string) (description : option string) (u : ObjectId) (db : Db) :
  let db' := snd (create_module now course_id title description u db) in
  lessons db' = lessons db
  /\ ((modules db' = modules db /\ courses db' = courses db)
      \/ exists m,
           modules db' = (modules db ++ [m])%list
           /\ m_course_id m = course_id
           /\ next_order (module_orders db course_id) (m_order m)
           /\ courses db'
              = update_one (by_course_id course_id) set_hasModules (courses db)
           /\ find_one (by_id_and_teacher course_id u) (courses db) <> None).
Proof.
  unfold create_module, bind, query, raise.
  destruct (find_one _ (courses db)) eqn:Hc; simpl; [|auto].
  split; [reflexivity|]. right. eexists. split; [reflexivity|]. simpl.
  split; [reflexivity|]. split; [apply find_one_sort_desc_next|].
  split; [reflexivity | discriminate].
Qed.

Lemma create_lesson_effect (now : datetime) (course_id module_id : ObjectId)
  (title duration : string) (description materialType materialUrl : option string)
  (material : option string) (u : ObjectId) (db : Db) :
  let db' := snd (create_lesson now course_id module_id title duration
                    description materialType materialUrl material u db) in
  modules db' = modules db /\ courses db' = courses db
  /\ (lessons db' = lessons db
      \/ exists l,
           lessons db' = (lessons db ++ [l])%list
           /\ l_module_id l = module_id
           /\ next_order (lesson_orders db module_id) (l_order l)).
Proof.
  unfold create_lesson, bind, query, raise.
  destruct (find_one _ (courses db)); simpl; [|auto].
  destruct (find_one _ (modules db)); simpl; [|auto].
  split; [reflexivity|]. split; [reflexivity|]. right.
  eexists. split; [reflexivity|]. simpl. split; [reflexivity|].
  apply find_one_sort_desc_next.
Qed.

Lemma delete_lesson_effect (course_id module_id lesson_id u : ObjectId) (db : Db) :
  let db' := snd (delete_lesson course_id module_id lesson_id u db) in
  modules db' = modules db /\ courses db' = courses db
  /\ (lessons db' = lessons db
      \/ lessons db' = delete_one (by_lesson_id lesson_id) (lessons db)).
Proof.
  unfold delete_lesson, bind, query, raise.
  destruct (find_one _ (courses db)); simpl; [|auto].
  destruct (find_one _ (modules db)); simpl; [|auto].
  destruct (find_one _ (lessons db)); simpl; auto.
Qed.

Lemma orders_app_module (ms : list module_doc) (m : module_doc)
  (c : ObjectId) :
  map m_order (filter (fun x => (m_course_id x =? c)%nat) (ms ++ [m]))
  = (map m_order (filter (fun x => (m_course_id x =? c)%nat) ms)
     ++ (if (m_course_id m =? c)%nat then [m_order m] else []))%list.
Proof.
  rewrite filter_app, map_app. simpl.
  destruct (m_course_id m =? c)%nat; reflexivity.
Qed.

Lemma orders_app_lesson (ls : list lesson_doc) (l : lesson_doc)
  (m : ObjectId) :
  map l_order (filter (by_module_id m) (ls ++ [l]))
  = (map l_order (filter (by_module_id m) ls)
     ++ (if (l_module_id l =? m)%nat then [l_order l] else []))%list.
Proof.
  rewrite filter_app, map_app. simpl. unfold by_module_id at 2.
  destruct (l_module_id l =? m)%nat; reflexivity.
Qed.

Lemma after_tree_call_distinct (c : tree_call) (db : Db) :
  orders_distinct db -> orders_distinct (after_tree_call c db).
Proof.
  intros [Hm Hl]. destruct c; simpl.
  - destruct (create_module_effect now course_id title description
                current_user db) as [Hles Hcase].
    split.
    + intros c. unfold module_orders.
      destruct Hcase as [[-> _]|(m & -> & Hid & Hnext & _)]; [apply Hm|].
      rewrite orders_app_module. rewrite Hid.
      destruct (Nat.eqb_spec course_id c) as [<-|]; [|rewrite app_nil_r; apply Hm].
      apply NoDup_snoc; [apply Hm | now apply next_order_fresh].
    + intros m. unfold lesson_orders. rewrite Hles. apply Hl.
  - destruct (create_lesson_effect now course_id module_id title duration
                description materialType materialUrl material current_user db)
      as (Hmod & _ & Hcase).
    split.
    + intros c. unfold module_orders. rewrite Hmod. apply Hm.
    + intros m. unfold lesson_orders.
      destruct Hcase as [->|(l & -> & Hid & Hnext)]; [apply Hl|].
      rewrite orders_app_lesson, Hid.
      destruct (Nat.eqb_spec module_id m) as [<-|]; [|rewrite app_nil_r; apply Hl].
      apply NoDup_snoc; [apply Hl | now apply next_order_fresh].
  - destruct (delete_lesson_effect course_id module_id lesson_id current_user db)
      as (Hmod & _ & Hcase).
    split.
    + intros c. unfold module_orders. rewrite Hmod. apply Hm.
    + intros m. unfold lesson_orders.
      destruct Hcase as [->| ->]; [apply Hl|].
      apply delete_one_NoDup, Hl.
Qed.

Lemma update_one_In_or {A} (q : A -> bool) (f : A -> A) (l : list A) (x : A) :
  In x l -> In x (update_one q f l) \/ In (f x) (update_one q f l).
Proof.
  induction l as [|a l IH]; simpl; [tauto|].
  destruct (q a); simpl; intros [->|H]; auto.
  destruct (IH H); auto.
Qed.

Lemma update_one_found {A} (q : A -> bool) (f : A -> A) (l : list A) (d : A) :
  find_one q l = Some d -> In (f d) (update_one q f l).
Proof.
  unfold find_one. induction l as [|a l IH]; simpl; [discriminate|].
  destruct (q a); [intros [= ->]; now left | intros H; right; auto].
Qed.

Lemma find_one_weaken {A} (p q : A -> bool) (l : list A) :
  (forall a, p a = true -> q a = true) ->
  find_one p l <> None -> find_one q l <> None.
Proof.
  intros Hpq. unfold find_one. induction l as [|a l IH]; simpl; [auto|].
  destruct (p a) eqn:Hp.
  - rewrite (Hpq a Hp). discriminate.
  - destruct (q a); [discriminate | auto].
Qed.

Lemma after_tree_call_flagged (c : tree_call) (db : Db) :
  modules_flagged db -> modules_flagged (after_tree_call c db).
Proof.
  intros H. destruct c; simpl.
  - destruct (create_module_effect now course_id title description
                current_user db) as [_ Hcase].
    destruct Hcase as [[Hmod Hc]|(m & Hmod & Hid & _ & Hc & Hown)];
      unfold modules_flagged; rewrite Hmod, Hc; [exact H|].
    intros m0 Hin. apply in_app_iff in Hin as [Hin|[<-|[]]].
    + destruct (H m0 Hin) as (c0 & Hc0 & Hid0 & Hflag).
      destruct (update_one_In_or (by_course_id course_id) set_hasModules _ _ Hc0)
        as [Hin'|Hin'].
      * exists c0. auto.
      * exists (set_hasModules c0). auto.
    + assert (Hex : find_one (by_course_id course_id) (courses db) <> None).
      { apply (find_one_weaken (by_id_and_teacher course_id current_user));
          [|exact Hown].
        intros a Ha. unfold by_id_and_teacher in Ha.
        now apply andb_true_iff in Ha as [Ha _]. }
      destruct (find_one (by_course_id course_id) (courses db)) as [c1|] eqn:E;
        [|congruence].
      exists (set_hasModules c1). split; [now apply update_one_found|].
      simpl. split; [|reflexivity].
      destruct (find_one_some _ _ _ E) as [_ Hq]. unfold by_course_id in Hq.
      apply Nat.eqb_eq in Hq. congruence.
  - destruct (create_lesson_effect now course_id module_id title duration
                description materialType materialUrl material current_user db)
      as (Hmod & Hc & _).
    unfold modules_flagged. rewrite Hmod, Hc. exact H.
  - destruct (delete_lesson_effect course_id module_id lesson_id current_user db)
      as (Hmod & Hc & _).
    unfold modules_flagged. rewrite Hmod, Hc. exact H.
Qed.
End TreeInvariants.

(** X9.  Live sibling orders never collide: when the modules of every
    course and the lessons of every module have pairwise distinct orders,
    they still have after any sequence of module creations, lesson
    creations and lesson deletions (a reissued order is always one that no
    remaining sibling holds). *)
Theorem orders_stay_distinct (calls : list Tree.tree_call) (db : Db) :
  Tree.orders_distinct db ->
  Tree.orders_distinct (Tree.after_tree_calls calls db).
Proof.
  revert db. induction calls as [|c calls IH]; intros db H; [exact H|].
  simpl. apply IH, after_tree_call_distinct, H.
Qed.

(** X10.  The [hasModules] flag covers every module: when each module's
    course carries the flag, it still does after any sequence of module
    creations, lesson creations and lesson deletions. *)
Theorem modules_stay_flagged (calls : list Tree.tree_call) (db : Db) :
  Tree.modules_flagged db ->
  Tree.modules_flagged (Tree.after_tree_calls calls db).
Proof.
  revert db. induction calls as [|c calls IH]; intros db H; [exact H|].
  simpl. apply IH, after_tree_call_flagged, H.
Qed.

(** ** The module listing *)

Section Listing.
Import Courses CourseViews.

Lemma insert_by_perm {A} (key : A -> Z) (x : A) (l : list A) :
  Permutation (insert_by key x l) (x :: l).
Proof.
  induction l as [|y l IH]; simpl; [reflexivity|].
  destruct (key x <=? key y); [reflexivity|].
  rewrite IH. apply perm_swap.
Qed.

Lemma sort_asc_perm {A} (key : A -> Z) (l : list A) :
  Permutation (sort_asc key l) l.
Proof.
  induction l as [|x l IH]; simpl; [reflexivity|].
  rewrite insert_by_perm. now constructor.
Qed.

Lemma insert_by_sorted {A} (key : A -> Z) (x : A) (l : list A) :
  Sorted (fun a b => key a <= key b) l ->
  Sorted (fun a b => key a <= key b) (insert_by key x l).
Proof.
  induction l as [|y l IH]; simpl; intros Hs.
  - repeat constructor.
  - destruct (Z.leb_spec (key x) (key y)).
    + constructor; [exact Hs | now constructor].
    + inversion Hs as [|? ? Hl Hhd]; subst. constructor; [now apply IH|].
      destruct l as [|z l]; simpl.
      * constructor. lia.
      * destruct (Z.leb_spec (key x) (key z)); constructor; [lia|].
        now inversion Hhd.
Qed.

Lemma sort_asc_sorted {A} (key : A -> Z) (l : list A) :
  Sorted (fun a b => key a <= key b) (sort_asc key l).
Proof.
  induction l as [|x l IH]; simpl; [constructor | now apply insert_by_sorted].
Qed.

Lemma modules_with_lessons_fst (db : Db) (course_id : ObjectId) :
  map fst (modules_with_lessons db course_id)
  = sort_asc m_order
      (find (fun m => (m_course_id m =? course_id)%nat) (modules db)).
Proof.
  unfold modules_with_lessons. rewrite map_map. simpl. apply map_id.
Qed.

Lemma delete_lesson_success (course_id module_id lesson_id u : ObjectId)
  (db db1 : Db) (msg : string) :
  delete_lesson course_id module_id lesson_id u db = (Ok msg, db1) ->
  find_one (by_id_and_teacher course_id u) (courses db) <> None
  /\ find_one (by_id_and_course module_id course_id) (modules db) <> None
  /\ db1 = with_lessons (delete_one (by_lesson_id lesson_id)) db.
Proof.
  unfold delete_lesson, bind, query, raise.
  destruct (find_one _ (courses db)); [|discriminate].
  destruct (find_one _ (modules db)); [|discriminate].
  destruct (find_one _ (lessons db)); [|discriminate].
  unfold write, ret. simpl. intros [= _ <-].
  repeat split; discriminate.
Qed.

Lemma find_one_filtered_out {A} (p q : A -> bool) (l : list A) :
  find_one (fun a => p a && q a) (filter (fun a => negb (p a)) l) = None.
Proof.
  unfold find_one. induction l as [|a l IH]; simpl; [reflexivity|].
  destruct (p a) eqn:E; simpl; [exact IH|]. now rewrite E.
Qed.
End Listing.

(** X11.  The module listing of an existing course is refused to a student
    who is not enrolled (403); otherwise it holds exactly the course's
    modules in ascending [order], each with exactly its own lessons in
    ascending [order]. *)
Theorem course_modules_sorted (course_id u : ObjectId) (role : string) (db : Db) :
  find_one (Courses.by_course_id course_id) (courses db) <> None ->
  (role = "student" ->
   find_one (by_course_and_student course_id u) (enrollments db) = None ->
   CourseViews.get_course_modules course_id role u db
   = (Raise (HTTPException 403 "You are not enrolled in this course"), db))
  /\ (role <> "student"
      \/ find_one (by_course_and_student course_id u) (enrollments db) <> None ->
      exists out,
        CourseViews.get_course_modules course_id role u db = (Ok out, db)
        /\ Permutation (map fst out)
             (filter (fun m => (m_course_id m =? course_id)%nat) (modules db))
        /\ Sorted (fun a b => m_order a <= m_order b) (map fst out)
        /\ forall m ls, In (m, ls) out ->
             Permutation ls
               (filter (Courses.by_module_id (m_id m)) (lessons db))
             /\ Sorted (fun a b => l_order a <= l_order b) ls).
Proof.
  intros Hc. unfold CourseViews.get_course_modules, bind, query, raise, ret,
    reads.
  destruct (find_one _ (courses db)); [|congruence]. split.
  - intros -> He. simpl. now rewrite He.
  - intros Hallowed.
    exists (CourseViews.modules_with_lessons db course_id). split.
    + destruct (String.eqb_spec role "student") as [Hr|Hr]; [|reflexivity].
      destruct Hallowed as [Hne|He]; [contradiction|].
      destruct (find_one _ (enrollments db)); [reflexivity | congruence].
    + rewrite modules_with_lessons_fst.
      split; [apply sort_asc_perm|]. split; [apply sort_asc_sorted|].
      intros m ls Hin. unfold CourseViews.modules_with_lessons in Hin.
      apply in_map_iff in Hin as (m' & [= -> <-] & _).
      split; [apply sort_asc_perm | apply sort_asc_sorted].
Qed.

(** X12.  With unique lesson ids, a lesson cannot be deleted twice: after a
    successful deletion the same request fails with 404 and changes
    nothing. *)
Theorem delete_lesson_twice (course_id module_id lesson_id u : ObjectId)
  (db db1 : Db) (msg : string) :
  Spec.lesson_ids_unique db ->
  Courses.delete_lesson course_id module_id lesson_id u db = (Ok msg, db1) ->
  Courses.delete_lesson course_id module_id lesson_id u db1
  = (Raise (HTTPException 404
              "Lesson not found or doesn't belong to this module"), db1).
Proof.
  intros Hids Hrun.
  destruct (delete_lesson_success _ _ _ _ _ _ _ Hrun) as (Hc & Hm & ->).
  unfold Courses.delete_lesson, bind, query, raise.
  change (courses (with_lessons (delete_one (Courses.by_lesson_id lesson_id)) db))
    with (courses db).
  destruct (find_one _ (courses db)); [|congruence].
  change (modules (with_lessons (delete_one (Courses.by_lesson_id lesson_id)) db))
    with (modules db).
  destruct (find_one _ (modules db)); [|congruence].
  change (lessons (with_lessons (delete_one (Courses.by_lesson_id lesson_id)) db))
    with (delete_one (Courses.by_lesson_id lesson_id) (lessons db)).
  rewrite delete_one_by_id by exact Hids.
  now rewrite find_one_filtered_out.
Qed.

(** X13.  A created lesson never carries both a link and an uploaded file:
    [materialUrl] is kept only for type "link", [materialFile] only for the
    types "pdf", "video" and "file". *)
Theorem lesson_link_or_file (now : datetime) (course_id module_id u : ObjectId)
  (title duration : string)
  (description materialType materialUrl material : option string)
  (db db' : Db) (l : lesson_doc) :
  Courses.create_lesson now course_id module_id title duration description
    materialType materialUrl material u db = (Ok l, db') ->
  (l_materialUrl l = None \/ l_materialFile l = None)
  /\ (l_materialUrl l <> None -> materialType = Some "link")
  /\ (l_materialFile l <> None ->
      materialType = Some "pdf" \/ materialType = Some "video"
      \/ materialType = Some "file").
Proof.
  unfold Courses.create_lesson, bind, query, raise.
  destruct (find_one _ (courses db)); [|discriminate].
  destruct (find_one _ (modules db)); [|discriminate].
  unfold insert_one, ret. simpl. intros [= <- _]. simpl.
  destruct materialType as [t|]; simpl.
  - destruct (String.eqb_spec t "link") as [->|Hlink]; simpl.
    + destruct material; simpl; repeat split; auto; congruence.
    + destruct (String.eqb_spec t "pdf") as [->|];
        [|destruct (String.eqb_spec t "video") as [->|];
          [|destruct (String.eqb_spec t "file") as [->|]]];
        simpl; destruct material; simpl; repeat split; auto; congruence.
  - destruct material; simpl; repeat split; auto; congruence.
Qed.

(** ** The student's views of the ledger *)

Section StudentViews.
Import Courses CourseViews Students.

Lemma enrolled_loop_app (cs : list course_doc) (l l' : list enrollment_doc) :
  enrolled_loop cs (l ++ l')
  = (enrolled_loop cs l ++ enrolled_loop cs l')%list.
Proof.
  induction l as [|e l IH]; simpl; [reflexivity|].
  destruct (find_one _ cs); simpl; now rewrite IH.
Qed.

Lemma enrolled_loop_ext (cs cs' : list course_doc) (l : list enrollment_doc) :
  (forall e, In e l ->
     find_one (fun c => (c_id c =? e_course_id e)%nat) cs'
     = find_one (fun c => (c_id c =? e_course_id e)%nat) cs) ->
  enrolled_loop cs' l = enrolled_loop cs l.
Proof.
  induction l as [|e l IH]; simpl; intros H; [reflexivity|].
  rewrite (H e (or_introl eq_refl)), IH; [reflexivity|].
  intros e' He'. apply H. now right.
Qed.

Lemma find_one_update_other (cid x : ObjectId) (l : list course_doc) :
  x <> cid ->
  find_one (fun c => (c_id c =? x)%nat)
    (update_one (by_course_id cid) inc_studentsEnrolled l)
  = find_one (fun c => (c_id c =? x)%nat) l.
Proof.
  intros Hx. unfold find_one, by_course_id.
  induction l as [|a l IH]; simpl; [reflexivity|].
  destruct (Nat.eqb_spec (c_id a) cid) as [E|E]; simpl.
  - destruct (Nat.eqb_spec (c_id a) x); [congruence | reflexivity].
  - now rewrite IH.
Qed.

End StudentViews.

(** X14.  Enrolling shows in the student's course list: after a successful
    enroll request the list of enrolled courses is the list of before
    followed by the new course, with the course's incremented counter and
    progress 0. *)
Theorem enrolled_listing_after_enroll (now : datetime) (db db1 : Db)
  (courseId student : ObjectId) (msg : string) :
  Courses.enroll_in_course now courseId student db = (Ok msg, db1) ->
  exists course listed,
    find_one (Courses.by_course_id courseId) (courses db) = Some course
    /\ CourseViews.get_enrolled_courses student db = (Ok listed, db)
    /\ CourseViews.get_enrolled_courses student db1
       = (Ok (listed ++ [(Courses.inc_studentsEnrolled course, 0)])%list, db1).
Proof.
  intros Hrun.
  destruct (enroll_success _ _ _ _ _ _ Hrun)
    as (course & Hc & He & _ & Henr & Hcourses).
  exists course. eexists. split; [exact Hc|]. split; [reflexivity|].
  unfold CourseViews.get_enrolled_courses, reads. f_equal. f_equal.
  rewrite Henr, Hcourses. unfold find. rewrite filter_app. simpl.
  rewrite Nat.eqb_refl, enrolled_loop_app. f_equal.
  - apply enrolled_loop_ext. intros e Hin.
    apply filter_In in Hin as [Hin Hs]. apply find_one_update_other.
    intros Heq.
    pose proof (find_one_none _ _ He e Hin) as Hno.
    unfold by_course_and_student in Hno.
    rewrite Heq, Nat.eqb_refl, Hs in Hno. discriminate.
  - simpl.
    change (fun c : course_doc => (c_id c =? courseId)%nat)
      with (Courses.by_course_id courseId).
    rewrite find_one_update_one by reflexivity. now rewrite Hc.
Qed.

(** X15.  Whenever the student dashboard answers, its overall progress is
    [round] of the mean of [progress] over the student's enrollments whose
    course exists, and 0 when there is none. *)
Theorem overall_progress_is_mean (db db' : Db) (student : ObjectId)
  (resp : Students.StudentProgress) :
  Students.get_student_progress student db = (Ok resp, db') ->
  let es :=
    filter (fun e =>
              (e_student_id e =? student)%nat
              && existsb (fun c => (c_id c =? e_course_id e)%nat) (courses db))
      (enrollments db) in
  round0 match es with
         | [] => PInt 0
         | _ :: _ =>
             PFloat (int_truediv (fold_left Z.add (map e_progress es) 0)
                       (Z.of_nat (List.length es)))
         end
  = Ok (Students.overall_progress resp)
  /\ (es = [] -> Students.overall_progress resp = 0).
Proof.
  unfold Students.get_student_progress, reads_result, result_bind.
  destruct (Students.progress_loop db student _) as [entries|] eqn:Hloop;
    [|discriminate].
  destruct (progress_loop_fields _ _ _ _ Hloop) as [_ Hmap].
  unfold find in Hmap. rewrite filter_filter in Hmap.
  remember (filter (fun e =>
                      (e_student_id e =? student)%nat
                      && existsb (fun c => (c_id c =? e_course_id e)%nat)
                           (courses db))
              (enrollments db)) as es eqn:Hes.
  clear Hes Hloop. cbv zeta.
  assert (Hlen : List.length entries = List.length es)
    by (rewrite <- (length_map Students.cp_progress), Hmap; apply length_map).
  destruct entries as [|x xs], es as [|e es']; try discriminate.
  - simpl. intros [= <- _]. auto.
  - rewrite Hmap, Hlen.
    match goal with
    | |- context [round0 ?o] => destruct (round0 o) as [ov|]
    end; [|discriminate].
    intros [= <- _]. simpl. split; [reflexivity | discriminate].
Qed.

(** ** Submissions *)

Section SubmissionProperties.
Import Assignments Submissions.

Lemma submit_outcomes (now : datetime) (assignment_id : ObjectId)
  (text file : option string) (user : user_doc) (db : Db) :
  let r := submit_assignment now assignment_id text file user db in
  (exists e, r = (Raise e, db)
             /\ (e = UnboundLocalError "status"
                 \/ e = AttributeError "str" "HTTP_400_BAD_REQUEST"))
  \/ exists assignment,
       find_one (fun a => (as_id a =? assignment_id)%nat) (assignments db)
       = Some assignment
       /\ find_one (by_course_and_student (as_course assignment) (u_id user))
            (enrollments db) <> None
       /\ find_one (by_assignment_and_student assignment_id (u_id user))
            (assignment_submissions db) = None
       /\ fst r = Ok "Assignment submitted successfully"
       /\ assignment_submissions (snd r)
          = (assignment_submissions db
             ++ [{| s_id := next_id db;
                    s_assignment_id := assignment_id;
                    s_student_id := u_id user;
                    s_submission_file := file;
                    s_submission_text := text;
                    s_submitted_at := now;
                    s_status :=
                      if as_deadline assignment <? now then "Late"
                      else "Submitted";
                    s_score := None |}])%list
       /\ exists n,
            notifications (snd r) = (notifications db ++ [n])%list
            /\ n_recipient_id n = as_teacher_id assignment
            /\ n_sender_id n = u_id user
            /\ n_course_id n = as_course assignment
            /\ n_read n = false.
Proof.
  unfold submit_assignment, bind, query, lift, raise.
  destruct (find_one _ (assignments db)) as [assignment|] eqn:Ha;
    [|left; eexists; split; [reflexivity | auto]].
  destruct (find_one _ (enrollments db)) eqn:He;
    [|left; eexists; split; [reflexivity | auto]].
  destruct (find_one _ (assignment_submissions db)) eqn:Hs;
    [left; eexists; split; [reflexivity | auto]|].
  right. exists assignment. split; [reflexivity|]. split; [congruence|].
  split; [reflexivity|]. split; [reflexivity|]. split; [reflexivity|].
  eexists. split; [reflexivity|]. simpl. auto.
Qed.

Lemma after_submit_unique (c : submit_call) (db : Db) :
  submission_unique db -> submission_unique (after_submit c db).
Proof.
  intros H. unfold after_submit.
  destruct (submit_outcomes (sb_now c) (sb_assignment c) (sb_text c)
              (sb_file c) (sb_user c) db)
    as [(e & -> & _)|(assignment & _ & _ & Hnone & _ & Hsub & _)];
    [exact H|].
  intros a s. rewrite Hsub, filter_app. simpl.
  destruct (by_assignment_and_student a s _) eqn:Hk.
  - unfold by_assignment_and_student in Hk. simpl in Hk.
    apply andb_true_iff in Hk as [Ha Hs]. apply Nat.eqb_eq in Ha, Hs. subst.
    rewrite (find_one_none_filter _ _ Hnone). simpl. lia.
  - rewrite app_nil_r. apply H.
Qed.
End SubmissionProperties.

(** X16.  A first submission by an enrolled student is stored once, with
    status "Late" when the request comes after the deadline and "Submitted"
    otherwise, without a score, and exactly one notification goes to the
    assignment's teacher. *)
Theorem first_submission_recorded (now : datetime) (assignment_id : ObjectId)
  (text file : option string) (user : user_doc) (db : Db)
  (assignment : assignment_doc) :
  find_one (fun a => (as_id a =? assignment_id)%nat) (assignments db)
  = Some assignment ->
  find_one (by_course_and_student (as_course assignment) (u_id user))
    (enrollments db) <> None ->
  find_one (Assignments.by_assignment_and_student assignment_id (u_id user))
    (assignment_submissions db) = None ->
  exists db' n,
    Assignments.submit_assignment now assignment_id text file user db
    = (Ok "Assignment submitted successfully", db')
    /\ assignment_submissions db'
       = (assignment_submissions db
          ++ [{| s_id := next_id db;
                 s_assignment_id := assignment_id;
                 s_student_id := u_id user;
                 s_submission_file := file;
                 s_submission_text := text;
                 s_submitted_at := now;
                 s_status :=
                   if as_deadline assignment <? now then "Late"
                   else "Submitted";
                 s_score := None |}])%list
    /\ notifications db' = (notifications db ++ [n])%list
    /\ n_recipient_id n = as_teacher_id assignment
    /\ n_read n = false.
Proof.
  intros Ha He Hs.
  destruct (submit_outcomes now assignment_id text file user db)
    as [(e & Hr & _)|(a' & Ha' & _ & _ & Hok & Hsub & n & Hn & Hrec & _ & _ & Hread)].
  - exfalso. revert Hr.
    unfold Assignments.submit_assignment, bind, query, lift, raise.
    rewrite Ha. destruct (find_one _ (enrollments db)); [|congruence].
    rewrite Hs. discriminate.
  - rewrite Ha in Ha'. injection Ha' as <-.
    destruct (Assignments.submit_assignment now assignment_id text file user db)
      as [r db'].
    simpl in *. subst r. exists db', n. auto.
Qed.

(** X17.  Submissions stay unique per (assignment, student) under any
    sequence of submit requests. *)
Theorem submissions_stay_unique (calls : list Submissions.submit_call) (db : Db) :
  Submissions.submission_unique db ->
  Submissions.submission_unique (Submissions.after_submits calls db).
Proof.
  revert db. induction calls as [|c calls IH]; intros db H; [exact H|].
  simpl. apply IH, after_submit_unique, H.
Qed.

(** X18.  The submit handler never answers with an HTTP error of its own.
    Each of its three refusals ends in an uncaught exception (HTTP 500) and
    writes nothing: [UnboundLocalError] on [status] for an unknown
    assignment and for a student who is not enrolled in the assignment's
    course, [AttributeError] for a duplicate submission; and these are the
    only ways it fails. *)
Theorem submit_refusals_are_uncaught (now : datetime) (assignment_id : ObjectId)
  (text file : option string) (user : user_doc) (db : Db) :
  (find_one (fun a => (as_id a =? assignment_id)%nat) (assignments db) = None ->
   Assignments.submit_assignment now assignment_id text file user db
   = (Raise (UnboundLocalError "status"), db))
  /\ (forall assignment,
        find_one (fun a => (as_id a =? assignment_id)%nat) (assignments db)
        = Some assignment ->
        find_one (by_course_and_student (as_course assignment) (u_id user))
          (enrollments db) = None ->
        Assignments.submit_assignment now assignment_id text file user db
        = (Raise (UnboundLocalError "status"), db))
  /\ (forall assignment,
        find_one (fun a => (as_id a =? assignment_id)%nat) (assignments db)
        = Some assignment ->
        find_one (by_course_and_student (as_course assignment) (u_id user))
          (enrollments db) <> None ->
        find_one (Assignments.by_assignment_and_student assignment_id
                    (u_id user)) (assignment_submissions db) <> None ->
        Assignments.submit_assignment now assignment_id text file user db
        = (Raise (AttributeError "str" "HTTP_400_BAD_REQUEST"), db))
  /\ (forall e db',
        Assignments.submit_assignment now assignment_id text file user db
        = (Raise e, db') ->
        db' = db
        /\ (e = UnboundLocalError "status"
            \/ e = AttributeError "str" "HTTP_400_BAD_REQUEST")
        /\ http_status 200 (@Raise string e) = 500).
Proof.
  split; [|split; [|split]].
  - intros Ha. unfold Assignments.submit_assignment, bind, query, lift, raise.
    now rewrite Ha.
  - intros assignment Ha He.
    unfold Assignments.submit_assignment, bind, query, lift, raise.
    now rewrite Ha, He.
  - intros assignment Ha He Hs.
    unfold Assignments.submit_assignment, bind, query, lift, raise.
    rewrite Ha.
    destruct (find_one _ (enrollments db)); [|congruence].
    destruct (find_one _ (assignment_submissions db)); [reflexivity|congruence].
  - intros e db' Hrun.
    destruct (submit_outcomes now assignment_id text file user db)
      as [(e' & Hr & He)|(a & _ & _ & _ & Hok & _)].
    + rewrite Hrun in Hr. injection Hr as -> ->.
      split; [reflexivity|]. split; [exact He|].
      destruct He as [->| ->]; reflexivity.
    + rewrite Hrun in Hok. discriminate.
Qed.

(** ** Creating and deleting assignments *)

Section AssignmentAdmin.
Import AssignmentsAdmin.

Lemma ids_after_delete_one (course_id id x : ObjectId)
  (l : list assignment_doc) :
  x <> id ->
  existsb (Nat.eqb x)
    (map as_id
       (find (fun a => (as_course a =? course_id)%nat)
          (delete_one (fun a => (as_id a =? id)%nat) l)))
  = existsb (Nat.eqb x)
      (map as_id (find (fun a => (as_course a =? course_id)%nat) l)).
Proof.
  intros Hx. unfold find. induction l as [|a l IH]; simpl; [reflexivity|].
  destruct (Nat.eqb_spec (as_id a) id) as [E|E]; simpl.
  - destruct (as_course a =? course_id)%nat; simpl; [|reflexivity].
    destruct (Nat.eqb_spec x (as_id a)); [congruence | reflexivity].
  - destruct (as_course a =? course_id)%nat; simpl; now rewrite IH.
Qed.

Lemma notify_enrolled_effect (now : datetime) (title courseName : string)
  (courseId u : ObjectId) (cursor : list enrollment_doc) (db : Db) :
  exists news,
    notify_enrolled now title courseName courseId u cursor db
    = (Ok tt,
       with_notifications (fun c => (c ++ news)%list)
         {| courses := courses db; enrollments := enrollments db;
            attendance := attendance db; modules := modules db;
            lessons := lessons db; assignments := assignments db;
            assignment_submissions := assignment_submissions db;
            notifications := notifications db; users := users db;
            student_profiles := student_profiles db;
            password_reset := password_reset db;
            next_id := (next_id db + List.length cursor)%nat |})
    /\ map n_recipient_id news = map e_student_id cursor
    /\ Forall (fun n => n_read n = false /\ n_type n = "assignment"
                        /\ n_course_id n = courseId /\ n_sender_id n = u)
         news.
Proof.
  revert db. induction cursor as [|e rest IH]; intros db.
  - exists []. simpl. unfold ret, with_notifications. simpl.
    rewrite app_nil_r, Nat.add_0_r. destruct db; auto.
  - simpl. unfold bind at 1. unfold insert_one at 1. simpl.
    match goal with
    | |- context [notify_enrolled _ _ _ _ _ rest ?d] =>
        destruct (IH d) as (news & Hrun & Hrec & Hall); rewrite Hrun
    end.
    eexists (_ :: news). split; [|split].
    + unfold with_notifications. simpl. rewrite <- app_assoc. simpl.
      rewrite Nat.add_succ_r. reflexivity.
    + simpl. now rewrite Hrec.
    + constructor; [simpl; auto | exact Hall].
Qed.
End AssignmentAdmin.

(** X19.  Deleting an assignment as its owner also deletes every submission
    made for it and touches no other submission: each student's
    submissions in each course are those of before without the ones for
    the deleted assignment.  For anyone else the request fails with 404
    and changes nothing. *)
Theorem delete_assignment_removes_submissions (assignment_id u : ObjectId)
  (db : Db) :
  (find_one (AssignmentsAdmin.by_id_and_owner assignment_id u) (assignments db)
   = None ->
   AssignmentsAdmin.delete_assignment assignment_id u db
   = (Raise (HTTPException 404
               "Assignment not found or you don't have permission"), db))
  /\ (find_one (AssignmentsAdmin.by_id_and_owner assignment_id u)
        (assignments db) <> None ->
      exists db',
        AssignmentsAdmin.delete_assignment assignment_id u db
        = (Ok "Assignment deleted successfully", db')
        /\ assignment_submissions db'
           = filter (fun s => negb (s_assignment_id s =? assignment_id)%nat)
               (assignment_submissions db)
        /\ forall course_id student,
             course_submissions db' course_id student
             = filter (fun s => negb (s_assignment_id s =? assignment_id)%nat)
                 (course_submissions db course_id student)).
Proof.
  unfold AssignmentsAdmin.delete_assignment, bind, query, raise, write, ret.
  destruct (find_one _ (assignments db)); split; intros H; try congruence;
    try reflexivity.
  eexists. split; [reflexivity|]. simpl. split; [reflexivity|].
  intros course_id student. unfold course_submissions, find, delete_many.
  simpl. rewrite !filter_filter. apply filter_ext. intros s.
  destruct (Nat.eqb_spec (s_assignment_id s) assignment_id) as [E|E]; simpl.
  - now rewrite andb_false_r.
  - rewrite andb_true_r.
    pose proof (ids_after_delete_one course_id assignment_id
                  (s_assignment_id s) (assignments db) E) as Hids.
    unfold find in Hids. now rewrite Hids.
Qed.

(** X20.  Creating an assignment notifies the students enrolled at that
    moment, once each: the request appends the assignment and one unread
    notification per enrollment of the course, addressed to that
    enrollment's student, in ledger order, and leaves the ledger as it is.
    A deadline that does not parse gives 400 and writes nothing. *)
Theorem create_assignment_notifies_enrolled
  (fromisoformat : string -> option datetime) (now : datetime)
  (title courseName deadline : string) (courseId u : ObjectId) (db : Db) :
  find_one (by_id_and_teacher courseId u) (courses db) <> None ->
  match fromisoformat deadline with
  | None =>
      AssignmentsAdmin.create_assignment fromisoformat now title courseId
        courseName deadline u db
      = (Raise (HTTPException 400
                  "Invalid deadline format. Use ISO format (YYYY-MM-DD)"), db)
  | Some deadline_date =>
      exists a db' news,
        AssignmentsAdmin.create_assignment fromisoformat now title courseId
          courseName deadline u db = (Ok a, db')
        /\ assignments db' = (assignments db ++ [a])%list
        /\ as_deadline a = deadline_date /\ as_course a = courseId
        /\ as_teacher_id a = u
        /\ notifications db' = (notifications db ++ news)%list
        /\ map n_recipient_id news
           = map e_student_id
               (filter (fun e => (e_course_id e =? courseId)%nat)
                  (enrollments db))
        /\ Forall (fun n => n_read n = false /\ n_type n = "assignment"
                            /\ n_course_id n = courseId /\ n_sender_id n = u)
             news
        /\ enrollments db' = enrollments db
  end.
Proof.
  intros Hc.
  unfold AssignmentsAdmin.create_assignment.
  destruct (fromisoformat deadline) as [d|];
    unfold bind, query, raise, insert_one, ret;
    (destruct (find_one _ (courses db)); [|congruence]);
    [|reflexivity].
  simpl.
  match goal with
  | |- context [AssignmentsAdmin.notify_enrolled ?n ?t ?cn ?ci ?cu ?cur ?d0] =>
      destruct (notify_enrolled_effect n t cn ci cu cur d0)
        as (news & Hrun & Hrec & Hall); rewrite Hrun
  end.
  eexists. eexists. exists news. split; [reflexivity|]. simpl.
  repeat split; auto.
Qed.

(** ** Token refresh and password recovery, as [auth.py] stands *)

(** X21.  The refresh endpoint never issues a token: without a cookie, or
    with an empty one, it answers 401 "Refresh token required"; with any
    other cookie the request ends in an uncaught [NameError]. *)
Theorem refresh_token_never_issues
  (jwt_decode : string -> result Auth.TokenPayload)
  (create_access_token create_refresh_token : string -> string)
  (cookie : option string) :
  Auth.refresh_token jwt_decode create_access_token create_refresh_token cookie
  = if Auth.truthy cookie
    then Raise (NameError "JWTError")
    else Raise (HTTPException 401 "Refresh token required").
Proof.
  unfold Auth.refresh_token, Auth.refresh_token_in.
  destruct cookie as [tok|]; [|reflexivity].
  destruct (Auth.truthy (Some tok)); reflexivity.
Qed.

(** X22.  The forgot-password handler never stores a reset code: whatever
    the email and the state of the store, it returns the database as it
    was, and its answer depends on the email and the users only, neither
    on the drawn code nor on the mail server. *)
Theorem forgot_password_never_writes (now now' : datetime) (otp otp' : string)
  (smtp smtp' : result unit) (email : string) (db : Db) :
  snd (Auth.forgot_password now otp smtp email db) = db
  /\ Auth.forgot_password now otp smtp email db
     = Auth.forgot_password now' otp' smtp' email db.
Proof.
  unfold Auth.forgot_password, Auth.forgot_password_in, bind, lift, query.
  simpl Auth.uses. destruct (find_one _ (users db)); split; reflexivity.
Qed.

(** ** The further properties at sample inputs *)

Lemma enroll_respects_capacity_witness :
  Ledger.capacity_respected
    (Ledger.after_enrolls Samples.four_enrolls Samples.db_open)
  /\ Spec.studentsEnrolled
       (Ledger.after_enrolls Samples.four_enrolls Samples.db_open) 1%nat
     = Some 2.
Proof.
  split; [|reflexivity].
  apply (enroll_respects_capacity Samples.four_enrolls Samples.db_open).
  repeat constructor. simpl. lia.
Defined.

Lemma enroll_keeps_ledger_unique_witness :
  Ledger.enrollment_unique
    (Ledger.after_enrolls Samples.four_enrolls Samples.db_open)
  /\ map e_student_id
       (enrollments (Ledger.after_enrolls Samples.four_enrolls Samples.db_open))
     = [20%nat; 21%nat].
Proof.
  split; [|reflexivity].
  apply (enroll_keeps_ledger_unique Samples.four_enrolls Samples.db_open).
  intros course student. simpl. lia.
Defined.

Lemma enroll_keeps_counters_consistent_witness :
  Ledger.counters_consistent
    (Ledger.after_enrolls Samples.four_enrolls Samples.db_open).
Proof.
  apply (enroll_keeps_counters_consistent Samples.four_enrolls Samples.db_open).
  split.
  - simpl. repeat constructor. simpl. tauto.
  - repeat constructor.
Defined.

Lemma enroll_failure_writes_nothing_witness :
  Examples.db_full = Examples.db_full
  /\ (HTTPException 400 "Course is full" = HTTPException 404 "Course not found"
      \/ HTTPException 400 "Course is full"
         = HTTPException 400 "Already enrolled in this course"
      \/ HTTPException 400 "Course is full" = HTTPException 400 "Course is full").
Proof.
  apply (enroll_failure_writes_nothing 7 Examples.db_full Examples.db_full
           50%nat 22%nat (HTTPException 400 "Course is full")).
  reflexivity.
Defined.


Lemma record_attendance_frame_other_keys_witness :
  Spec.records_for (1%nat, 20%nat, 2)
    (snd (Attendance.record_attendance 9
            {| Attendance.ac_course_id := 1%nat;
               Attendance.ac_student_id := 20%nat;
               Attendance.ac_date := 1; Attendance.ac_status := "Late";
               Attendance.ac_time := None; Attendance.ac_note := None |}
            10%nat Examples.db_scenario))
  = Spec.records_for (1%nat, 20%nat, 2) Examples.db_scenario.
Proof.
  apply (record_attendance_frame_other_keys 9
           {| Attendance.ac_course_id := 1%nat;
              Attendance.ac_student_id := 20%nat;
              Attendance.ac_date := 1; Attendance.ac_status := "Late";
              Attendance.ac_time := None; Attendance.ac_note := None |}
           10%nat Examples.db_scenario (1%nat, 20%nat, 2)).
  - unfold Spec.attendance_ids_unique. simpl.
    repeat constructor; simpl; intuition discriminate.
  - discriminate.
Defined.



Lemma orders_stay_distinct_witness :
  Tree.orders_distinct (Tree.after_tree_calls Samples.tree_calls Examples.db_lessons)
  /\ Spec.lesson_orders
       (Tree.after_tree_calls Samples.tree_calls Examples.db_lessons) 60%nat
     = [1; 2; 3].
Proof.
  split; [|reflexivity].
  apply (orders_stay_distinct Samples.tree_calls Examples.db_lessons).
  split.
  - intros c. unfold Spec.module_orders. cbn -[Nat.eqb].
    destruct (1 =? c)%nat; simpl; repeat constructor. simpl. tauto.
  - intros m. unfold Spec.lesson_orders, Courses.by_module_id.
    cbn -[Nat.eqb].
    destruct (60 =? m)%nat; simpl; repeat constructor; simpl;
      intuition discriminate.
Defined.

Lemma modules_stay_flagged_witness :
  Tree.modules_flagged
    (Tree.after_tree_calls [Tree.CreateModule 9 1%nat "Fields" None 10%nat]
       Samples.db_open)
  /\ map c_hasModules
       (courses
          (Tree.after_tree_calls [Tree.CreateModule 9 1%nat "Fields" None 10%nat]
             Samples.db_open))
     = [true].
Proof.
  split; [|reflexivity].
  apply (modules_stay_flagged [Tree.CreateModule 9 1%nat "Fields" None 10%nat]
           Samples.db_open).
  intros m [].
Defined.

Lemma course_modules_sorted_witness :
  exists out,
    CourseViews.get_course_modules 1%nat "teacher" 10%nat Examples.db_lessons
    = (Ok out, Examples.db_lessons)
    /\ Sorted (fun a b => m_order a <= m_order b) (map fst out).
Proof.
  destruct (course_modules_sorted 1%nat 10%nat "teacher" Examples.db_lessons)
    as [_ Hlist]; [discriminate|].
  destruct Hlist as (out & Hrun & _ & Hsorted & _); [left; discriminate|].
  exists out. split; assumption.
Defined.

Lemma delete_lesson_twice_witness :
  Courses.delete_lesson 1%nat 60%nat 63%nat 10%nat Examples.db_after_delete
  = (Raise (HTTPException 404
              "Lesson not found or doesn't belong to this module"),
     Examples.db_after_delete).
Proof.
  apply (delete_lesson_twice 1%nat 60%nat 63%nat 10%nat Examples.db_lessons
           Examples.db_after_delete "Lesson deleted successfully").
  - unfold Spec.lesson_ids_unique. simpl.
    repeat constructor; simpl; intuition discriminate.
  - reflexivity.
Defined.

Lemma lesson_link_or_file_witness :
  (l_materialUrl Samples.link_lesson = None
   \/ l_materialFile Samples.link_lesson = None)
  /\ (l_materialUrl Samples.link_lesson <> None -> Some "link" = Some "link")
  /\ (l_materialFile Samples.link_lesson <> None ->
      Some "link" = Some "pdf" \/ Some "link" = Some "video"
      \/ Some "link" = Some "file").
Proof.
  apply (lesson_link_or_file 9 1%nat 60%nat 10%nat "Rings" "45 min" None
           (Some "link") (Some "https://example.com/rings")
           (Some "lesson_materials/rings.pdf") Examples.db_lessons
           (snd (Courses.create_lesson 9 1%nat 60%nat "Rings" "45 min" None
                   (Some "link") (Some "https://example.com/rings")
                   (Some "lesson_materials/rings.pdf") 10%nat
                   Examples.db_lessons))
           Samples.link_lesson).
  reflexivity.
Defined.

Lemma enrolled_listing_after_enroll_witness :
  exists course listed,
    find_one (Courses.by_course_id 1%nat) (courses Examples.db_scenario)
    = Some course
    /\ CourseViews.get_enrolled_courses 21%nat Examples.db_scenario
       = (Ok listed, Examples.db_scenario)
    /\ CourseViews.get_enrolled_courses 21%nat
         (snd (Courses.enroll_in_course 7 1%nat 21%nat Examples.db_scenario))
       = (Ok (listed ++ [(Courses.inc_studentsEnrolled course, 0)])%list,
          snd (Courses.enroll_in_course 7 1%nat 21%nat Examples.db_scenario)).
Proof.
  apply (enrolled_listing_after_enroll 7 Examples.db_scenario
           (snd (Courses.enroll_in_course 7 1%nat 21%nat Examples.db_scenario))
           1%nat 21%nat "Successfully enrolled in course").
  reflexivity.
Defined.

Lemma first_submission_recorded_witness :
  exists db' n,
    Assignments.submit_assignment 150 30%nat (Some "answer") None Examples.ada
      Samples.db_assigned
    = (Ok "Assignment submitted successfully", db')
    /\ map s_status (assignment_submissions db') = ["Late"]
    /\ n_recipient_id n = 10%nat.
Proof.
  destruct (first_submission_recorded 150 30%nat (Some "answer") None
              Examples.ada Samples.db_assigned Examples.essay)
    as (db' & n & Hrun & Hsub & _ & Hrec & _);
    [reflexivity | discriminate | reflexivity |].
  exists db', n. split; [exact Hrun|]. split; [|exact Hrec].
  rewrite Hsub. reflexivity.
Defined.

Lemma submissions_stay_unique_witness :
  Submissions.submission_unique
    (Submissions.after_submits [Samples.submit 50 30%nat; Samples.submit 60 30%nat]
       Samples.db_assigned)
  /\ map s_status
       (assignment_submissions
          (Submissions.after_submits
             [Samples.submit 50 30%nat; Samples.submit 60 30%nat]
             Samples.db_assigned))
     = ["Submitted"].
Proof.
  split; [|reflexivity].
  apply (submissions_stay_unique
           [Samples.submit 50 30%nat; Samples.submit 60 30%nat]
           Samples.db_assigned).
  intros a s. simpl. lia.
Defined.

Lemma submit_refusals_are_uncaught_witness :
  Assignments.submit_assignment 50 99%nat None None Examples.ada
    Samples.db_assigned
  = (Raise (UnboundLocalError "status"), Samples.db_assigned)
  /\ Assignments.submit_assignment 50 30%nat None None Samples.eve
       Samples.db_assigned
     = (Raise (UnboundLocalError "status"), Samples.db_assigned)
  /\ Assignments.submit_assignment 60 30%nat (Some "second try") None
       Examples.ada Examples.db_grades
     = (Raise (AttributeError "str" "HTTP_400_BAD_REQUEST"), Examples.db_grades).
Proof.
  split; [|split].
  - apply (submit_refusals_are_uncaught 50 99%nat None None Examples.ada
             Samples.db_assigned).
    reflexivity.
  - apply (proj1 (proj2 (submit_refusals_are_uncaught 50 30%nat None None
                           Samples.eve Samples.db_assigned)) Examples.essay);
      reflexivity.
  - apply (proj1 (proj2 (proj2 (submit_refusals_are_uncaught 60 30%nat
                                  (Some "second try") None Examples.ada
                                  Examples.db_grades))) Examples.essay);
      [reflexivity | discriminate | discriminate].
Defined.

Lemma overall_progress_is_mean_witness :
  exists resp,
    Students.get_student_progress 20%nat Samples.db_two_courses
    = (Ok resp, Samples.db_two_courses)
    /\ Students.overall_progress resp = 62.
Proof.
  exists {| Students.overall_progress := 62;
            Students.progress_courses :=
              match Students.progress_loop Samples.db_two_courses 20%nat
                      (enrollments Samples.db_two_courses) with
              | Ok entries => entries
              | Raise _ => []
              end |}.
  assert (Hrun : Students.get_student_progress 20%nat Samples.db_two_courses
                 = (Ok {| Students.overall_progress := 62;
                          Students.progress_courses :=
                            match Students.progress_loop Samples.db_two_courses
                                    20%nat (enrollments Samples.db_two_courses)
                            with
                            | Ok entries => entries
                            | Raise _ => []
                            end |}, Samples.db_two_courses))
    by (vm_compute; reflexivity).
  split; [exact Hrun|].
  destruct (overall_progress_is_mean _ _ _ _ Hrun) as [Hmean _].
  exact (f_equal (fun r => match r with Ok z => z | Raise _ => 0 end)
           (eq_sym Hmean)).
Defined.

Lemma delete_assignment_removes_submissions_witness :
  exists db',
    AssignmentsAdmin.delete_assignment 30%nat 10%nat Examples.db_grades
    = (Ok "Assignment deleted successfully", db')
    /\ map s_id (course_submissions db' 1%nat 20%nat) = [41%nat; 42%nat].
Proof.
  destruct (delete_assignment_removes_submissions 30%nat 10%nat
              Examples.db_grades) as [_ Hdel].
  destruct Hdel as (db' & Hrun & _ & Hsubs); [discriminate|].
  exists db'. split; [exact Hrun|]. rewrite Hsubs. reflexivity.
Defined.

Lemma create_assignment_notifies_enrolled_witness :
  exists a db' news,
    AssignmentsAdmin.create_assignment (fun _ => Some 100) 9 "Essay" 1%nat
      "Algebra" "2024-02-01" 10%nat Examples.db_scenario = (Ok a, db')
    /\ notifications db' = (notifications Examples.db_scenario ++ news)%list
    /\ map n_recipient_id news = [20%nat].
Proof.
  destruct (create_assignment_notifies_enrolled (fun _ => Some 100) 9 "Essay"
              "Algebra" "2024-02-01" 1%nat 10%nat Examples.db_scenario)
    as (a & db' & news & Hrun & _ & _ & _ & _ & Hn & Hrec & _);
    [discriminate|].
  exists a, db', news. auto.
Defined.
